(** * strongarm: the Objective-C runtime data parser

    A shallow embedding of [strongarm/macho/objc_runtime_data_parser.py]
    and the properties of its selref pass, classlist pass, method-list pass,
    selector queries and linked-dylib symbol map.

    Python values are modelled as follows.
    - [int] is [Z] (unbounded, two's complement bit operations).
    - [Optional[T]] is [option T]; Python's [None] is Rocq's [None].
    - [bytes]/[bytearray] is [list byte].
    - [dict] is stdpp's [gmap]; [list] is [list].
    - a raised exception is the [None] outcome of the monad [M], which also
      carries the log calls made so far. *)

From Stdlib Require Import ZArith String List Lia Bool.
From Stdlib.Strings Require Import Byte.
From Stdlib.Strings Require HexString.
From stdpp Require Import base option list gmap strings sorting.

Open Scope Z_scope.

(** ** Python and ctypes primitives *)

Module Py.

(** [l[i]] on a Python list: a negative index counts from the end, an
    index out of range raises [IndexError]. *)
Definition index {A} (l : list A) (i : Z) : option A :=
  let n := Z.of_nat (length l) in
  if 0 <=? i then l !! Z.to_nat i
  else if - n <=? i then l !! Z.to_nat (n + i)
  else None.

(** The two ctypes word types [MachoBinary.platform_word_type] can be. *)
Inductive WordType := c_uint32 | c_uint64.

Definition sizeof (w : WordType) : Z :=
  match w with c_uint32 => 4 | c_uint64 => 8 end.

(** Rounding of an integer to the nearest integer with a 53-bit
    significand, ties to even: the conversion of an [int] to a binary64
    [float]. *)
Definition round_to_double (a : Z) : Z :=
  let m := Z.abs a in
  let n := Z.log2 m + 1 in
  if n <=? 53 then a
  else
    let sh := n - 53 in
    let q := m / 2 ^ sh in
    let r := m mod 2 ^ sh in
    let half := 2 ^ (sh - 1) in
    let q' := if (half <? r) || ((r =? half) && Z.odd q) then q + 1 else q in
    Z.sgn a * (q' * 2 ^ sh).

(** [int(a / b)] with Python 3's true division, for [b] a power of two
    (here always [sizeof] of a word type): the correctly rounded quotient
    is the rounded numerator scaled exactly, and [int] truncates. Under
    Python 2 the same expression is floor division; the two agree below
    [2^53], see [int_truediv_small]. *)
Definition int_truediv (a b : Z) : Z := Z.quot (round_to_double a) b.

(** Little-endian value of a byte string. *)
Fixpoint le_value (bs : list byte) : Z :=
  match bs with
  | [] => 0
  | x :: rest => Z.of_N (Byte.to_N x) + 256 * le_value rest
  end.

(** [w.from_buffer(buf).value]: the first [sizeof w] bytes of the buffer
    as an unsigned integer in the byte order of the host (little-endian);
    a buffer that is too small raises [ValueError]. *)
Definition from_buffer (w : WordType) (buf : list byte) : option Z :=
  if Z.of_nat (length buf) <? sizeof w then None
  else Some (le_value (take (Z.to_nat (sizeof w)) buf)).

(** [buf[lo:hi]] for [0 <= lo]. *)
Definition slice {A} (buf : list A) (lo hi : Z) : list A :=
  take (Z.to_nat (hi - lo)) (drop (Z.to_nat lo) buf).

End Py.

(** ** Log events and the parser monad *)

(** The calls to [DebugUtil.log] and [logging.warning] the parser makes,
    with the values they format into the message. *)
Inductive LogEvent :=
| LogParsingRuntimeInfo
| LogStep1ParsingSelrefs
| LogStep2ParsingClasses
| LogResolvingDylibMap
| LogCrossReferencing
| LogParsingSelectorsForClass (name : string)
| LogInvalidObjcDataRaw (data : Z) (data_name : Z)
| WarnLargeObjcSection (selref_count : Z).

(** A computation that logs and either returns or raises. *)
Definition M (A : Type) : Type := list LogEvent * option A.

#[global] Instance M_ret : MRet M := λ A a, ([], Some a).

#[global] Instance M_bind : MBind M := λ A B f m,
  match m with
  | (l, None) => (l, None)
  | (l, Some a) => let '(l', r) := f a in (l ++ l', r)
  end.

(** A call that may raise but does not log. *)
Definition lift {A} (o : option A) : M A := ([], o).

Definition log (e : LogEvent) : M unit := ([e], Some tt).

Definition result {A} (m : M A) : option A := snd m.
Definition logged {A} (m : M A) : list LogEvent := fst m.

(** [for x in xs: acc.append(body(x))], starting from [acc]. *)
Fixpoint for_append {A B} (body : A → M B) (xs : list A) (acc : list B) : M (list B) :=
  match xs with
  | [] => mret acc
  | x :: rest => y ← body x; for_append body rest (acc ++ [y])
  end.

(** [range(n)] *)
Definition range (n : Z) : list Z := seqZ 0 n.

(** ** Data model *)

Module ObjcSelref.
Record t := mk {
  source_address : Z;
  destination_address : Z;
  selector_literal : string;
}.
End ObjcSelref.

Module ObjcSelector.
Record t := mk {
  name : string;
  selref : option ObjcSelref.t;
  implementation : option Z;
  is_external_definition : bool;
}.

(** Python's [not self.implementation]: true for [None] and for [0]. *)
Definition not_implementation (implementation : option Z) : bool :=
  match implementation with
  | None => true
  | Some v => v =? 0
  end.

(** [ObjcSelector.__init__] *)
Definition init (name : string) (selref : option ObjcSelref.t)
    (implementation : option Z) : t :=
  mk name selref implementation (not_implementation implementation).
End ObjcSelector.

Module ObjcClass.
Record t := mk {
  name : string;
  selectors : list ObjcSelector.t;
}.
End ObjcClass.

(** ** The collaborators the parser reads from

    [MachoBinary] and the structures of [arch_independent_structs] are
    defined outside the parser; they are taken as given. Only the fields the
    parser consumes are kept. A reader returns [None] where the Python call
    raises. *)

Module ObjcClassRawStruct.
Record t := mk { data : Z }.
End ObjcClassRawStruct.

Module ObjcDataRawStruct.
Record t := mk { name : Z; base_methods : Z }.
End ObjcDataRawStruct.

Module ObjcMethodListStruct.
Record t := mk { methcount : Z; sizeof : Z }.
End ObjcMethodListStruct.

Module ObjcMethodStruct.
Record t := mk { name : Z; signature : Z; implementation : Z; sizeof : Z }.
End ObjcMethodStruct.

Module DylibCommandStruct.
(** [name_offset] is [dylib.name.offset]. *)
Record t := mk { fileoff : Z; name_offset : Z }.
End DylibCommandStruct.

Module Nlist.
(** [n_strx] is [n_un.n_strx]. *)
Record t := mk { n_strx : Z; n_desc : Z }.
End Nlist.

Module MachoSection.
(** [size] is [cmd.size]. *)
Record t := mk { address : Z; size : Z; content : list byte }.
End MachoSection.

Module MachoBinary.
Record t := mk {
  platform_word_type : Py.WordType;
  sections : gmap string MachoSection.t;
  get_virtual_base : Z;
  (** [get_content_from_virtual_address(virtual_address, size)] *)
  get_content_from_virtual_address : Z → Z → option (list byte);
  (** [get_full_string_from_start_address(start_address, virtual)]: the
    NUL-terminated string at the address, a [Text] as the parser's type
    comments have it *)
  get_full_string_from_start_address : Z → bool → option string;
  file_offset_for_virtual_address : Z → option Z;
  (** [symtab.stroff], [symtab_contents], [dysymtab.iundefsym],
      [dysymtab.nundefsym], [load_dylib_commands] *)
  symtab_stroff : Z;
  symtab_contents : list Nlist.t;
  dysymtab_iundefsym : Z;
  dysymtab_nundefsym : Z;
  load_dylib_commands : list DylibCommandStruct.t;
  (** The constructors [ObjcClassRawStruct(binary, address, virtual)],
      [ObjcDataRawStruct(binary, address, virtual)],
      [ObjcMethodListStruct(binary, offset)] and
      [ObjcMethodStruct(binary, offset)]. *)
  read_ObjcClassRawStruct : Z → bool → option ObjcClassRawStruct.t;
  read_ObjcDataRawStruct : Z → bool → option ObjcDataRawStruct.t;
  read_ObjcMethodListStruct : Z → option ObjcMethodListStruct.t;
  read_ObjcMethodStruct : Z → option ObjcMethodStruct.t;
}.
End MachoBinary.

(** ** [ObjcRuntimeDataParser]: the selrefs pass *)

(** [log_long_parse] *)
Definition log_long_parse (selref_count : Z) : M unit :=
  if selref_count <? 1000 then mret tt
  else log (WarnLargeObjcSection selref_count).

(** The body of the loop of [_parse_selrefs]. *)
Definition parse_selref_entry (binary : MachoBinary.t)
    (selref_sect : MachoSection.t) (i : Z) : M ObjcSelref.t :=
  let binary_word := MachoBinary.platform_word_type binary in
  let selref_addr := MachoSection.address selref_sect + i * Py.sizeof binary_word in
  selref_val_bytes ← lift (MachoBinary.get_content_from_virtual_address binary
                             selref_addr (Py.sizeof binary_word));
  selref_val ← lift (Py.from_buffer binary_word selref_val_bytes);
  selref_contents ← lift (MachoBinary.get_full_string_from_start_address binary
                            selref_val true);
  mret (ObjcSelref.mk selref_addr selref_val selref_contents).

(** [_parse_selrefs] *)
Definition _parse_selrefs (binary : MachoBinary.t) : M (list ObjcSelref.t) :=
  match MachoBinary.sections binary !! "__objc_selrefs"%string with
  | None => mret []
  | Some selref_sect =>
      let binary_word := MachoBinary.platform_word_type binary in
      let entry_count :=
        Py.int_truediv (MachoSection.size selref_sect) (Py.sizeof binary_word) in
      log_long_parse entry_count;;
      for_append (parse_selref_entry binary selref_sect) (range entry_count) []
  end.

(** ** [ObjcDataEntryParser] *)

Module ObjcDataEntryParser.

Record t := mk {
  _binary : MachoBinary.t;
  _selrefs : list ObjcSelref.t;
  _objc_data_raw_struct : ObjcDataRawStruct.t;
  _selref_pointer_map : gmap Z ObjcSelref.t;
}.

(** The loop of [__init__]: the map from a selref's destination to the
    selref; a later selref replaces an earlier one with the same
    destination. *)
Definition build_selref_pointer_map (selrefs : list ObjcSelref.t)
    : gmap Z ObjcSelref.t :=
  foldl (λ m selref, <[ObjcSelref.destination_address selref := selref]> m)
        ∅ selrefs.

(** [__init__] *)
Definition init (binary : MachoBinary.t) (selref_list : list ObjcSelref.t)
    (objc_data_raw_struct : ObjcDataRawStruct.t) : t :=
  mk binary selref_list objc_data_raw_struct
     (build_selref_pointer_map selref_list).

(** [get_selref_for_objc_method] *)
Definition get_selref_for_objc_method (self : t)
    (objc_method : ObjcMethodStruct.t) : option ObjcSelref.t :=
  let name_ptr := ObjcMethodStruct.name objc_method in
  _selref_pointer_map self !! name_ptr.

(** [method_ent.implementation &= ~0x3] *)
Definition byte_align_imp (method_ent : ObjcMethodStruct.t) : ObjcMethodStruct.t :=
  ObjcMethodStruct.mk
    (ObjcMethodStruct.name method_ent)
    (ObjcMethodStruct.signature method_ent)
    (Z.land (ObjcMethodStruct.implementation method_ent) (Z.lnot 3))
    (ObjcMethodStruct.sizeof method_ent).

(** The loop of [_get_selectors_from_methlist]: [n] iterations remain,
    [method_entry_off] is the offset of the next entry and [selectors]
    the list built so far. *)
Fixpoint methlist_loop (self : t) (n : nat) (method_entry_off : Z)
    (selectors : list ObjcSelector.t) : M (list ObjcSelector.t) :=
  match n with
  | O => mret selectors
  | S n' =>
      method_ent ← lift (MachoBinary.read_ObjcMethodStruct (_binary self)
                           method_entry_off);
      let method_ent := byte_align_imp method_ent in
      symbol_name ← lift (MachoBinary.get_full_string_from_start_address
                            (_binary self) (ObjcMethodStruct.name method_ent) true);
      let selref := get_selref_for_objc_method self method_ent in
      let selector :=
        ObjcSelector.init symbol_name selref
          (Some (ObjcMethodStruct.implementation method_ent)) in
      methlist_loop self n' (method_entry_off + ObjcMethodStruct.sizeof method_ent)
                    (selectors ++ [selector])
  end.

(** [_get_selectors_from_methlist] *)
Definition _get_selectors_from_methlist (self : t)
    (methlist : ObjcMethodListStruct.t) (methlist_file_ptr : Z)
    : M (list ObjcSelector.t) :=
  let method_entry_off := methlist_file_ptr + ObjcMethodListStruct.sizeof methlist in
  methlist_loop self (Z.to_nat (ObjcMethodListStruct.methcount methlist))
                method_entry_off [].

(** [_get_methlist] *)
Definition _get_methlist (self : t) : M (option (ObjcMethodListStruct.t * Z)) :=
  if ObjcDataRawStruct.base_methods (_objc_data_raw_struct self) =? 0 then mret None
  else
    methlist_file_ptr ← lift (MachoBinary.file_offset_for_virtual_address (_binary self)
                                (ObjcDataRawStruct.base_methods (_objc_data_raw_struct self)));
    methlist ← lift (MachoBinary.read_ObjcMethodListStruct (_binary self)
                       methlist_file_ptr);
    mret (Some (methlist, methlist_file_ptr)).

(** [get_selectors] *)
Definition get_selectors (self : t) : M (list ObjcSelector.t) :=
  methlist_info ← _get_methlist self;
  match methlist_info with
  | None => mret []
  | Some (methlist, methlist_file_ptr) =>
      _get_selectors_from_methlist self methlist methlist_file_ptr
  end.

End ObjcDataEntryParser.

(** ** [ObjcRuntimeDataParser]: the classlist pass *)

(** The loop of [_get_classlist_pointers]: [n] iterations remain. *)
Fixpoint classlist_loop (binary_word : Py.WordType) (classlist_data : list byte)
    (n : nat) (classlist_off : Z) (classlist_entries : list Z) : M (list Z) :=
  match n with
  | O => mret classlist_entries
  | S n' =>
      let data_end := classlist_off + Py.sizeof binary_word in
      val ← lift (Py.from_buffer binary_word
                    (Py.slice classlist_data classlist_off data_end));
      classlist_loop binary_word classlist_data n'
                     (classlist_off + Py.sizeof binary_word)
                     (classlist_entries ++ [val])
  end.

(** [_get_classlist_pointers] *)
Definition _get_classlist_pointers (binary : MachoBinary.t) : M (list Z) :=
  match MachoBinary.sections binary !! "__objc_classlist"%string with
  | None => mret []
  | Some sect =>
      let classlist_data := MachoSection.content sect in
      let binary_word := MachoBinary.platform_word_type binary in
      let classlist_size :=
        Py.int_truediv (Z.of_nat (length classlist_data)) (Py.sizeof binary_word) in
      classlist_loop binary_word classlist_data (Z.to_nat classlist_size) 0 []
  end.

(** [_get_objc_class_from_classlist_pointer] *)
Definition _get_objc_class_from_classlist_pointer (binary : MachoBinary.t)
    (entry_location : Z) : M ObjcClassRawStruct.t :=
  class_entry ← lift (MachoBinary.read_ObjcClassRawStruct binary entry_location true);
  mret (ObjcClassRawStruct.mk
          (Z.land (ObjcClassRawStruct.data class_entry) (Z.lnot 3))).

(** [_get_objc_data_from_objc_class] *)
Definition _get_objc_data_from_objc_class (binary : MachoBinary.t)
    (objc_class : ObjcClassRawStruct.t) : M (option ObjcDataRawStruct.t) :=
  data_entry ← lift (MachoBinary.read_ObjcDataRawStruct binary
                       (ObjcClassRawStruct.data objc_class) true);
  if ObjcDataRawStruct.name data_entry <? MachoBinary.get_virtual_base binary then
    log (LogInvalidObjcDataRaw (ObjcClassRawStruct.data objc_class)
                               (ObjcDataRawStruct.name data_entry));;
    mret None
  else mret (Some data_entry).

(** [_parse_objc_data_entry] *)
Definition _parse_objc_data_entry (binary : MachoBinary.t)
    (selrefs : list ObjcSelref.t) (objc_data_raw : ObjcDataRawStruct.t)
    : M ObjcClass.t :=
  let data_parser := ObjcDataEntryParser.init binary selrefs objc_data_raw in
  name ← lift (MachoBinary.get_full_string_from_start_address binary
                 (ObjcDataRawStruct.name objc_data_raw) true);
  log (LogParsingSelectorsForClass name);;
  selectors ← ObjcDataEntryParser.get_selectors data_parser;
  mret (ObjcClass.mk name selectors).

(** The body of the loop of [_parse_static_objc_runtime_info]: what one
    classlist pointer adds to [parsed_objc_classes]. The raw class structure
    is an object, hence true in [if objc_class:]. *)
Definition parse_classlist_pointer (binary : MachoBinary.t)
    (selrefs : list ObjcSelref.t) (ptr : Z) : M (list ObjcClass.t) :=
  objc_class ← _get_objc_class_from_classlist_pointer binary ptr;
  objc_data_struct ← _get_objc_data_from_objc_class binary objc_class;
  match objc_data_struct with
  | Some objc_data_struct =>
      c ← _parse_objc_data_entry binary selrefs objc_data_struct;
      mret [c]
  | None => mret []
  end.

(** The loop of [_parse_static_objc_runtime_info]. *)
Fixpoint classes_loop (binary : MachoBinary.t) (selrefs : list ObjcSelref.t)
    (classlist_pointers : list Z) (parsed_objc_classes : list ObjcClass.t)
    : M (list ObjcClass.t) :=
  match classlist_pointers with
  | [] => mret parsed_objc_classes
  | ptr :: rest =>
      added ← parse_classlist_pointer binary selrefs ptr;
      classes_loop binary selrefs rest (parsed_objc_classes ++ added)
  end.

(** [_parse_static_objc_runtime_info] *)
Definition _parse_static_objc_runtime_info (binary : MachoBinary.t)
    (selrefs : list ObjcSelref.t) : M (list ObjcClass.t) :=
  log LogCrossReferencing;;
  classlist_pointers ← _get_classlist_pointers binary;
  classes_loop binary selrefs classlist_pointers [].

(** ** [ObjcRuntimeDataParser]: the linked-dylib symbol map *)

(** [_library_ordinal_from_n_desc] *)
Definition _library_ordinal_from_n_desc (n_desc : Z) : Z :=
  Z.land (Z.shiftr n_desc 8) 255.

(** [_dylib_from_library_ordinal] *)
Definition _dylib_from_library_ordinal (binary : MachoBinary.t) (ordinal : Z)
    : option DylibCommandStruct.t :=
  Py.index (MachoBinary.load_dylib_commands binary) (ordinal - 1).

(** The body of the loop of [_parse_linked_dylib_symbols]: the pair
    [(symbol_name, source_name)] for the undefined symbol [undef_sym_idx]. *)
Definition linked_dylib_symbol (binary : MachoBinary.t) (undef_sym_idx : Z)
    : M (string * string) :=
  let symtab_idx := MachoBinary.dysymtab_iundefsym binary + undef_sym_idx in
  sym ← lift (Py.index (MachoBinary.symtab_contents binary) symtab_idx);
  let strtab_idx := Nlist.n_strx sym in
  let string_file_address := MachoBinary.symtab_stroff binary + strtab_idx in
  symbol_name ← lift (MachoBinary.get_full_string_from_start_address binary
                        string_file_address false);
  let library_ordinal := _library_ordinal_from_n_desc (Nlist.n_desc sym) in
  source_dylib ← lift (_dylib_from_library_ordinal binary library_ordinal);
  let source_name_addr :=
    DylibCommandStruct.fileoff source_dylib
    + DylibCommandStruct.name_offset source_dylib
    + MachoBinary.get_virtual_base binary in
  source_name ← lift (MachoBinary.get_full_string_from_start_address binary
                        source_name_addr true);
  mret (symbol_name, source_name).

(** The loop of [_parse_linked_dylib_symbols]. *)
Fixpoint linked_dylib_loop (binary : MachoBinary.t) (idxs : list Z)
    (syms_to_dylib_path : gmap string string) : M (gmap string string) :=
  match idxs with
  | [] => mret syms_to_dylib_path
  | undef_sym_idx :: rest =>
      '(symbol_name, source_name) ← linked_dylib_symbol binary undef_sym_idx;
      linked_dylib_loop binary rest (<[symbol_name := source_name]> syms_to_dylib_path)
  end.

(** [_parse_linked_dylib_symbols] *)
Definition _parse_linked_dylib_symbols (binary : MachoBinary.t)
    : M (gmap string string) :=
  linked_dylib_loop binary (range (MachoBinary.dysymtab_nundefsym binary)) ∅.

(** ** [ObjcRuntimeDataParser] *)

Module ObjcRuntimeDataParser.

Record t := mk {
  binary : MachoBinary.t;
  _selrefs : list ObjcSelref.t;
  classes : list ObjcClass.t;
  _sym_to_dylib_path : gmap string string;
}.

(** [__init__] *)
Definition init (binary : MachoBinary.t) : M t :=
  log LogParsingRuntimeInfo;;
  log LogStep1ParsingSelrefs;;
  selrefs ← _parse_selrefs binary;
  log LogStep2ParsingClasses;;
  classes ← _parse_static_objc_runtime_info binary selrefs;
  log LogResolvingDylibMap;;
  sym_to_dylib_path ← _parse_linked_dylib_symbols binary;
  mret (mk binary selrefs classes sym_to_dylib_path).

(** [path_for_external_symbol] *)
Definition path_for_external_symbol (self : t) (symbol : string) : option string :=
  _sym_to_dylib_path self !! symbol.

(** [x == selref_addr] for an [int] [x]: never equal to [None]. *)
Definition int_eq (x : Z) (selref_addr : option Z) : bool :=
  match selref_addr with
  | Some a => x =? a
  | None => false
  end.

(** The inner loop of [selector_for_selref]. *)
Fixpoint find_in_selectors (selref_addr : option Z)
    (selectors : list ObjcSelector.t) : option ObjcSelector.t :=
  match selectors with
  | [] => None
  | sel :: rest =>
      match ObjcSelector.selref sel with
      | None => find_in_selectors selref_addr rest
      | Some selref =>
          if int_eq (ObjcSelref.source_address selref) selref_addr then Some sel
          else find_in_selectors selref_addr rest
      end
  end.

(** The outer loop of [selector_for_selref]. *)
Fixpoint find_in_classes (selref_addr : option Z)
    (classes : list ObjcClass.t) : option ObjcSelector.t :=
  match classes with
  | [] => None
  | objc_class :: rest =>
      match find_in_selectors selref_addr (ObjcClass.selectors objc_class) with
      | Some sel => Some sel
      | None => find_in_classes selref_addr rest
      end
  end.

(** [selector_for_selref]; [selref_addr] is [None] for Python's [None]. *)
Definition selector_for_selref (self : t) (selref_addr : option Z)
    : option ObjcSelector.t :=
  match find_in_classes selref_addr (classes self) with
  | Some sel => Some sel
  | None =>
      let selref :=
        List.filter (λ x, int_eq (ObjcSelref.source_address x) selref_addr)
                    (_selrefs self) in
      match selref with
      | [] => None
      | _selref :: _ =>
          Some (ObjcSelector.init (ObjcSelref.selector_literal _selref)
                                  (Some _selref) None)
      end
  end.

(** [get_method_imp_addresses] *)
Definition get_method_imp_addresses (self : t) (selector : string)
    : list (option Z) :=
  flat_map (λ objc_class,
    flat_map (λ objc_sel,
      if String.eqb (ObjcSelector.name objc_sel) selector
      then [ObjcSelector.implementation objc_sel] else [])
      (ObjcClass.selectors objc_class))
    (classes self).

End ObjcRuntimeDataParser.

(** ** Example binaries *)

Module Fixture.

(** Little-endian bytes of [v], [n] of them. *)
Fixpoint le_bytes (n : nat) (v : Z) : list byte :=
  match n with
  | O => []
  | S n' =>
      default Byte.x00 (Byte.of_N (Z.to_N (v mod 256))) :: le_bytes n' (v / 256)
  end.

(** A table of addresses. *)
Definition table {A} (entries : list (Z * A)) : gmap Z A := list_to_map entries.

Definition vbase : Z := 0x100000000.

(** The pointers stored in [__objc_selrefs]. *)
Definition words : gmap Z Z :=
  table [ (0x100009070, 0x100007000); (0x100009078, 0x100007010);
          (0x100009080, 0x100007020) ].

(** Strings by virtual address. *)
Definition vstrings : gmap Z string :=
  table
  [ (0x100007000, "configureLabel"); (0x100007010, "logLabel");
    (0x100007020, "systemFontOfSize:"); (0x100007030, "unreferenced");
    (0x100007100, "DTLabel"); (0x100007110, "Empty");
    (0x100000518, "/System/Library/Frameworks/Foundation.framework/Foundation");
    (0x100000618, "/usr/lib/libobjc.A.dylib") ]%string.

(** Strings of the string table, by file offset. *)
Definition fstrings : gmap Z string :=
  table
  [ (0x200A, "_NSLog"); (0x2014, "_objc_msgSend"); (0x201E, "_NSLog") ]%string.

Definition objc_sections : gmap string MachoSection.t :=
  {[ "__objc_selrefs"%string := MachoSection.mk 0x100009070 24 [];
     "__objc_classlist"%string :=
       MachoSection.mk 0x100008000 24
         (le_bytes 8 0x10000A000 ++ le_bytes 8 0x10000A100
          ++ le_bytes 8 0x10000A200) ]}.

(** A 64-bit image over the tables above, with the given sections and
    symbol table. Its three classlist entries are a class [DTLabel] with
    three methods (the last one referenced by no selref and with a raw [imp]
    of 2), an entry whose data has a name pointer below the virtual base, and
    a class [Empty] without a method list. It links two dylibs. *)
Definition image (sections : gmap string MachoSection.t)
    (symtab_contents : list Nlist.t) (iundefsym nundefsym : Z)
    : MachoBinary.t := {|
  MachoBinary.platform_word_type := Py.c_uint64;
  MachoBinary.sections := sections;
  MachoBinary.get_virtual_base := vbase;
  MachoBinary.get_content_from_virtual_address := λ a n,
    v ← words !! a; Some (le_bytes (Z.to_nat n) v);
  MachoBinary.get_full_string_from_start_address := λ a virtual,
    if virtual then vstrings !! a else fstrings !! a;
  MachoBinary.file_offset_for_virtual_address := λ a,
    table [ (0x10000C000, 0xC000) ] !! a;
  MachoBinary.symtab_stroff := 0x2000;
  MachoBinary.symtab_contents := symtab_contents;
  MachoBinary.dysymtab_iundefsym := iundefsym;
  MachoBinary.dysymtab_nundefsym := nundefsym;
  MachoBinary.load_dylib_commands :=
    [ DylibCommandStruct.mk 0x500 24; DylibCommandStruct.mk 0x600 24 ];
  MachoBinary.read_ObjcClassRawStruct := λ a _,
    table [ (0x10000A000, ObjcClassRawStruct.mk 0x10000B001);
            (0x10000A100, ObjcClassRawStruct.mk 0x10000B100);
            (0x10000A200, ObjcClassRawStruct.mk 0x10000B200) ] !! a;
  MachoBinary.read_ObjcDataRawStruct := λ a _,
    table [ (0x10000B000, ObjcDataRawStruct.mk 0x100007100 0x10000C000);
            (0x10000B100, ObjcDataRawStruct.mk 0x40 0);
            (0x10000B200, ObjcDataRawStruct.mk 0x100007110 0) ] !! a;
  MachoBinary.read_ObjcMethodListStruct := λ a,
    table [ (0xC000, ObjcMethodListStruct.mk 3 8) ] !! a;
  MachoBinary.read_ObjcMethodStruct := λ a,
    table [ (0xC008, ObjcMethodStruct.mk 0x100007000 0 0x100006285 24);
            (0xC020, ObjcMethodStruct.mk 0x100007010 0 0x100006308 24);
            (0xC038, ObjcMethodStruct.mk 0x100007030 0 2 24) ] !! a;
|}.

(** The image with its ObjC sections and two undefined symbols, [_NSLog]
    from the first dylib and [_objc_msgSend] from the second. *)
Definition demo : MachoBinary.t :=
  image objc_sections
        [ Nlist.mk 1 0; Nlist.mk 10 0x0100; Nlist.mk 20 0x0200 ] 1 2.

(** The same image without ObjC sections. *)
Definition plain : MachoBinary.t :=
  image ∅ [ Nlist.mk 1 0; Nlist.mk 10 0x0100; Nlist.mk 20 0x0200 ] 1 2.

(** An image whose undefined slice names [_NSLog] twice, first with library
    ordinal 1 and then with library ordinal 2. *)
Definition twice : MachoBinary.t :=
  image ∅ [ Nlist.mk 10 0x0100; Nlist.mk 30 0x0200 ] 0 2.

(** An image whose only undefined symbol has library ordinal 0. *)
Definition ordinal_zero : MachoBinary.t :=
  image ∅ [ Nlist.mk 10 0 ] 0 1.

Definition configureLabel_selref : ObjcSelref.t :=
  ObjcSelref.mk 0x100009070 0x100007000 "configureLabel".
Definition logLabel_selref : ObjcSelref.t :=
  ObjcSelref.mk 0x100009078 0x100007010 "logLabel".
Definition systemFontOfSize_selref : ObjcSelref.t :=
  ObjcSelref.mk 0x100009080 0x100007020 "systemFontOfSize:".

Definition demo_selrefs : list ObjcSelref.t :=
  [ configureLabel_selref; logLabel_selref; systemFontOfSize_selref ].

Definition configureLabel : ObjcSelector.t :=
  ObjcSelector.mk "configureLabel" (Some configureLabel_selref)
                  (Some 0x100006284) false.
Definition logLabel : ObjcSelector.t :=
  ObjcSelector.mk "logLabel" (Some logLabel_selref) (Some 0x100006308) false.
Definition unreferenced : ObjcSelector.t :=
  ObjcSelector.mk "unreferenced" None (Some 0) true.

Definition DTLabel : ObjcClass.t :=
  ObjcClass.mk "DTLabel" [ configureLabel; logLabel; unreferenced ].

Definition demo_classes : list ObjcClass.t :=
  [ DTLabel; ObjcClass.mk "Empty" [] ].

Definition Foundation : string :=
  "/System/Library/Frameworks/Foundation.framework/Foundation".
Definition libobjc : string := "/usr/lib/libobjc.A.dylib".

Definition demo_syms : gmap string string :=
  <["_objc_msgSend"%string := libobjc]> (<["_NSLog"%string := Foundation]> ∅).

(** What construction returns on [demo]. *)
Definition demo_parser : ObjcRuntimeDataParser.t :=
  ObjcRuntimeDataParser.mk demo demo_selrefs demo_classes demo_syms.

(** What construction returns on [plain], [twice] and [ordinal_zero]. *)
Definition plain_parser : ObjcRuntimeDataParser.t :=
  ObjcRuntimeDataParser.mk plain [] [] demo_syms.

Definition twice_parser : ObjcRuntimeDataParser.t :=
  ObjcRuntimeDataParser.mk twice [] [] {[ "_NSLog"%string := libobjc ]}.

Definition ordinal_zero_parser : ObjcRuntimeDataParser.t :=
  ObjcRuntimeDataParser.mk ordinal_zero [] [] {[ "_NSLog"%string := libobjc ]}.

(** The entries of the method list of [DTLabel], as stored. *)
Definition DTLabel_data : ObjcDataRawStruct.t :=
  ObjcDataRawStruct.mk 0x100007100 0x10000C000.

Definition DTLabel_methods : list ObjcMethodStruct.t :=
  [ ObjcMethodStruct.mk 0x100007000 0 0x100006285 24;
    ObjcMethodStruct.mk 0x100007010 0 0x100006308 24;
    ObjcMethodStruct.mk 0x100007030 0 2 24 ].

End Fixture.

(** ** Specification-side vocabulary *)

(** What the [i]-th entry of the [__objc_selrefs] section [sect] parses to:
    its address, the pointer stored there, and the C string the pointer
    leads to. *)
Definition selref_entry_spec (binary : MachoBinary.t) (sect : MachoSection.t)
    (i : Z) (s : ObjcSelref.t) : Prop :=
  let binary_word := MachoBinary.platform_word_type binary in
  ObjcSelref.source_address s
    = MachoSection.address sect + i * Py.sizeof binary_word
  ∧ ∃ bytes,
      MachoBinary.get_content_from_virtual_address binary
        (ObjcSelref.source_address s) (Py.sizeof binary_word) = Some bytes
      ∧ Py.from_buffer binary_word bytes = Some (ObjcSelref.destination_address s)
      ∧ MachoBinary.get_full_string_from_start_address binary
          (ObjcSelref.destination_address s) true
        = Some (ObjcSelref.selector_literal s).

(** The method entries laid out from file offset [off]: [n] entries, each
    followed by the next at the distance of its own [sizeof]. These are the
    entries as stored, before the parser aligns the [imp]. *)
Fixpoint read_method_entries (binary : MachoBinary.t) (n : nat) (off : Z)
    : option (list ObjcMethodStruct.t) :=
  match n with
  | O => Some []
  | S n' =>
      ent ← MachoBinary.read_ObjcMethodStruct binary off;
      rest ← read_method_entries binary n' (off + ObjcMethodStruct.sizeof ent);
      Some (ent :: rest)
  end.

(** The method entries of the class described by the [__objc_data]
    structure [d]: none when [base_methods] is zero, otherwise the
    [methcount] entries after the method list header. *)
Definition method_list_entries (binary : MachoBinary.t) (d : ObjcDataRawStruct.t)
    : option (list ObjcMethodStruct.t) :=
  if ObjcDataRawStruct.base_methods d =? 0 then Some []
  else
    methlist_file_ptr ← MachoBinary.file_offset_for_virtual_address binary
                          (ObjcDataRawStruct.base_methods d);
    methlist ← MachoBinary.read_ObjcMethodListStruct binary methlist_file_ptr;
    read_method_entries binary
      (Z.to_nat (ObjcMethodListStruct.methcount methlist))
      (methlist_file_ptr + ObjcMethodListStruct.sizeof methlist).

(** The parsed selrefs whose destination is [name_ptr], in list order. *)
Definition selrefs_to (selrefs : list ObjcSelref.t) (name_ptr : Z)
    : list ObjcSelref.t :=
  filter (λ s, ObjcSelref.destination_address s = name_ptr) selrefs.

(** The selector [sel] is what the method entry [ent] parses to, given the
    parsed [selrefs]. *)
Definition method_selector (binary : MachoBinary.t) (selrefs : list ObjcSelref.t)
    (ent : ObjcMethodStruct.t) (sel : ObjcSelector.t) : Prop :=
  MachoBinary.get_full_string_from_start_address binary
    (ObjcMethodStruct.name ent) true = Some (ObjcSelector.name sel)
  ∧ ObjcSelector.selref sel = last (selrefs_to selrefs (ObjcMethodStruct.name ent))
  ∧ ObjcSelector.implementation sel
    = Some (Z.land (ObjcMethodStruct.implementation ent) (Z.lnot 3))
  ∧ ObjcSelector.is_external_definition sel
    = (Z.land (ObjcMethodStruct.implementation ent) (Z.lnot 3) =? 0).

(** The classlist pointer [ptr] leads to the [__objc_data] structure [d]:
    [d] is read at the [data] field of the class structure at [ptr], with the
    two flag bits of the field cleared. *)
Definition pointer_data (binary : MachoBinary.t) (ptr : Z)
    (d : ObjcDataRawStruct.t) : Prop :=
  ∃ class_entry,
    MachoBinary.read_ObjcClassRawStruct binary ptr true = Some class_entry
    ∧ MachoBinary.read_ObjcDataRawStruct binary
        (Z.land (ObjcClassRawStruct.data class_entry) (Z.lnot 3)) true = Some d.

(** Where a parsed class comes from: an entry [ptr] of [__objc_classlist]
    whose data structure [d] has a valid name pointer, the class name being
    the string there, and [ents] the entries of its method list. *)
Definition class_source (binary : MachoBinary.t) (c : ObjcClass.t)
    (d : ObjcDataRawStruct.t) (ents : list ObjcMethodStruct.t) : Prop :=
  (∃ ptrs ptr, result (_get_classlist_pointers binary) = Some ptrs
               ∧ ptr ∈ ptrs ∧ pointer_data binary ptr d)
  ∧ MachoBinary.get_virtual_base binary ≤ ObjcDataRawStruct.name d
  ∧ MachoBinary.get_full_string_from_start_address binary
      (ObjcDataRawStruct.name d) true = Some (ObjcClass.name c)
  ∧ method_list_entries binary d = Some ents.

(** The name of the undefined symbol [j] of the symbol table. *)
Definition undefined_symbol (binary : MachoBinary.t) (j : Z)
    : option (Nlist.t * string) :=
  sym ← Py.index (MachoBinary.symtab_contents binary)
                 (MachoBinary.dysymtab_iundefsym binary + j);
  symbol_name ← MachoBinary.get_full_string_from_start_address binary
                  (MachoBinary.symtab_stroff binary + Nlist.n_strx sym) false;
  Some (sym, symbol_name).

(** The install name recorded in a dylib load command. *)
Definition install_name (binary : MachoBinary.t) (dylib : DylibCommandStruct.t)
    : option string :=
  MachoBinary.get_full_string_from_start_address binary
    (DylibCommandStruct.fileoff dylib + DylibCommandStruct.name_offset dylib
     + MachoBinary.get_virtual_base binary) true.

(** The selectors of all classes, in class order and, within a class, in
    method order: the order in which [selector_for_selref] visits them. *)
Definition all_selectors (classes : list ObjcClass.t) : list ObjcSelector.t :=
  classes ≫= ObjcClass.selectors.

(** The selector [sel] carries a selref whose source address is [a]. *)
Definition refers_to (a : Z) (sel : ObjcSelector.t) : Prop :=
  ∃ s, ObjcSelector.selref sel = Some s ∧ ObjcSelref.source_address s = a.

(** The library ordinal stored in the [n_desc] field of a symbol. *)
Definition library_ordinal (sym : Nlist.t) : Z :=
  Z.land (Z.shiftr (Nlist.n_desc sym) 8) 255.

(** The parser [p] records, for the undefined symbol [j], the install name
    of the dylib its library ordinal designates under 1-indexing: the
    element at position [ordinal - 1] of the dylib load commands. *)
Definition records_source_dylib (binary : MachoBinary.t)
    (p : ObjcRuntimeDataParser.t) (j : Z) : Prop :=
  ∃ sym symbol_name source_dylib source_name,
    undefined_symbol binary j = Some (sym, symbol_name)
    ∧ 1 ≤ library_ordinal sym
    ∧ MachoBinary.load_dylib_commands binary
        !! Z.to_nat (library_ordinal sym - 1) = Some source_dylib
    ∧ install_name binary source_dylib = Some source_name
    ∧ ObjcRuntimeDataParser.path_for_external_symbol p symbol_name
      = Some source_name.

(** ** Further vocabulary *)

(** [ObjcSelector.__str__]; [hex] is Python 3's, which [HexString.of_Z]
    is: [0x] and lowercase digits, [-0x] for a negative number. *)
Definition ObjcSelector__str__ (self : ObjcSelector.t) : string :=
  let imp_addr :=
    if ObjcSelector.not_implementation (ObjcSelector.implementation self)
    then "NaN"%string
    else match ObjcSelector.implementation self with
         | Some v => HexString.of_Z v
         | None => "NaN"%string
         end in
  "<@selector(" +:+ ObjcSelector.name self +:+ ") at " +:+ imp_addr +:+ ">".

(** The one event the classlist pass logs for the classlist entry [ptr],
    when its structures can be read: the invalid data structure, or the name
    of the class about to be parsed. *)
Definition classlist_event (binary : MachoBinary.t) (ptr : Z) : option LogEvent :=
  class_entry ← MachoBinary.read_ObjcClassRawStruct binary ptr true;
  let data := Z.land (ObjcClassRawStruct.data class_entry) (Z.lnot 3) in
  d ← MachoBinary.read_ObjcDataRawStruct binary data true;
  if ObjcDataRawStruct.name d <? MachoBinary.get_virtual_base binary
  then Some (LogInvalidObjcDataRaw data (ObjcDataRawStruct.name d))
  else
    name ← MachoBinary.get_full_string_from_start_address binary
             (ObjcDataRawStruct.name d) true;
    Some (LogParsingSelectorsForClass name).

(** The class name an event announces. *)
Definition announced_class (e : LogEvent) : option string :=
  match e with
  | LogParsingSelectorsForClass name => Some name
  | _ => None
  end.

(** The warning of the selrefs pass for a section of [entry_count]
    entries. *)
Definition large_section_warning (entry_count : Z) : list LogEvent :=
  if entry_count <? 1000 then [] else [WarnLargeObjcSection entry_count].

(** The number of entries of the [__objc_selrefs] section, zero without the
    section. *)
Definition selref_entry_count (binary : MachoBinary.t) : Z :=
  match MachoBinary.sections binary !! "__objc_selrefs"%string with
  | None => 0
  | Some sect =>
      Py.int_truediv (MachoSection.size sect)
                     (Py.sizeof (MachoBinary.platform_word_type binary))
  end.

Module FixtureMore.

(** An image whose only undefined symbol has library ordinal 5, with two
    dylibs linked. *)
Definition ordinal_high : MachoBinary.t :=
  Fixture.image ∅ [ Nlist.mk 10 0x0500 ] 0 1.

(** An image whose classlist has one entry, at which no class structure can
    be read. *)
Definition unreadable_class : MachoBinary.t :=
  Fixture.image
    {[ "__objc_classlist"%string :=
         MachoSection.mk 0x100008000 8 (Fixture.le_bytes 8 0x10000A300) ]}
    [] 0 0.

End FixtureMore.

(** ** Laws of the parser monad *)

Section MonadLaws.
Context {A B : Type}.

Lemma result_ret (a : A) : result (mret a : M A) = Some a.
Proof. reflexivity. Qed.

Lemma result_lift (o : option A) : result (lift o) = o.
Proof. reflexivity. Qed.

Lemma result_bind (m : M A) (f : A → M B) :
  result (m ≫= f) = result m ≫= (λ a, result (f a)).
Proof.
  destruct m as [l [a|]]; simpl; [|done].
  unfold mbind, M_bind, result; simpl. by destruct (f a).
Qed.

Lemma logged_bind (m : M A) (f : A → M B) :
  logged (m ≫= f)
  = logged m ++ match result m with Some a => logged (f a) | None => [] end.
Proof.
  destruct m as [l [a|]]; unfold mbind, M_bind, logged, result; simpl.
  - by destruct (f a).
  - by rewrite app_nil_r.
Qed.

Lemma result_bind_Some (m : M A) (f : A → M B) b :
  result (m ≫= f) = Some b ↔ ∃ a, result m = Some a ∧ result (f a) = Some b.
Proof. rewrite result_bind. apply bind_Some. Qed.

Lemma M_eq (m1 m2 : M A) :
  logged m1 = logged m2 → result m1 = result m2 → m1 = m2.
Proof. destruct m1, m2; simpl; congruence. Qed.
End MonadLaws.

Lemma bind_assoc {A B C} (m : M A) (f : A → M B) (g : B → M C) :
  (m ≫= f) ≫= g = m ≫= (λ a, f a ≫= g).
Proof.
  apply M_eq.
  - rewrite !logged_bind, result_bind.
    destruct (result m) as [a|]; simpl.
    + by rewrite logged_bind, app_assoc.
    + by rewrite !app_nil_r.
  - rewrite !result_bind. destruct (result m) as [a|]; simpl; [|done].
    by rewrite result_bind.
Qed.

Lemma bind_ext {A B} (m : M A) (f g : A → M B) :
  (∀ a, f a = g a) → m ≫= f = m ≫= g.
Proof.
  intros H. destruct m as [l [a|]]; [|done].
  unfold mbind, M_bind. by rewrite H.
Qed.

Lemma bind_ret_l {A B} (a : A) (f : A → M B) : mret a ≫= f = f a.
Proof.
  unfold mret, M_ret, mbind, M_bind. by destruct (f a).
Qed.

(** The result of an appending loop is the accumulator followed by the
    results of the bodies, if none raises. *)
Lemma result_for_append {A B} (body : A → M B) xs acc :
  result (for_append body xs acc)
  = (acc ++.) <$> mapM (λ x, result (body x)) xs.
Proof.
  revert acc. induction xs as [|x xs IH]; intros acc; simpl.
  - by rewrite app_nil_r.
  - rewrite result_bind. destruct (result (body x)) as [y|]; simpl; [|done].
    rewrite IH. destruct (mapM _ xs); simpl; [|done].
    by rewrite <-app_assoc.
Qed.

(** ** Python and ctypes primitives *)

Lemma sizeof_pos w : 0 < Py.sizeof w.
Proof. by destruct w. Qed.

(** Below [2^53] Python 3's [int(a / b)] is floor division. *)
Lemma int_truediv_small a b :
  0 ≤ a < 2 ^ 53 → 0 < b → Py.int_truediv a b = a / b.
Proof.
  intros [Ha Hlt] Hb. unfold Py.int_truediv, Py.round_to_double.
  assert (Z.log2 (Z.abs a) + 1 ≤ 53) as Hn.
  { rewrite Z.abs_eq by done.
    destruct (decide (a = 0)) as [->|]; [done|].
    assert (Z.log2 a < 53); [|lia]. apply Z.log2_lt_pow2; lia. }
  apply Z.leb_le in Hn. rewrite Hn.
  apply Z.quot_div_nonneg; lia.
Qed.

Lemma index_nonneg {A} (l : list A) i :
  0 ≤ i → Py.index l i = l !! Z.to_nat i.
Proof. intros Hi. unfold Py.index. by apply Z.leb_le in Hi as ->. Qed.

(** A strictly ascending list, from its elements by position. *)
Lemma StronglySorted_lookup {A} (R : A → A → Prop) (l : list A) :
  (∀ i j x y, (i < j)%nat → l !! i = Some x → l !! j = Some y → R x y) →
  StronglySorted R l.
Proof.
  induction l as [|a l IH]; intros H; constructor.
  - apply IH. intros i j x y Hij Hi Hj. by apply (H (S i) (S j) x y); [lia|..].
  - apply Forall_forall. intros y Hy.
    apply list_elem_of_lookup in Hy as [j Hj].
    by apply (H 0%nat (S j) a y); [lia|..].
Qed.

(** ** The selrefs pass *)

Section SelrefsPass.
Variable binary : MachoBinary.t.

Local Abbreviation word := (MachoBinary.platform_word_type binary).
Local Abbreviation selrefs_section :=
  (MachoBinary.sections binary !! "__objc_selrefs"%string).

Lemma parse_selref_entry_Some sect i s :
  result (parse_selref_entry binary sect i) = Some s
  ↔ selref_entry_spec binary sect i s.
Proof.
  unfold parse_selref_entry, selref_entry_spec. split.
  - intros H.
    apply result_bind_Some in H as (bytes & Hb & H).
    apply result_bind_Some in H as (v & Hv & H).
    apply result_bind_Some in H as (str & Hs & H).
    cbv [result lift snd] in Hb, Hv, Hs. rewrite result_ret in H.
    injection H as <-. simpl. eauto 6.
  - intros [Hsrc (bytes & Hb & Hv & Hs)]. rewrite <-Hsrc.
    apply result_bind_Some. exists bytes. split; [done|].
    apply result_bind_Some. eexists. split; [exact Hv|].
    apply result_bind_Some. eexists. split; [exact Hs|].
    rewrite result_ret. destruct s; simpl in *. by subst.
Qed.

Lemma result_parse_selrefs_missing :
  selrefs_section = None → _parse_selrefs binary = ([], Some []).
Proof. intros H. unfold _parse_selrefs. by rewrite H. Qed.

Lemma result_parse_selrefs_present sect :
  selrefs_section = Some sect →
  result (_parse_selrefs binary)
  = mapM (λ i, result (parse_selref_entry binary sect i))
         (range (Py.int_truediv (MachoSection.size sect) (Py.sizeof word))).
Proof.
  intros H. unfold _parse_selrefs. rewrite H, result_bind.
  assert (∀ n, result (log_long_parse n) = Some tt) as ->.
  { intros n. unfold log_long_parse. by destruct (n <? 1000). }
  simpl. rewrite result_for_append. by destruct (mapM _ _).
Qed.

(** The selrefs by position. *)
Lemma parse_selrefs_lookup sect selrefs :
  selrefs_section = Some sect →
  result (_parse_selrefs binary) = Some selrefs →
  length selrefs
  = Z.to_nat (Py.int_truediv (MachoSection.size sect) (Py.sizeof word))
  ∧ ∀ i s, selrefs !! i = Some s →
           selref_entry_spec binary sect (Z.of_nat i) s.
Proof.
  intros Hsect Hres. rewrite (result_parse_selrefs_present sect Hsect) in Hres.
  apply mapM_Some in Hres. split.
  - apply Forall2_length in Hres. rewrite <-Hres. apply length_seqZ.
  - intros i s Hi.
    destruct (Forall2_lookup_r _ _ _ _ _ Hres Hi) as (x & Hx & Hp).
    apply lookup_seqZ in Hx as [-> _].
    by apply parse_selref_entry_Some in Hp.
Qed.

(** No two parsed selrefs share a source address. *)
Lemma parse_selrefs_source_inj selrefs s t :
  result (_parse_selrefs binary) = Some selrefs →
  s ∈ selrefs → t ∈ selrefs →
  ObjcSelref.source_address s = ObjcSelref.source_address t → s = t.
Proof.
  intros Hres Hs Ht Heq.
  destruct selrefs_section as [sect|] eqn:Hsect.
  - destruct (parse_selrefs_lookup sect selrefs Hsect Hres) as [_ Hl].
    apply list_elem_of_lookup in Hs as [i Hi], Ht as [j Hj].
    destruct (Hl i s Hi) as [Hsi _], (Hl j t Hj) as [Htj _].
    pose proof (sizeof_pos word).
    assert (i = j) as -> by nia. congruence.
  - rewrite (result_parse_selrefs_missing Hsect) in Hres.
    injection Hres as <-. by apply elem_of_nil in Hs.
Qed.

(** The literal of a parsed selref is the string at its destination. *)
Lemma parse_selrefs_literal selrefs s :
  result (_parse_selrefs binary) = Some selrefs → s ∈ selrefs →
  MachoBinary.get_full_string_from_start_address binary
    (ObjcSelref.destination_address s) true
  = Some (ObjcSelref.selector_literal s).
Proof.
  intros Hres Hs.
  destruct selrefs_section as [sect|] eqn:Hsect.
  - destruct (parse_selrefs_lookup sect selrefs Hsect Hres) as [_ Hl].
    apply list_elem_of_lookup in Hs as [i Hi].
    by destruct (Hl i s Hi) as [_ (bytes & _ & _ & ?)].
  - rewrite (result_parse_selrefs_missing Hsect) in Hres.
    injection Hres as <-. by apply elem_of_nil in Hs.
Qed.

(** The pass returns as soon as every entry can be read. *)
Lemma parse_selrefs_returns sect :
  selrefs_section = Some sect →
  (∀ i, 0 ≤ i < Py.int_truediv (MachoSection.size sect) (Py.sizeof word) →
        is_Some (result (parse_selref_entry binary sect i))) →
  is_Some (result (_parse_selrefs binary)).
Proof.
  intros Hsect Hall. rewrite (result_parse_selrefs_present sect Hsect).
  apply mapM_is_Some, Forall_forall. intros i Hi. simpl.
  apply list_elem_of_lookup in Hi as [k Hk].
  apply lookup_seqZ in Hk as [-> ?]. apply Hall. lia.
Qed.

End SelrefsPass.

(** C3: the selrefs pass walks [__objc_selrefs] as an array of word-sized
    pointers. When the pass returns [selrefs] for a binary with that
    section, their number is the section size divided by the word size
    (Python's [int(size / sizeof(word))], which is the floor of the quotient
    for every size below [2^53]); the [i]-th selref has as source address the
    section address plus [i] words, as destination the pointer read there and
    as literal the C string at the destination; and the source addresses are
    strictly ascending. Without the section the pass returns the empty
    list. *)
Theorem C3_selrefs_pass (binary : MachoBinary.t) (selrefs : list ObjcSelref.t) :
  result (_parse_selrefs binary) = Some selrefs →
  match MachoBinary.sections binary !! "__objc_selrefs"%string with
  | None => _parse_selrefs binary = ([], Some []) ∧ selrefs = []
  | Some sect =>
      let word_size := Py.sizeof (MachoBinary.platform_word_type binary) in
      length selrefs
        = Z.to_nat (Py.int_truediv (MachoSection.size sect) word_size)
      ∧ (0 ≤ MachoSection.size sect < 2 ^ 53 →
         Z.of_nat (length selrefs) = MachoSection.size sect / word_size)
      ∧ (∀ i s, selrefs !! i = Some s →
                selref_entry_spec binary sect (Z.of_nat i) s)
      ∧ StronglySorted Z.lt (ObjcSelref.source_address <$> selrefs)
  end.
Proof.
  intros Hres.
  destruct (MachoBinary.sections binary !! "__objc_selrefs"%string)
    as [sect|] eqn:Hsect.
  - destruct (parse_selrefs_lookup binary sect selrefs Hsect Hres) as [Hlen Hl].
    pose proof (sizeof_pos (MachoBinary.platform_word_type binary)) as Hw.
    split; [done|]. split; [|split; [done|]].
    + intros Hsize. rewrite Hlen, int_truediv_small by done.
      rewrite Z2Nat.id; [done|]. apply Z.div_pos; lia.
    + apply StronglySorted_lookup. intros i j x y Hij Hi Hj.
      rewrite list_lookup_fmap in Hi, Hj.
      destruct (selrefs !! i) as [s|] eqn:Hsi; [|done].
      destruct (selrefs !! j) as [t|] eqn:Htj; [|done].
      injection Hi as <-. injection Hj as <-.
      destruct (Hl i s Hsi) as [-> _], (Hl j t Htj) as [-> _]. nia.
  - pose proof (result_parse_selrefs_missing binary Hsect) as Hm.
    split; [done|]. rewrite Hm in Hres. by injection Hres.
Qed.

(** ** The selref destination index *)

Lemma build_selref_pointer_map_snoc selrefs s :
  ObjcDataEntryParser.build_selref_pointer_map (selrefs ++ [s])
  = <[ObjcSelref.destination_address s := s]>
      (ObjcDataEntryParser.build_selref_pointer_map selrefs).
Proof.
  unfold ObjcDataEntryParser.build_selref_pointer_map. by rewrite foldl_app.
Qed.

(** The index holds, for each destination, the last selref pointing there. *)
Lemma build_selref_pointer_map_lookup selrefs name_ptr :
  ObjcDataEntryParser.build_selref_pointer_map selrefs !! name_ptr
  = last (selrefs_to selrefs name_ptr).
Proof.
  induction selrefs as [|s selrefs IH] using rev_ind; [done|].
  rewrite build_selref_pointer_map_snoc. unfold selrefs_to in *.
  rewrite filter_app, filter_cons, filter_nil.
  destruct (decide (ObjcSelref.destination_address s = name_ptr)) as [Heq|Hne].
  - rewrite Heq, lookup_insert_eq. by rewrite last_snoc.
  - rewrite lookup_insert_ne by done. by rewrite app_nil_r.
Qed.

Lemma last_selrefs_to_Some selrefs name_ptr s :
  last (selrefs_to selrefs name_ptr) = Some s →
  s ∈ selrefs ∧ ObjcSelref.destination_address s = name_ptr.
Proof.
  intros H. apply last_Some in H as [l' H].
  assert (s ∈ selrefs_to selrefs name_ptr) as Hs.
  { rewrite H. apply elem_of_app. right. by apply list_elem_of_singleton. }
  apply list_elem_of_filter in Hs. tauto.
Qed.

Lemma last_selrefs_to_None selrefs name_ptr :
  last (selrefs_to selrefs name_ptr) = None
  ↔ ∀ s, s ∈ selrefs → ObjcSelref.destination_address s ≠ name_ptr.
Proof.
  rewrite last_None. unfold selrefs_to. split.
  - intros H s Hs Hd.
    assert (s ∈ filter (λ s, ObjcSelref.destination_address s = name_ptr) selrefs)
      as Hin by (by apply list_elem_of_filter).
    rewrite H in Hin. by apply elem_of_nil in Hin.
  - intros H. destruct (filter _ selrefs) as [|s l] eqn:Hf; [done|].
    assert (s ∈ filter (λ s, ObjcSelref.destination_address s = name_ptr) selrefs)
      as Hin by (rewrite Hf; apply elem_of_cons; by left).
    apply list_elem_of_filter in Hin as [Hd Hs]. by destruct (H s Hs).
Qed.

(** ** The method-list pass *)

Section MethodListPass.
Variable binary : MachoBinary.t.
Variable selrefs : list ObjcSelref.t.
Variable d : ObjcDataRawStruct.t.

Local Abbreviation self := (ObjcDataEntryParser.init binary selrefs d).

Lemma methlist_loop_Some n off acc sels :
  result (ObjcDataEntryParser.methlist_loop self n off acc) = Some sels →
  ∃ ents new,
    read_method_entries binary n off = Some ents
    ∧ sels = acc ++ new
    ∧ Forall2 (method_selector binary selrefs) ents new.
Proof.
  revert off acc.
  induction n as [|n IH]; intros off acc H;
    cbn [ObjcDataEntryParser.methlist_loop] in H.
  - rewrite result_ret in H. injection H as <-.
    exists [], []. by rewrite app_nil_r.
  - apply result_bind_Some in H as (ent & Hent & H).
    apply result_bind_Some in H as (str & Hstr & H).
    cbv [result lift snd] in Hent, Hstr. simpl in Hent, Hstr.
    apply IH in H as (ents & new & Hents & -> & Hall).
    exists (ent :: ents), (ObjcSelector.init str
      (ObjcDataEntryParser.get_selref_for_objc_method self
         (ObjcDataEntryParser.byte_align_imp ent))
      (Some (Z.land (ObjcMethodStruct.implementation ent) (Z.lnot 3))) :: new).
    split; [|split].
    + simpl in Hents |- *. rewrite Hent. simpl. by rewrite Hents.
    + by rewrite <-app_assoc.
    + constructor; [|done]. unfold method_selector. simpl.
      split; [done|]. split; [|done].
      unfold ObjcDataEntryParser.get_selref_for_objc_method. simpl.
      apply build_selref_pointer_map_lookup.
Qed.

(** The selectors of a data entry are, in order, those of its method
    entries. *)
Lemma get_selectors_Some sels :
  result (ObjcDataEntryParser.get_selectors self) = Some sels →
  ∃ ents, method_list_entries binary d = Some ents
          ∧ Forall2 (method_selector binary selrefs) ents sels.
Proof.
  unfold ObjcDataEntryParser.get_selectors, ObjcDataEntryParser._get_methlist,
    method_list_entries.
  cbn [ObjcDataEntryParser._binary ObjcDataEntryParser._objc_data_raw_struct
       ObjcDataEntryParser.init].
  intros H. apply result_bind_Some in H as (info & Hinfo & H).
  destruct (ObjcDataRawStruct.base_methods d =? 0).
  - rewrite result_ret in Hinfo. injection Hinfo as <-.
    rewrite result_ret in H. injection H as <-. by exists [].
  - apply result_bind_Some in Hinfo as (fptr & Hfptr & Hinfo).
    apply result_bind_Some in Hinfo as (methlist & Hml & Hinfo).
    cbv [result lift snd] in Hfptr, Hml. rewrite result_ret in Hinfo.
    injection Hinfo as <-. rewrite Hfptr. simpl. rewrite Hml. simpl.
    unfold ObjcDataEntryParser._get_selectors_from_methlist in H.
    apply methlist_loop_Some in H as (ents & new & Hents & -> & Hall).
    by exists ents.
Qed.

End MethodListPass.

(** ** The classlist pass *)

Section ClasslistPass.
Variable binary : MachoBinary.t.
Variable selrefs : list ObjcSelref.t.

Lemma parse_objc_data_entry_Some d c :
  result (_parse_objc_data_entry binary selrefs d) = Some c →
  MachoBinary.get_full_string_from_start_address binary
    (ObjcDataRawStruct.name d) true = Some (ObjcClass.name c)
  ∧ ∃ ents, method_list_entries binary d = Some ents
            ∧ Forall2 (method_selector binary selrefs) ents (ObjcClass.selectors c).
Proof.
  unfold _parse_objc_data_entry. intros H.
  apply result_bind_Some in H as (name & Hname & H).
  apply result_bind_Some in H as ([] & _ & H).
  apply result_bind_Some in H as (sels & Hsels & H).
  cbv [result lift snd] in Hname. rewrite result_ret in H. injection H as <-.
  split; [done|]. by apply get_selectors_Some in Hsels.
Qed.

Lemma get_objc_data_from_objc_class_Some objc_class od :
  result (_get_objc_data_from_objc_class binary objc_class) = Some od →
  ∃ d, MachoBinary.read_ObjcDataRawStruct binary
         (ObjcClassRawStruct.data objc_class) true = Some d
       ∧ od = if ObjcDataRawStruct.name d <? MachoBinary.get_virtual_base binary
              then None else Some d.
Proof.
  unfold _get_objc_data_from_objc_class. intros H.
  apply result_bind_Some in H as (d & Hd & H). cbv [result lift snd] in Hd.
  exists d. split; [done|].
  destruct (ObjcDataRawStruct.name d <? MachoBinary.get_virtual_base binary).
  - apply result_bind_Some in H as ([] & _ & H). rewrite result_ret in H.
    by injection H.
  - rewrite result_ret in H. by injection H.
Qed.

Lemma parse_classlist_pointer_Some ptr added :
  result (parse_classlist_pointer binary selrefs ptr) = Some added →
  ∃ d, pointer_data binary ptr d
       ∧ if ObjcDataRawStruct.name d <? MachoBinary.get_virtual_base binary
         then added = []
         else ∃ c, result (_parse_objc_data_entry binary selrefs d) = Some c
                   ∧ added = [c].
Proof.
  unfold parse_classlist_pointer, _get_objc_class_from_classlist_pointer.
  intros H. apply result_bind_Some in H as (oc & Hoc & H).
  apply result_bind_Some in Hoc as (ce & Hce & Hoc).
  cbv [result lift snd] in Hce. rewrite result_ret in Hoc. injection Hoc as <-.
  apply result_bind_Some in H as (od & Hod & H).
  apply get_objc_data_from_objc_class_Some in Hod as (d & Hd & ->).
  cbn [ObjcClassRawStruct.data] in Hd.
  exists d. split; [by exists ce|].
  destruct (ObjcDataRawStruct.name d <? MachoBinary.get_virtual_base binary).
  - rewrite result_ret in H. by injection H.
  - apply result_bind_Some in H as (c & Hc & H). rewrite result_ret in H.
    injection H as <-. by exists c.
Qed.

(** A classlist entry whose data has a name pointer below the virtual base
    is logged and adds nothing. *)
Lemma parse_classlist_pointer_skip ptr class_entry d :
  MachoBinary.read_ObjcClassRawStruct binary ptr true = Some class_entry →
  MachoBinary.read_ObjcDataRawStruct binary
    (Z.land (ObjcClassRawStruct.data class_entry) (Z.lnot 3)) true = Some d →
  ObjcDataRawStruct.name d < MachoBinary.get_virtual_base binary →
  parse_classlist_pointer binary selrefs ptr
  = ([LogInvalidObjcDataRaw
        (Z.land (ObjcClassRawStruct.data class_entry) (Z.lnot 3))
        (ObjcDataRawStruct.name d)], Some []).
Proof.
  intros Hce Hd Hlt. apply Z.ltb_lt in Hlt.
  unfold parse_classlist_pointer, _get_objc_class_from_classlist_pointer,
    _get_objc_data_from_objc_class.
  rewrite Hce. cbn -[Z.land Z.lnot Z.ltb]. rewrite Hd.
  cbn -[Z.land Z.lnot Z.ltb]. rewrite Hlt. reflexivity.
Qed.

Lemma classes_loop_app l1 l2 acc :
  classes_loop binary selrefs (l1 ++ l2) acc
  = classes_loop binary selrefs l1 acc ≫= classes_loop binary selrefs l2.
Proof.
  revert acc. induction l1 as [|ptr l1 IH]; intros acc;
    cbn [classes_loop app].
  - by rewrite bind_ret_l.
  - rewrite bind_assoc. apply bind_ext. intros added. apply IH.
Qed.

Lemma result_classes_loop ptrs acc :
  result (classes_loop binary selrefs ptrs acc)
  = (λ ls, acc ++ mjoin ls)
      <$> mapM (λ ptr, result (parse_classlist_pointer binary selrefs ptr)) ptrs.
Proof.
  revert acc. induction ptrs as [|ptr ptrs IH]; intros acc;
    cbn [classes_loop].
  - simpl. by rewrite app_nil_r.
  - rewrite result_bind. cbn [mapM].
    destruct (result (parse_classlist_pointer binary selrefs ptr)) as [added|];
      simpl; [|done].
    rewrite IH. destruct (mapM _ ptrs); simpl; [|done]. by rewrite <-app_assoc.
Qed.

Lemma classes_loop_elem ptrs classes c :
  result (classes_loop binary selrefs ptrs []) = Some classes → c ∈ classes →
  ∃ ptr added, ptr ∈ ptrs
    ∧ result (parse_classlist_pointer binary selrefs ptr) = Some added
    ∧ c ∈ added.
Proof.
  rewrite result_classes_loop. intros H Hc.
  apply fmap_Some in H as (ls & Hls & ->). simpl in Hc.
  apply mapM_Some in Hls.
  apply list_elem_of_join in Hc as (added & Hc & Hadded).
  apply list_elem_of_lookup in Hadded as [i Hi].
  destruct (Forall2_lookup_r _ _ _ _ _ Hls Hi) as (ptr & Hptr & Hp).
  exists ptr, added. split; [|done]. by apply list_elem_of_lookup_2 in Hptr.
Qed.

End ClasslistPass.

(** ** The parser as a whole *)

Lemma parse_static_objc_runtime_info_Some binary selrefs classes :
  result (_parse_static_objc_runtime_info binary selrefs) = Some classes
  ↔ ∃ ptrs, result (_get_classlist_pointers binary) = Some ptrs
            ∧ result (classes_loop binary selrefs ptrs []) = Some classes.
Proof.
  unfold _parse_static_objc_runtime_info. split.
  - intros H. apply result_bind_Some in H as ([] & _ & H).
    by apply result_bind_Some in H.
  - intros H. apply result_bind_Some. exists tt. split; [done|].
    by apply result_bind_Some.
Qed.

Lemma init_Some binary p :
  result (ObjcRuntimeDataParser.init binary) = Some p
  ↔ ∃ selrefs classes syms,
      result (_parse_selrefs binary) = Some selrefs
      ∧ result (_parse_static_objc_runtime_info binary selrefs) = Some classes
      ∧ result (_parse_linked_dylib_symbols binary) = Some syms
      ∧ p = ObjcRuntimeDataParser.mk binary selrefs classes syms.
Proof.
  unfold ObjcRuntimeDataParser.init. split.
  - intros H.
    apply result_bind_Some in H as ([] & _ & H).
    apply result_bind_Some in H as ([] & _ & H).
    apply result_bind_Some in H as (selrefs & Hs & H).
    apply result_bind_Some in H as ([] & _ & H).
    apply result_bind_Some in H as (classes & Hc & H).
    apply result_bind_Some in H as ([] & _ & H).
    apply result_bind_Some in H as (syms & Hy & H).
    rewrite result_ret in H. injection H as <-. by exists selrefs, classes, syms.
  - intros (selrefs & classes & syms & Hs & Hc & Hy & ->).
    apply result_bind_Some. exists tt. split; [done|].
    apply result_bind_Some. exists tt. split; [done|].
    apply result_bind_Some. exists selrefs. split; [done|].
    apply result_bind_Some. exists tt. split; [done|].
    apply result_bind_Some. exists classes. split; [done|].
    apply result_bind_Some. exists tt. split; [done|].
    apply result_bind_Some. exists syms. by split.
Qed.

Lemma init_selrefs binary p :
  result (ObjcRuntimeDataParser.init binary) = Some p →
  result (_parse_selrefs binary) = Some (ObjcRuntimeDataParser._selrefs p).
Proof. intros H. by apply init_Some in H as (? & ? & ? & ? & ? & ? & ->). Qed.

(** Every parsed class comes from a classlist entry, and its selectors are,
    in order, those of the entries of its method list. *)
Lemma parsed_class_source binary p c :
  result (ObjcRuntimeDataParser.init binary) = Some p →
  c ∈ ObjcRuntimeDataParser.classes p →
  ∃ d ents,
    class_source binary c d ents
    ∧ Forall2 (method_selector binary (ObjcRuntimeDataParser._selrefs p))
              ents (ObjcClass.selectors c).
Proof.
  intros H Hc.
  apply init_Some in H as (selrefs & classes & syms & Hs & Hcs & Hy & ->).
  cbn [ObjcRuntimeDataParser.classes ObjcRuntimeDataParser._selrefs] in *.
  apply parse_static_objc_runtime_info_Some in Hcs as (ptrs & Hptrs & Hloop).
  destruct (classes_loop_elem _ _ _ _ _ Hloop Hc) as (ptr & added & Hptr & Ha & Hin).
  apply parse_classlist_pointer_Some in Ha as (d & Hd & Hcase).
  destruct (ObjcDataRawStruct.name d <? MachoBinary.get_virtual_base binary)
    eqn:Hlt.
  - subst added. by apply elem_of_nil in Hin.
  - destruct Hcase as (c' & Hc' & ->). apply list_elem_of_singleton in Hin as ->.
    apply parse_objc_data_entry_Some in Hc' as (Hname & ents & Hents & Hall).
    exists d, ents. split; [|done]. apply Z.ltb_ge in Hlt.
    unfold class_source. eauto 10.
Qed.

Lemma parsed_selector binary p sel :
  result (ObjcRuntimeDataParser.init binary) = Some p →
  sel ∈ all_selectors (ObjcRuntimeDataParser.classes p) →
  ∃ ent, method_selector binary (ObjcRuntimeDataParser._selrefs p) ent sel.
Proof.
  intros H Hsel. apply list_elem_of_bind in Hsel as (c & Hsel & Hc).
  destruct (parsed_class_source binary p c H Hc) as (d & ents & _ & Hall).
  apply list_elem_of_lookup in Hsel as [i Hi].
  destruct (Forall2_lookup_r _ _ _ _ _ Hall Hi) as (ent & _ & Hm). by exists ent.
Qed.

(** A selref attached to a selector of a parsed class is a parsed selref,
    and the selector's name is its literal. *)
Lemma parsed_selector_selref binary p sel s :
  result (ObjcRuntimeDataParser.init binary) = Some p →
  sel ∈ all_selectors (ObjcRuntimeDataParser.classes p) →
  ObjcSelector.selref sel = Some s →
  s ∈ ObjcRuntimeDataParser._selrefs p
  ∧ ObjcSelector.name sel = ObjcSelref.selector_literal s.
Proof.
  intros H Hsel Hs.
  destruct (parsed_selector binary p sel H Hsel) as (ent & Hname & Href & _).
  rewrite Hs in Href. symmetry in Href.
  apply last_selrefs_to_Some in Href as [Hin Hdest]. split; [done|].
  pose proof (parse_selrefs_literal binary _ s (init_selrefs _ _ H) Hin) as Hlit.
  rewrite Hdest, Hname in Hlit. by injection Hlit.
Qed.

(** ** [selector_for_selref] *)

Lemma find_in_selectors_app addr l1 l2 :
  ObjcRuntimeDataParser.find_in_selectors addr (l1 ++ l2)
  = match ObjcRuntimeDataParser.find_in_selectors addr l1 with
    | Some sel => Some sel
    | None => ObjcRuntimeDataParser.find_in_selectors addr l2
    end.
Proof.
  induction l1 as [|x l1 IH]; simpl; [done|].
  destruct (ObjcSelector.selref x) as [s|]; [|done].
  by destruct (ObjcRuntimeDataParser.int_eq _ addr).
Qed.

Lemma find_in_classes_flat addr classes :
  ObjcRuntimeDataParser.find_in_classes addr classes
  = ObjcRuntimeDataParser.find_in_selectors addr (all_selectors classes).
Proof.
  unfold all_selectors. induction classes as [|c classes IH]; simpl; [done|].
  rewrite find_in_selectors_app, IH. done.
Qed.

Lemma int_eq_true x a :
  ObjcRuntimeDataParser.int_eq x (Some a) = true ↔ x = a.
Proof. simpl. apply Z.eqb_eq. Qed.

(** The search returns the first selector that refers to the address. *)
Lemma find_in_selectors_Some a sels sel :
  ObjcRuntimeDataParser.find_in_selectors (Some a) sels = Some sel →
  ∃ l1 l2, sels = l1 ++ sel :: l2 ∧ refers_to a sel
           ∧ ∀ x, x ∈ l1 → ¬ refers_to a x.
Proof.
  induction sels as [|x sels IH]; simpl; [done|]. intros H.
  destruct (ObjcSelector.selref x) as [s|] eqn:Hs.
  - destruct (ObjcSelref.source_address s =? a) eqn:Heq.
    + injection H as <-. exists [], sels. split; [done|]. split.
      * exists s. split; [done|]. by apply Z.eqb_eq.
      * intros y Hy. by apply elem_of_nil in Hy.
    + destruct (IH H) as (l1 & l2 & -> & Hr & Hfirst).
      exists (x :: l1), l2. split; [done|]. split; [done|].
      intros y Hy. apply elem_of_cons in Hy as [->|Hy]; [|by apply Hfirst].
      intros (s' & Hs' & Ha). rewrite Hs in Hs'. injection Hs' as <-.
      apply Z.eqb_neq in Heq. done.
  - destruct (IH H) as (l1 & l2 & -> & Hr & Hfirst).
    exists (x :: l1), l2. split; [done|]. split; [done|].
    intros y Hy. apply elem_of_cons in Hy as [->|Hy]; [|by apply Hfirst].
    intros (s' & Hs' & _). congruence.
Qed.

Lemma find_in_selectors_None a sels :
  ObjcRuntimeDataParser.find_in_selectors (Some a) sels = None
  ↔ ∀ x, x ∈ sels → ¬ refers_to a x.
Proof.
  induction sels as [|x sels IH]; simpl.
  - split; [|done]. intros _ y Hy. by apply elem_of_nil in Hy.
  - destruct (ObjcSelector.selref x) as [s|] eqn:Hs.
    + destruct (ObjcSelref.source_address s =? a) eqn:Heq.
      * split; [done|]. intros H. destruct (H x); [by left|].
        exists s. split; [done|]. by apply Z.eqb_eq.
      * rewrite IH. apply Z.eqb_neq in Heq. split.
        -- intros H y Hy. apply elem_of_cons in Hy as [->|Hy]; [|by apply H].
           intros (s' & Hs' & Ha). congruence.
        -- intros H y Hy. apply H. by right.
    + rewrite IH. split.
      * intros H y Hy. apply elem_of_cons in Hy as [->|Hy]; [|by apply H].
        intros (s' & Hs' & _). congruence.
      * intros H y Hy. apply H. by right.
Qed.

Lemma find_in_selectors_None_addr sels :
  ObjcRuntimeDataParser.find_in_selectors None sels = None.
Proof.
  induction sels as [|x sels IH]; simpl; [done|].
  by destruct (ObjcSelector.selref x).
Qed.

(** The selrefs with a given source address, as the list comprehension of
    [selector_for_selref] collects them. *)
Lemma filter_source_nil a (selrefs : list ObjcSelref.t) :
  List.filter (λ x, ObjcRuntimeDataParser.int_eq (ObjcSelref.source_address x) (Some a))
              selrefs = []
  ↔ ∀ s, s ∈ selrefs → ObjcSelref.source_address s ≠ a.
Proof.
  induction selrefs as [|x l IH]; simpl.
  - split; [|done]. intros _ s Hs. by apply elem_of_nil in Hs.
  - destruct (ObjcSelref.source_address x =? a) eqn:Heq.
    + split; [done|]. intros H. apply Z.eqb_eq in Heq.
      destruct (H x); [by left|done].
    + rewrite IH. apply Z.eqb_neq in Heq. split.
      * intros H s Hs. apply elem_of_cons in Hs as [->|Hs]; [done|by apply H].
      * intros H s Hs. apply H. by right.
Qed.

Lemma filter_source_head a (selrefs : list ObjcSelref.t) s rest :
  List.filter (λ x, ObjcRuntimeDataParser.int_eq (ObjcSelref.source_address x) (Some a))
              selrefs = s :: rest →
  s ∈ selrefs ∧ ObjcSelref.source_address s = a.
Proof.
  intros H.
  assert (In s (List.filter (λ x, ObjcRuntimeDataParser.int_eq
            (ObjcSelref.source_address x) (Some a)) selrefs)) as Hin
    by (rewrite H; by left).
  apply filter_In in Hin as [Hin Heq]. split.
  - by apply list_elem_of_In.
  - by apply Z.eqb_eq.
Qed.

(** The two ways [selector_for_selref] can go at an address: either the
    search through the classes finds a first selector referring to it, or no
    selector refers to it and the selrefs decide. *)
Lemma selector_for_selref_cases binary p a :
  result (ObjcRuntimeDataParser.init binary) = Some p →
  let selectors := all_selectors (ObjcRuntimeDataParser.classes p) in
  (∃ sel l1 l2,
     ObjcRuntimeDataParser.selector_for_selref p (Some a) = Some sel
     ∧ selectors = l1 ++ sel :: l2 ∧ refers_to a sel
     ∧ ∀ x, x ∈ l1 → ¬ refers_to a x)
  ∨ ((∀ sel, sel ∈ selectors → ¬ refers_to a sel)
     ∧ (∀ s, s ∈ ObjcRuntimeDataParser._selrefs p →
             ObjcSelref.source_address s = a →
             ObjcRuntimeDataParser.selector_for_selref p (Some a)
             = Some (ObjcSelector.mk (ObjcSelref.selector_literal s) (Some s)
                                     None true))
     ∧ ((∀ s, s ∈ ObjcRuntimeDataParser._selrefs p →
              ObjcSelref.source_address s ≠ a) →
        ObjcRuntimeDataParser.selector_for_selref p (Some a) = None)).
Proof.
  intros Hinit selectors. unfold ObjcRuntimeDataParser.selector_for_selref.
  rewrite find_in_classes_flat. fold selectors.
  destruct (ObjcRuntimeDataParser.find_in_selectors (Some a) selectors)
    as [sel|] eqn:Hfind.
  - left. apply find_in_selectors_Some in Hfind as (l1 & l2 & Heq & Hr & Hfirst).
    by exists sel, l1, l2.
  - right. split; [by apply find_in_selectors_None|]. split.
    + intros s Hs Hsrc.
      destruct (List.filter _ _) as [|s' rest] eqn:Hf.
      * destruct (proj1 (filter_source_nil _ _) Hf s Hs Hsrc).
      * apply filter_source_head in Hf as [Hin' Hsrc'].
        rewrite <-Hsrc in Hsrc'.
        by rewrite (parse_selrefs_source_inj binary _ s' s
                      (init_selrefs _ _ Hinit) Hin' Hs Hsrc').
    + intros Hnone. by rewrite (proj2 (filter_source_nil a _) Hnone).
Qed.

(** C1: [selector_for_selref] on a constructed parser splits three ways.
    (1) If some selector of a parsed class carries a selref whose source
    address is [a], the call at [a] returns such a local selector, the first
    one in class order and method order. (2) If [s] is a parsed selref that
    no selector of a parsed class carries, the call at its source address
    returns the synthetic selector named by the literal of [s], carrying [s]
    and without implementation. (3) If [a] is the source address of no
    parsed selref, the call at [a] returns nothing; so does the call at
    [None]. *)
Theorem C1_selector_for_selref (binary : MachoBinary.t)
    (p : ObjcRuntimeDataParser.t) :
  result (ObjcRuntimeDataParser.init binary) = Some p →
  let selectors := all_selectors (ObjcRuntimeDataParser.classes p) in
  (∀ a, (∃ sel, sel ∈ selectors ∧ refers_to a sel) →
        ∃ sel l1 l2,
          ObjcRuntimeDataParser.selector_for_selref p (Some a) = Some sel
          ∧ selectors = l1 ++ sel :: l2 ∧ refers_to a sel
          ∧ ∀ x, x ∈ l1 → ¬ refers_to a x)
  ∧ (∀ s, s ∈ ObjcRuntimeDataParser._selrefs p →
          (∀ sel, sel ∈ selectors →
                  ¬ refers_to (ObjcSelref.source_address s) sel) →
          ObjcRuntimeDataParser.selector_for_selref p
            (Some (ObjcSelref.source_address s))
          = Some (ObjcSelector.mk (ObjcSelref.selector_literal s) (Some s)
                                  None true))
  ∧ (∀ a, (∀ s, s ∈ ObjcRuntimeDataParser._selrefs p →
                ObjcSelref.source_address s ≠ a) →
          ObjcRuntimeDataParser.selector_for_selref p (Some a) = None)
  ∧ ObjcRuntimeDataParser.selector_for_selref p None = None.
Proof.
  intros Hinit selectors. split; [|split; [|split]].
  - intros a (sel0 & Hin0 & Href0).
    destruct (selector_for_selref_cases binary p a Hinit)
      as [Hfound|[Hnone _]]; [done|].
    destruct (Hnone sel0 Hin0 Href0).
  - intros s Hs Hnone.
    destruct (selector_for_selref_cases binary p (ObjcSelref.source_address s)
                Hinit) as [(sel & l1 & l2 & _ & Heq & Hr & _)|(_ & Hext & _)].
    + destruct (Hnone sel); [|done]. fold selectors in Heq. rewrite Heq.
      apply elem_of_app. right. by left.
    + by apply Hext.
  - intros a Hnone.
    destruct (selector_for_selref_cases binary p a Hinit)
      as [(sel & l1 & l2 & _ & Heq & (s & Hs & Ha) & _)|(_ & _ & Habs)].
    + assert (sel ∈ all_selectors (ObjcRuntimeDataParser.classes p)) as Hin.
      { rewrite Heq. apply elem_of_app. right. by left. }
      destruct (parsed_selector_selref binary p sel s Hinit Hin Hs) as [Hsin _].
      destruct (Hnone s Hsin Ha).
    + by apply Habs.
  - unfold ObjcRuntimeDataParser.selector_for_selref.
    rewrite find_in_classes_flat, find_in_selectors_None_addr.
    by induction (ObjcRuntimeDataParser._selrefs p).
Qed.

(** C2: for every selref [S] produced by the selrefs pass,
    [selector_for_selref] at the source address of [S] returns a selector,
    and its name is the literal of [S], whether the selector is one of a
    parsed class or the synthetic external one. *)
Theorem C2_selref_resolves (binary : MachoBinary.t)
    (p : ObjcRuntimeDataParser.t) (S : ObjcSelref.t) :
  result (ObjcRuntimeDataParser.init binary) = Some p →
  S ∈ ObjcRuntimeDataParser._selrefs p →
  ∃ sel,
    ObjcRuntimeDataParser.selector_for_selref p
      (Some (ObjcSelref.source_address S)) = Some sel
    ∧ ObjcSelector.name sel = ObjcSelref.selector_literal S.
Proof.
  intros Hinit HS.
  destruct (selector_for_selref_cases binary p (ObjcSelref.source_address S)
              Hinit) as [(sel & l1 & l2 & Hcall & Heq & (s & Hs & Hsrc) & _)
                        |(_ & Hext & _)].
  - exists sel. split; [done|].
    assert (sel ∈ all_selectors (ObjcRuntimeDataParser.classes p)) as Hin.
    { rewrite Heq. apply elem_of_app. right. by left. }
    destruct (parsed_selector_selref binary p sel s Hinit Hin Hs) as [Hsin Hname].
    by rewrite Hname, (parse_selrefs_source_inj binary _ s S
                         (init_selrefs _ _ Hinit) Hsin HS Hsrc).
  - eexists. split; [by apply Hext|done].
Qed.

(** ** Selectors of a parsed class *)

Lemma read_method_entries_length binary n off ents :
  read_method_entries binary n off = Some ents → length ents = n.
Proof.
  revert off ents. induction n as [|n IH]; intros off ents H; simpl in H.
  - by injection H as <-.
  - destruct (MachoBinary.read_ObjcMethodStruct binary off) as [ent|];
      simpl in H; [|done].
    destruct (read_method_entries binary n _) as [rest|] eqn:Hrest;
      simpl in H; [|done].
    injection H as <-. simpl. f_equal. by apply (IH _ _ Hrest).
Qed.

(** A method entry determines its selector. *)
Lemma method_selector_functional binary selrefs ent sel1 sel2 :
  method_selector binary selrefs ent sel1 →
  method_selector binary selrefs ent sel2 → sel1 = sel2.
Proof.
  intros (Hn1 & Hr1 & Hi1 & He1) (Hn2 & Hr2 & Hi2 & He2).
  destruct sel1, sel2; simpl in *. rewrite Hn1 in Hn2. injection Hn2 as ->.
  congruence.
Qed.

(** Clearing the low two bits. *)
Lemma land_lnot_3_aligned v : Z.land (Z.land v (Z.lnot 3)) 3 = 0.
Proof.
  rewrite <-Z.land_assoc. change (Z.land (Z.lnot 3) 3) with 0.
  apply Z.land_0_r.
Qed.

Lemma land_lnot_3_testbit v i :
  0 ≤ i < 2 → Z.testbit (Z.land v (Z.lnot 3)) i = false.
Proof.
  intros Hi. rewrite Z.land_spec.
  assert (i = 0 ∨ i = 1) as [->| ->] by lia; simpl; apply andb_false_r.
Qed.

Lemma find_in_selectors_elem addr sels sel :
  ObjcRuntimeDataParser.find_in_selectors addr sels = Some sel → sel ∈ sels.
Proof.
  induction sels as [|x sels IH]; simpl; [done|]. intros H.
  destruct (ObjcSelector.selref x) as [s|].
  - destruct (ObjcRuntimeDataParser.int_eq _ addr).
    + injection H as <-. by left.
    + right. by apply IH.
  - right. by apply IH.
Qed.

(** What [selector_for_selref] returns is a selector of a parsed class or a
    synthetic selector without implementation. *)
Lemma selector_for_selref_Some p addr sel :
  ObjcRuntimeDataParser.selector_for_selref p addr = Some sel →
  sel ∈ all_selectors (ObjcRuntimeDataParser.classes p)
  ∨ ∃ s, sel = ObjcSelector.init (ObjcSelref.selector_literal s) (Some s) None.
Proof.
  unfold ObjcRuntimeDataParser.selector_for_selref.
  rewrite find_in_classes_flat.
  destruct (ObjcRuntimeDataParser.find_in_selectors addr _) as [sel'|] eqn:Hfind.
  - intros H. injection H as <-. left. by apply find_in_selectors_elem in Hfind.
  - destruct (List.filter _ _) as [|s rest]; [done|].
    intros H. injection H as <-. right. by exists s.
Qed.

(** C4: for every parsed class, the implementation address of the [i]-th
    selector is the raw [imp] field of the [i]-th entry of the method list
    with the low two bits cleared ([imp & ~0x3]); so every implementation
    address of a selector of a parsed class is present and has its two low
    bits equal to zero. *)
Theorem C4_imp_low_bits_cleared (binary : MachoBinary.t)
    (p : ObjcRuntimeDataParser.t) (c : ObjcClass.t) :
  result (ObjcRuntimeDataParser.init binary) = Some p →
  c ∈ ObjcRuntimeDataParser.classes p →
  (∃ d ents,
     class_source binary c d ents
     ∧ length (ObjcClass.selectors c) = length ents
     ∧ ∀ i ent, ents !! i = Some ent →
         ∃ sel, ObjcClass.selectors c !! i = Some sel
                ∧ ObjcSelector.implementation sel
                  = Some (Z.land (ObjcMethodStruct.implementation ent)
                                 (Z.lnot 3)))
  ∧ ∀ sel, sel ∈ ObjcClass.selectors c →
      ∃ v, ObjcSelector.implementation sel = Some v
           ∧ Z.land v 3 = 0
           ∧ Z.testbit v 0 = false ∧ Z.testbit v 1 = false.
Proof.
  intros Hinit Hc.
  destruct (parsed_class_source binary p c Hinit Hc) as (d & ents & Hsrc & Hall).
  split.
  - exists d, ents. split; [done|]. split.
    + symmetry. by apply Forall2_length in Hall.
    + intros i ent Hi.
      destruct (Forall2_lookup_l _ _ _ _ _ Hall Hi) as (sel & Hsel & Hm).
      exists sel. split; [done|]. by destruct Hm as (_ & _ & ? & _).
  - intros sel Hsel. apply list_elem_of_lookup in Hsel as [i Hi].
    destruct (Forall2_lookup_r _ _ _ _ _ Hall Hi) as (ent & _ & Hm).
    destruct Hm as (_ & _ & Himp & _). eexists. split; [exact Himp|].
    split; [apply land_lnot_3_aligned|].
    split; by apply land_lnot_3_testbit.
Qed.

(** C5: for every parsed class, the [i]-th selector belongs to the [i]-th
    entry of the method list and always carries the aligned implementation
    address. If the name pointer of the entry is the destination of some
    parsed selref, the selector carries a parsed selref with that
    destination (the one the destination index holds, which is the given
    selref whenever no other parsed selref has the same destination). If the
    name pointer is the destination of no parsed selref, the selector has no
    selref, and it is in the list all the same. *)
Theorem C5_selref_attached (binary : MachoBinary.t)
    (p : ObjcRuntimeDataParser.t) (c : ObjcClass.t) :
  result (ObjcRuntimeDataParser.init binary) = Some p →
  c ∈ ObjcRuntimeDataParser.classes p →
  let selrefs := ObjcRuntimeDataParser._selrefs p in
  ∃ d ents,
    class_source binary c d ents
    ∧ ∀ i ent, ents !! i = Some ent →
        ∃ sel,
          ObjcClass.selectors c !! i = Some sel
          ∧ ObjcSelector.implementation sel
            = Some (Z.land (ObjcMethodStruct.implementation ent) (Z.lnot 3))
          ∧ (∀ s, s ∈ selrefs →
                  ObjcSelref.destination_address s = ObjcMethodStruct.name ent →
                  (∃ s', ObjcSelector.selref sel = Some s' ∧ s' ∈ selrefs
                         ∧ ObjcSelref.destination_address s'
                           = ObjcMethodStruct.name ent)
                  ∧ ((∀ t, t ∈ selrefs →
                           ObjcSelref.destination_address t
                           = ObjcMethodStruct.name ent → t = s) →
                     ObjcSelector.selref sel = Some s))
          ∧ ((∀ s, s ∈ selrefs →
                   ObjcSelref.destination_address s ≠ ObjcMethodStruct.name ent) →
             ObjcSelector.selref sel = None).
Proof.
  intros Hinit Hc selrefs.
  destruct (parsed_class_source binary p c Hinit Hc) as (d & ents & Hsrc & Hall).
  exists d, ents. split; [done|]. intros i ent Hi.
  destruct (Forall2_lookup_l _ _ _ _ _ Hall Hi) as (sel & Hsel & Hm).
  destruct Hm as (_ & Href & Himp & _).
  exists sel. split; [done|]. split; [done|]. split.
  - intros s Hs Hdest.
    destruct (last (selrefs_to selrefs (ObjcMethodStruct.name ent)))
      as [s'|] eqn:Hlast.
    + fold selrefs in Href. rewrite Hlast in Href.
      apply last_selrefs_to_Some in Hlast as [Hin' Hd']. split.
      * by exists s'.
      * intros Huniq. by rewrite Href, (Huniq s' Hin' Hd').
    + destruct (proj1 (last_selrefs_to_None _ _) Hlast s Hs Hdest).
  - intros Hnone. fold selrefs in Href. rewrite Href.
    by apply last_selrefs_to_None.
Qed.

(** C8: for every parsed class, the selector list follows the method list:
    there are as many selectors as entries, the [i]-th selector is the one
    the [i]-th entry parses to, and an entry that occurs twice yields its
    selector twice. When the method list is present the number of selectors
    is its [methcount]; when [base_methods] is zero the selector list is
    empty. *)
Theorem C8_selectors_in_method_order (binary : MachoBinary.t)
    (p : ObjcRuntimeDataParser.t) (c : ObjcClass.t) :
  result (ObjcRuntimeDataParser.init binary) = Some p →
  c ∈ ObjcRuntimeDataParser.classes p →
  ∃ d ents,
    class_source binary c d ents
    ∧ length (ObjcClass.selectors c) = length ents
    ∧ (∀ i ent, ents !! i = Some ent →
         ∃ sel, ObjcClass.selectors c !! i = Some sel
                ∧ method_selector binary (ObjcRuntimeDataParser._selrefs p)
                                  ent sel)
    ∧ (∀ i j ent, i ≠ j → ents !! i = Some ent → ents !! j = Some ent →
         ∃ sel, ObjcClass.selectors c !! i = Some sel
                ∧ ObjcClass.selectors c !! j = Some sel)
    ∧ (∀ methlist_file_ptr methlist,
         ObjcDataRawStruct.base_methods d ≠ 0 →
         MachoBinary.file_offset_for_virtual_address binary
           (ObjcDataRawStruct.base_methods d) = Some methlist_file_ptr →
         MachoBinary.read_ObjcMethodListStruct binary methlist_file_ptr
           = Some methlist →
         length (ObjcClass.selectors c)
         = Z.to_nat (ObjcMethodListStruct.methcount methlist))
    ∧ (ObjcDataRawStruct.base_methods d = 0 → ObjcClass.selectors c = []).
Proof.
  intros Hinit Hc.
  destruct (parsed_class_source binary p c Hinit Hc) as (d & ents & Hsrc & Hall).
  pose proof (Forall2_length _ _ _ Hall) as Hlen.
  exists d, ents. split; [done|]. split; [done|]. split; [|split; [|split]].
  - intros i ent Hi.
    destruct (Forall2_lookup_l _ _ _ _ _ Hall Hi) as (sel & Hsel & Hm).
    by exists sel.
  - intros i j ent _ Hi Hj.
    destruct (Forall2_lookup_l _ _ _ _ _ Hall Hi) as (sel & Hsel & Hm).
    destruct (Forall2_lookup_l _ _ _ _ _ Hall Hj) as (sel' & Hsel' & Hm').
    exists sel. split; [done|].
    by rewrite (method_selector_functional _ _ _ _ _ Hm Hm').
  - intros fptr methlist Hnz Hfptr Hml.
    destruct Hsrc as (_ & _ & _ & Hents). unfold method_list_entries in Hents.
    apply Z.eqb_neq in Hnz. rewrite Hnz, Hfptr in Hents. simpl in Hents.
    rewrite Hml in Hents. simpl in Hents.
    apply read_method_entries_length in Hents. congruence.
  - intros Hz. destruct Hsrc as (_ & _ & _ & Hents).
    unfold method_list_entries in Hents. apply Z.eqb_eq in Hz.
    rewrite Hz in Hents. injection Hents as <-. by apply Forall2_nil_inv_l in Hall.
Qed.

(** C7, as the code has it: [is_external_definition] is [not
    self.implementation], which holds when the implementation is absent and
    also when it is [0]. Every selector of a parsed class has an
    implementation, the aligned [imp], and is flagged external exactly when
    that value is [0]; the synthetic selector of [selector_for_selref] has no
    implementation and is flagged external. *)
Theorem C7_external_flag (binary : MachoBinary.t)
    (p : ObjcRuntimeDataParser.t) :
  result (ObjcRuntimeDataParser.init binary) = Some p →
  (∀ name selref implementation,
     ObjcSelector.is_external_definition
       (ObjcSelector.init name selref implementation) = true
     ↔ implementation = None ∨ implementation = Some 0)
  ∧ (∀ sel, sel ∈ all_selectors (ObjcRuntimeDataParser.classes p) →
       ∃ v, ObjcSelector.implementation sel = Some v
            ∧ (ObjcSelector.is_external_definition sel = true ↔ v = 0))
  ∧ (∀ addr sel,
       ObjcRuntimeDataParser.selector_for_selref p addr = Some sel →
       ObjcSelector.is_external_definition sel = true
       ↔ ObjcSelector.implementation sel = None
         ∨ ObjcSelector.implementation sel = Some 0).
Proof.
  intros Hinit.
  assert (∀ sel, sel ∈ all_selectors (ObjcRuntimeDataParser.classes p) →
            ∃ v, ObjcSelector.implementation sel = Some v
                 ∧ (ObjcSelector.is_external_definition sel = true ↔ v = 0))
    as Hlocal.
  { intros sel Hsel.
    destruct (parsed_selector binary p sel Hinit Hsel)
      as (ent & _ & _ & Himp & Hext).
    eexists. split; [exact Himp|]. rewrite Hext. apply Z.eqb_eq. }
  split; [|split; [done|]].
  - intros name selref [v|]; simpl.
    + rewrite Z.eqb_eq. split; [intros ->; by right|].
      intros [?|H]; [done|]. by injection H.
    + split; [by left|done].
  - intros addr sel Hcall.
    apply selector_for_selref_Some in Hcall as [Hsel|(s & ->)].
    + destruct (Hlocal sel Hsel) as (v & Himp & Hiff). rewrite Himp, Hiff.
      split; [intros ->; by right|]. intros [?|H]; [done|]. by injection H.
    + simpl. split; [by left|done].
Qed.

(** ** Skipped classlist entries and the log *)

Lemma logged_bind_l {A B} (m : M A) (f : A → M B) e :
  e ∈ logged m → e ∈ logged (m ≫= f).
Proof. intros H. rewrite logged_bind. apply elem_of_app. by left. Qed.

Lemma logged_bind_r {A B} (m : M A) (f : A → M B) a e :
  result m = Some a → e ∈ logged (f a) → e ∈ logged (m ≫= f).
Proof.
  intros Hm H. rewrite logged_bind, Hm. apply elem_of_app. by right.
Qed.

Lemma classes_loop_skip binary selrefs ptr event after acc :
  parse_classlist_pointer binary selrefs ptr = ([event], Some []) →
  result (classes_loop binary selrefs (ptr :: after) acc)
  = result (classes_loop binary selrefs after acc)
  ∧ logged (classes_loop binary selrefs (ptr :: after) acc)
    = event :: logged (classes_loop binary selrefs after acc).
Proof.
  intros H. cbn [classes_loop]. rewrite result_bind, logged_bind, H.
  cbn [result logged fst snd mbind option_bind]. by rewrite app_nil_r.
Qed.

Lemma init_classlist_steps binary p :
  result (ObjcRuntimeDataParser.init binary) = Some p →
  ∃ ptrs ls,
    result (_get_classlist_pointers binary) = Some ptrs
    ∧ Forall2 (λ ptr added,
                 result (parse_classlist_pointer binary
                           (ObjcRuntimeDataParser._selrefs p) ptr) = Some added)
              ptrs ls
    ∧ ObjcRuntimeDataParser.classes p = mjoin ls.
Proof.
  intros H. apply init_Some in H as (selrefs & classes & syms & _ & Hc & _ & ->).
  apply parse_static_objc_runtime_info_Some in Hc as (ptrs & Hptrs & Hloop).
  rewrite result_classes_loop in Hloop.
  apply fmap_Some in Hloop as (ls & Hls & ->). apply mapM_Some in Hls.
  by exists ptrs, ls.
Qed.

Lemma pointer_data_functional binary ptr d1 d2 :
  pointer_data binary ptr d1 → pointer_data binary ptr d2 → d1 = d2.
Proof. intros (ce1 & H1 & Hd1) (ce2 & H2 & Hd2). congruence. Qed.

(** The classes the steps of the classlist pass add are, in order, those of
    the data structures with a valid name pointer. *)
Lemma classlist_steps_classes binary selrefs ptrs ls :
  Forall2 (λ ptr added,
             result (parse_classlist_pointer binary selrefs ptr) = Some added)
          ptrs ls →
  ∃ ds,
    Forall2 (pointer_data binary) ptrs ds
    ∧ Forall2 (λ d c, result (_parse_objc_data_entry binary selrefs d) = Some c)
              (filter (λ d, MachoBinary.get_virtual_base binary
                            ≤ ObjcDataRawStruct.name d) ds)
              (mjoin ls).
Proof.
  induction 1 as [|ptr added ptrs ls Hstep _ IH].
  - exists []. split; constructor.
  - destruct IH as (ds & Hds & Hcs).
    apply parse_classlist_pointer_Some in Hstep as (d & Hd & Hcase).
    exists (d :: ds). split; [by constructor|].
    rewrite filter_cons. cbn [mjoin list_join].
    destruct (ObjcDataRawStruct.name d <? MachoBinary.get_virtual_base binary)
      eqn:Hlt.
    + apply Z.ltb_lt in Hlt. subst added.
      destruct (decide _) as [?|_]; [lia|done].
    + apply Z.ltb_ge in Hlt. destruct Hcase as (c & Hc & ->).
      destruct (decide _) as [_|?]; [|lia]. by constructor.
Qed.

(** C6: a classlist entry whose [__objc_data] structure has a name pointer
    below the virtual base is skipped: its step of the classlist pass logs
    the event, adds no class and does not raise; the pass over a classlist
    containing the entry returns what it returns without the entry; the
    event is in the log once the entries before it are parsed; the classlist
    pass of a binary whose classlist contains the entry returns what the
    loop returns on the other entries; and construction of the runtime
    parser completes with those classes when the other entries and the other
    passes parse. No parsed class comes from the skipped data structure.
    All other classes are still parsed: on a constructed parser the class
    list is, in classlist order, what [_parse_objc_data_entry] returns on
    exactly the data structures of the other entries whose name pointer is
    not below the virtual base, so every other valid entry has its class in
    the list. And parsing does not fail: construction returns whenever the
    other passes return and the step of every other entry returns. *)
Theorem C6_invalid_data_entry_skipped (binary : MachoBinary.t)
    (selrefs : list ObjcSelref.t) (ptr : Z)
    (class_entry : ObjcClassRawStruct.t) (d : ObjcDataRawStruct.t) :
  MachoBinary.read_ObjcClassRawStruct binary ptr true = Some class_entry →
  MachoBinary.read_ObjcDataRawStruct binary
    (Z.land (ObjcClassRawStruct.data class_entry) (Z.lnot 3)) true = Some d →
  ObjcDataRawStruct.name d < MachoBinary.get_virtual_base binary →
  let event :=
    LogInvalidObjcDataRaw
      (Z.land (ObjcClassRawStruct.data class_entry) (Z.lnot 3))
      (ObjcDataRawStruct.name d) in
  parse_classlist_pointer binary selrefs ptr = ([event], Some [])
  ∧ (∀ before after acc,
       result (classes_loop binary selrefs (before ++ ptr :: after) acc)
       = result (classes_loop binary selrefs (before ++ after) acc))
  ∧ (∀ before after acc,
       is_Some (result (classes_loop binary selrefs before acc)) →
       event ∈ logged (classes_loop binary selrefs (before ++ ptr :: after) acc))
  ∧ (∀ before after,
       result (_get_classlist_pointers binary) = Some (before ++ ptr :: after) →
       result (_parse_static_objc_runtime_info binary selrefs)
       = result (classes_loop binary selrefs (before ++ after) []))
  ∧ (∀ before after classes syms,
       result (_get_classlist_pointers binary) = Some (before ++ ptr :: after) →
       result (_parse_selrefs binary) = Some selrefs →
       result (classes_loop binary selrefs (before ++ after) []) = Some classes →
       result (_parse_linked_dylib_symbols binary) = Some syms →
       result (ObjcRuntimeDataParser.init binary)
       = Some (ObjcRuntimeDataParser.mk binary selrefs classes syms)
       ∧ event ∈ logged (ObjcRuntimeDataParser.init binary))
  ∧ (∀ p c, result (ObjcRuntimeDataParser.init binary) = Some p →
            c ∈ ObjcRuntimeDataParser.classes p →
            ∃ d' ents, class_source binary c d' ents ∧ d' ≠ d)
  ∧ (∀ before after p,
       result (_get_classlist_pointers binary) = Some (before ++ ptr :: after) →
       result (ObjcRuntimeDataParser.init binary) = Some p →
       (∃ ds,
          Forall2 (pointer_data binary) (before ++ after) ds
          ∧ Forall2 (λ d' c,
                       result (_parse_objc_data_entry binary
                                 (ObjcRuntimeDataParser._selrefs p) d') = Some c)
                    (filter (λ d', MachoBinary.get_virtual_base binary
                                   ≤ ObjcDataRawStruct.name d') ds)
                    (ObjcRuntimeDataParser.classes p))
       ∧ ∀ q d',
           q ∈ before ++ after → pointer_data binary q d' →
           MachoBinary.get_virtual_base binary ≤ ObjcDataRawStruct.name d' →
           ∃ c, c ∈ ObjcRuntimeDataParser.classes p
                ∧ result (_parse_objc_data_entry binary
                            (ObjcRuntimeDataParser._selrefs p) d') = Some c)
  ∧ (∀ before after syms,
       result (_get_classlist_pointers binary) = Some (before ++ ptr :: after) →
       result (_parse_selrefs binary) = Some selrefs →
       result (_parse_linked_dylib_symbols binary) = Some syms →
       (∀ q, q ∈ before ++ after →
             is_Some (result (parse_classlist_pointer binary selrefs q))) →
       ∃ classes,
         result (ObjcRuntimeDataParser.init binary)
         = Some (ObjcRuntimeDataParser.mk binary selrefs classes syms)).
Proof.
  intros Hce Hd Hlt event.
  pose proof (parse_classlist_pointer_skip binary selrefs ptr class_entry d
                Hce Hd Hlt) as Hskip. fold event in Hskip.
  assert (∀ before after acc,
            result (classes_loop binary selrefs (before ++ ptr :: after) acc)
            = result (classes_loop binary selrefs (before ++ after) acc))
    as Hsame.
  { intros before after acc. rewrite !classes_loop_app, !result_bind.
    destruct (result (classes_loop binary selrefs before acc)) as [acc'|];
      [|done].
    cbn [mbind option_bind].
    by destruct (classes_loop_skip binary selrefs ptr event after acc' Hskip). }
  assert (∀ before after acc,
            is_Some (result (classes_loop binary selrefs before acc)) →
            event ∈ logged (classes_loop binary selrefs (before ++ ptr :: after) acc))
    as Hlogged.
  { intros before after acc [acc' Hb]. rewrite classes_loop_app.
    eapply logged_bind_r; [exact Hb|].
    destruct (classes_loop_skip binary selrefs ptr event after acc' Hskip)
      as [_ ->]. by left. }
  split; [done|]. split; [done|]. split; [done|].
  split; [|split; [|split; [|split]]].
  - intros before after Hptrs. rewrite <-Hsame.
    unfold _parse_static_objc_runtime_info.
    rewrite result_bind. cbn [result log snd mbind option_bind].
    rewrite result_bind, Hptrs. done.
  - intros before after classes syms Hptrs Hsel Hloop Hsyms.
    assert (result (classes_loop binary selrefs (before ++ ptr :: after) [])
            = Some classes) as Hloop' by (by rewrite Hsame).
    split.
    + apply init_Some. exists selrefs, classes, syms.
      split; [done|]. split; [|done].
      apply parse_static_objc_runtime_info_Some. by eexists.
    + unfold ObjcRuntimeDataParser.init.
      eapply logged_bind_r; [done|]. eapply logged_bind_r; [done|].
      eapply logged_bind_r; [exact Hsel|]. eapply logged_bind_r; [done|].
      apply logged_bind_l. unfold _parse_static_objc_runtime_info.
      eapply logged_bind_r; [done|]. eapply logged_bind_r; [exact Hptrs|].
      apply Hlogged.
      assert (result (classes_loop binary selrefs before [] ≫=
                        classes_loop binary selrefs (ptr :: after))
              = Some classes) as Hb by (by rewrite <-classes_loop_app).
      apply result_bind_Some in Hb as (acc' & Hb & _). by exists acc'.
  - intros p c Hinit Hc.
    destruct (parsed_class_source binary p c Hinit Hc) as (d' & ents & Hsrc & _).
    exists d', ents. split; [done|]. intros ->.
    destruct Hsrc as (_ & Hge & _). lia.
  - intros before after p Hptrs Hinit.
    destruct (init_classlist_steps binary p Hinit)
      as (ptrs' & ls & Hptrs' & Hall & Hcls).
    rewrite Hptrs in Hptrs'. injection Hptrs' as <-.
    apply Forall2_app_inv_l in Hall as (ls1 & ls2' & H1 & H2 & ->).
    apply Forall2_cons_inv_l in H2 as (added & ls2 & Hadded & H2 & ->).
    rewrite (parse_classlist_pointer_skip binary
               (ObjcRuntimeDataParser._selrefs p) ptr class_entry d Hce Hd Hlt)
      in Hadded.
    injection Hadded as <-.
    assert (ObjcRuntimeDataParser.classes p = mjoin (ls1 ++ ls2)) as Hcls'.
    { rewrite Hcls, !join_app. done. }
    assert (Forall2 (λ ptr added,
                       result (parse_classlist_pointer binary
                                 (ObjcRuntimeDataParser._selrefs p) ptr)
                       = Some added)
                    (before ++ after) (ls1 ++ ls2)) as Hrest
      by (by apply Forall2_app).
    destruct (classlist_steps_classes binary _ _ _ Hrest) as (ds & Hds & Hcs).
    rewrite <-Hcls' in Hcs. split; [by exists ds|].
    intros q d' Hq Hd' Hvalid.
    apply list_elem_of_lookup in Hq as [i Hi].
    destruct (Forall2_lookup_l _ _ _ _ _ Hds Hi) as (d'' & Hdi & Hd'').
    rewrite (pointer_data_functional _ _ _ _ Hd'' Hd') in Hdi.
    assert (d' ∈ filter (λ d', MachoBinary.get_virtual_base binary
                               ≤ ObjcDataRawStruct.name d') ds) as Hin.
    { apply list_elem_of_filter. split; [done|].
      by apply list_elem_of_lookup_2 in Hdi. }
    apply list_elem_of_lookup in Hin as [j Hj].
    destruct (Forall2_lookup_l _ _ _ _ _ Hcs Hj) as (c & Hc & Hparse).
    exists c. split; [|done]. by apply list_elem_of_lookup_2 in Hc.
  - intros before after syms Hptrs Hsel Hsyms Hsteps.
    assert (is_Some (result (classes_loop binary selrefs (before ++ after) [])))
      as [classes Hloop].
    { rewrite result_classes_loop. apply fmap_is_Some, mapM_is_Some.
      apply Forall_forall. intros q Hq. by apply Hsteps. }
    exists classes. apply init_Some. exists selrefs, classes, syms.
    split; [done|]. split; [|done].
    apply parse_static_objc_runtime_info_Some. eexists. split; [exact Hptrs|].
    by rewrite Hsame.
Qed.

(** ** Missing sections *)

Lemma parse_static_missing binary selrefs :
  MachoBinary.sections binary !! "__objc_classlist"%string = None →
  _parse_static_objc_runtime_info binary selrefs
  = ([LogCrossReferencing], Some []).
Proof.
  intros H. unfold _parse_static_objc_runtime_info, _get_classlist_pointers.
  by rewrite H.
Qed.

Lemma selector_for_selref_no_selrefs binary p addr :
  result (ObjcRuntimeDataParser.init binary) = Some p →
  ObjcRuntimeDataParser._selrefs p = [] →
  ObjcRuntimeDataParser.selector_for_selref p addr = None.
Proof.
  intros Hinit Hnil. destruct addr as [a|].
  - destruct (selector_for_selref_cases binary p a Hinit)
      as [(sel & l1 & l2 & _ & Heq & (s & Hs & _) & _)|(_ & _ & Habs)].
    + assert (sel ∈ all_selectors (ObjcRuntimeDataParser.classes p)) as Hin.
      { rewrite Heq. apply elem_of_app. right. by left. }
      destruct (parsed_selector_selref binary p sel s Hinit Hin Hs) as [Hsin _].
      rewrite Hnil in Hsin. by apply elem_of_nil in Hsin.
    + apply Habs. intros s Hs. rewrite Hnil in Hs. by apply elem_of_nil in Hs.
  - unfold ObjcRuntimeDataParser.selector_for_selref.
    rewrite find_in_classes_flat, find_in_selectors_None_addr. by rewrite Hnil.
Qed.

(** Construction returns when its three passes return. *)
Lemma result_init binary :
  result (ObjcRuntimeDataParser.init binary)
  = (selrefs ← result (_parse_selrefs binary);
     classes ← result (_parse_static_objc_runtime_info binary selrefs);
     syms ← result (_parse_linked_dylib_symbols binary);
     Some (ObjcRuntimeDataParser.mk binary selrefs classes syms)).
Proof.
  apply option_eq. intros p. rewrite init_Some. split.
  - intros (selrefs & classes & syms & -> & Hc & Hy & ->). simpl.
    rewrite Hc. simpl. by rewrite Hy.
  - intros H. apply bind_Some in H as (selrefs & Hs & H).
    apply bind_Some in H as (classes & Hc & H).
    apply bind_Some in H as (syms & Hy & H). injection H as <-.
    by exists selrefs, classes, syms.
Qed.

(** C10: missing ObjC sections are not an error. Without
    [__objc_classlist] the classlist pass returns the empty list without
    raising, so that construction returns exactly when the selrefs pass and
    the symbol pass return, with no classes, and
    [get_method_imp_addresses] returns the empty list. Without
    [__objc_selrefs] the selrefs pass returns the empty list without
    raising, and on the constructed parser [selector_for_selref] returns
    nothing at every address. Without both, construction returns exactly
    when the symbol pass returns, with no classes and no selrefs. *)
Theorem C10_missing_sections (binary : MachoBinary.t) :
  let no_classlist :=
    MachoBinary.sections binary !! "__objc_classlist"%string = None in
  let no_selrefs :=
    MachoBinary.sections binary !! "__objc_selrefs"%string = None in
  (no_classlist →
     (∀ selrefs, _parse_static_objc_runtime_info binary selrefs
                 = ([LogCrossReferencing], Some []))
     ∧ result (ObjcRuntimeDataParser.init binary)
       = (selrefs ← result (_parse_selrefs binary);
          syms ← result (_parse_linked_dylib_symbols binary);
          Some (ObjcRuntimeDataParser.mk binary selrefs [] syms))
     ∧ (∀ p, result (ObjcRuntimeDataParser.init binary) = Some p →
             ObjcRuntimeDataParser.classes p = []
             ∧ ∀ selector,
                 ObjcRuntimeDataParser.get_method_imp_addresses p selector = []))
  ∧ (no_selrefs →
       _parse_selrefs binary = ([], Some [])
       ∧ (∀ p, result (ObjcRuntimeDataParser.init binary) = Some p →
               ObjcRuntimeDataParser._selrefs p = []
               ∧ ∀ addr, ObjcRuntimeDataParser.selector_for_selref p addr = None))
  ∧ (no_classlist → no_selrefs →
       result (ObjcRuntimeDataParser.init binary)
       = (syms ← result (_parse_linked_dylib_symbols binary);
          Some (ObjcRuntimeDataParser.mk binary [] [] syms))).
Proof.
  intros no_classlist no_selrefs.
  assert (no_classlist →
          result (ObjcRuntimeDataParser.init binary)
          = (selrefs ← result (_parse_selrefs binary);
             syms ← result (_parse_linked_dylib_symbols binary);
             Some (ObjcRuntimeDataParser.mk binary selrefs [] syms))) as Hinit.
  { intros Hc. rewrite result_init.
    destruct (result (_parse_selrefs binary)) as [selrefs|]; [|done]. simpl.
    by rewrite parse_static_missing. }
  split; [|split].
  - intros Hc. split; [intros; by apply parse_static_missing|].
    split; [by apply Hinit|].
    intros p Hp. apply init_Some in Hp as (selrefs & classes & syms & _ & Hcs & _ & ->).
    rewrite parse_static_missing in Hcs by done. injection Hcs as <-. done.
  - intros Hs. split; [by apply result_parse_selrefs_missing|].
    intros p Hp.
    assert (ObjcRuntimeDataParser._selrefs p = []) as Hnil.
    { pose proof (init_selrefs _ _ Hp) as H.
      rewrite result_parse_selrefs_missing in H by done. by injection H. }
    split; [done|]. intros addr.
    by apply (selector_for_selref_no_selrefs binary).
  - intros Hc Hs. rewrite (Hinit Hc).
    by rewrite result_parse_selrefs_missing.
Qed.

(** ** The linked-dylib symbol map *)

Lemma library_ordinal_arith n_desc :
  _library_ordinal_from_n_desc n_desc = (n_desc / 2 ^ 8) mod 2 ^ 8
  ∧ 0 ≤ _library_ordinal_from_n_desc n_desc ≤ 255.
Proof.
  assert (_library_ordinal_from_n_desc n_desc = (n_desc / 2 ^ 8) mod 2 ^ 8)
    as ->.
  { unfold _library_ordinal_from_n_desc. change 255 with (Z.ones 8).
    by rewrite Z.land_ones, Z.shiftr_div_pow2 by lia. }
  split; [done|].
  pose proof (Z.mod_pos_bound (n_desc / 2 ^ 8) (2 ^ 8)). lia.
Qed.

Lemma linked_dylib_symbol_Some binary j symbol_name source_name :
  result (linked_dylib_symbol binary j) = Some (symbol_name, source_name)
  ↔ ∃ sym source_dylib,
      undefined_symbol binary j = Some (sym, symbol_name)
      ∧ _dylib_from_library_ordinal binary (library_ordinal sym)
        = Some source_dylib
      ∧ install_name binary source_dylib = Some source_name.
Proof.
  unfold linked_dylib_symbol, undefined_symbol, install_name. split.
  - intros H.
    apply result_bind_Some in H as (sym & Hsym & H).
    apply result_bind_Some in H as (name & Hname & H).
    apply result_bind_Some in H as (dylib & Hdylib & H).
    apply result_bind_Some in H as (src & Hsrc & H).
    cbv [result lift snd] in Hsym, Hname, Hdylib, Hsrc.
    rewrite result_ret in H. injection H as <- <-.
    exists sym, dylib. rewrite Hsym. simpl. rewrite Hname. done.
  - intros (sym & dylib & Hu & Hdylib & Hsrc).
    destruct (Py.index _ _) as [sym'|] eqn:Hsym; simpl in Hu; [|done].
    destruct (MachoBinary.get_full_string_from_start_address binary _ false)
      as [name|] eqn:Hname; simpl in Hu; [|done].
    injection Hu as -> ->.
    apply result_bind_Some. exists sym. split; [done|].
    apply result_bind_Some. exists symbol_name. split; [done|].
    apply result_bind_Some. exists dylib. split; [done|].
    apply result_bind_Some. exists source_name. by split.
Qed.

Lemma result_linked_dylib_loop binary idxs m0 :
  result (linked_dylib_loop binary idxs m0)
  = foldl (λ (m : gmap string string) kv, <[kv.1 := kv.2]> m) m0
      <$> mapM (λ j, result (linked_dylib_symbol binary j)) idxs.
Proof.
  revert m0. induction idxs as [|j idxs IH]; intros m0;
    cbn [linked_dylib_loop mapM]; [done|].
  rewrite result_bind.
  destruct (result (linked_dylib_symbol binary j)) as [[k v]|]; [|done].
  cbn [mbind option_bind]. rewrite IH.
  by destruct (mapM _ idxs).
Qed.

Lemma filter_none {A} (P : A → Prop) `{∀ x, Decision (P x)} (l : list A) :
  (∀ x, x ∈ l → ¬ P x) → filter P l = [].
Proof.
  induction l as [|x l IH]; intros Hl; [done|].
  rewrite filter_cons. destruct (decide (P x)) as [HP|_].
  - destruct (Hl x); [by left|done].
  - apply IH. intros y Hy. apply Hl. by right.
Qed.

(** After a sequence of dictionary assignments, a key holds the value of
    its last assignment. *)
Lemma foldl_insert_lookup (pairs : list (string * string))
    (m0 : gmap string string) k :
  foldl (λ (m : gmap string string) kv, <[kv.1 := kv.2]> m) m0 pairs !! k
  = match last (filter (λ kv, kv.1 = k) pairs) with
    | Some kv => Some kv.2
    | None => m0 !! k
    end.
Proof.
  induction pairs as [|[k' v'] pairs IH] using rev_ind; [done|].
  rewrite foldl_app, filter_app, filter_cons, filter_nil. simpl.
  destruct (decide (k' = k)) as [->|Hne].
  - by rewrite lookup_insert_eq, last_snoc.
  - by rewrite lookup_insert_ne, app_nil_r.
Qed.

Lemma last_filter_lookup {A} (P : A → Prop) `{∀ x, Decision (P x)}
    (l : list A) i x :
  l !! i = Some x → P x →
  (∀ i' x', (i < i')%nat → l !! i' = Some x' → ¬ P x') →
  last (filter P l) = Some x.
Proof.
  intros Hi HP Hlater. rewrite <-(take_drop_middle l i x Hi).
  rewrite filter_app, filter_cons. destruct (decide (P x)); [|done].
  rewrite (filter_none P (drop (S i) l)).
  - by rewrite last_snoc.
  - intros y Hy. apply list_elem_of_lookup in Hy as [k Hk].
    rewrite lookup_drop in Hk. apply (Hlater (S i + k)%nat y); [lia|done].
Qed.

(** The symbol pass, symbol by symbol. *)
Lemma parse_linked_dylib_symbols_Some binary syms :
  result (_parse_linked_dylib_symbols binary) = Some syms →
  ∃ pairs,
    syms = foldl (λ (m : gmap string string) kv, <[kv.1 := kv.2]> m) ∅ pairs
    ∧ length pairs = Z.to_nat (MachoBinary.dysymtab_nundefsym binary)
    ∧ ∀ i kv, pairs !! i = Some kv →
        result (linked_dylib_symbol binary (Z.of_nat i)) = Some kv.
Proof.
  unfold _parse_linked_dylib_symbols. rewrite result_linked_dylib_loop.
  intros H. apply fmap_Some in H as (pairs & Hpairs & ->).
  apply mapM_Some in Hpairs. exists pairs. split; [done|]. split.
  - apply Forall2_length in Hpairs. rewrite <-Hpairs. apply length_seqZ.
  - intros i kv Hi.
    destruct (Forall2_lookup_r _ _ _ _ _ Hpairs Hi) as (j & Hj & Hres).
    apply lookup_seqZ in Hj as [-> _]. done.
Qed.

(** C9, as the code has it: the library ordinal of a symbol is
    [(n_desc >> 8) & 0xff], a number from 0 to 255. On a constructed parser,
    every symbol of the undefined slice has a name that
    [path_for_external_symbol] maps to some install name. When the ordinal
    of the symbol is at least 1, its source dylib is the element at position
    [ordinal - 1] of the dylib load commands and has an install name; and
    when no later symbol of the slice has the same name,
    [path_for_external_symbol] maps the name to that install name. *)
Theorem C9_linked_dylib_symbols (binary : MachoBinary.t)
    (p : ObjcRuntimeDataParser.t) :
  result (ObjcRuntimeDataParser.init binary) = Some p →
  (∀ sym, library_ordinal sym = _library_ordinal_from_n_desc (Nlist.n_desc sym)
          ∧ library_ordinal sym = (Nlist.n_desc sym / 2 ^ 8) mod 2 ^ 8
          ∧ 0 ≤ library_ordinal sym ≤ 255)
  ∧ ∀ j, 0 ≤ j < MachoBinary.dysymtab_nundefsym binary →
      ∃ sym symbol_name,
        undefined_symbol binary j = Some (sym, symbol_name)
        ∧ is_Some (ObjcRuntimeDataParser.path_for_external_symbol p symbol_name)
        ∧ (1 ≤ library_ordinal sym →
           ∃ source_dylib source_name,
             MachoBinary.load_dylib_commands binary
               !! Z.to_nat (library_ordinal sym - 1) = Some source_dylib
             ∧ install_name binary source_dylib = Some source_name
             ∧ ((∀ j' sym' name',
                   j < j' < MachoBinary.dysymtab_nundefsym binary →
                   undefined_symbol binary j' = Some (sym', name') →
                   name' ≠ symbol_name) →
                ObjcRuntimeDataParser.path_for_external_symbol p symbol_name
                = Some source_name
                ∧ records_source_dylib binary p j)).
Proof.
  intros Hinit. split.
  { intros sym. split; [done|]. apply library_ordinal_arith. }
  intros j Hj.
  apply init_Some in Hinit as (selrefs & classes & syms & _ & _ & Hsyms & ->).
  unfold ObjcRuntimeDataParser.path_for_external_symbol.
  cbn [ObjcRuntimeDataParser._sym_to_dylib_path].
  apply parse_linked_dylib_symbols_Some in Hsyms as (pairs & -> & Hlen & Hpairs).
  destruct (lookup_lt_is_Some_2 pairs (Z.to_nat j)) as [[k v] Hkv]; [lia|].
  pose proof (Hpairs _ _ Hkv) as Hres. rewrite Z2Nat.id in Hres by lia.
  apply linked_dylib_symbol_Some in Hres as (sym & dylib & Hu & Hdylib & Hname).
  exists sym, k. split; [done|]. split.
  - rewrite foldl_insert_lookup.
    destruct (last (filter (λ kv : string * string, kv.1 = k) pairs))
      as [kv|] eqn:Hlast; [done|].
    apply last_None in Hlast.
    assert ((k, v) ∈ filter (λ kv : string * string, kv.1 = k) pairs) as Hin.
    { apply list_elem_of_filter. split; [done|].
      by apply list_elem_of_lookup_2 in Hkv. }
    rewrite Hlast in Hin. by apply elem_of_nil in Hin.
  - intros Hord. exists dylib, v.
    unfold _dylib_from_library_ordinal in Hdylib.
    rewrite index_nonneg in Hdylib by lia.
    split; [done|]. split; [done|]. intros Hlater.
    assert (foldl (λ (m : gmap string string) kv, <[kv.1 := kv.2]> m) ∅ pairs
              !! k = Some v) as Hlookup.
    { rewrite foldl_insert_lookup.
      rewrite (last_filter_lookup (λ kv : string * string, kv.1 = k)
                 pairs (Z.to_nat j) (k, v)); [done..|].
      intros i' [k' v'] Hi' Hkv' Heq. simpl in Heq. subst k'.
      pose proof (Hpairs _ _ Hkv') as Hres'.
      apply linked_dylib_symbol_Some in Hres' as (sym' & _ & Hu' & _).
      apply lookup_lt_Some in Hkv'.
      apply (Hlater (Z.of_nat i') sym' k); [lia|done..]. }
    split; [done|]. exists sym, k, dylib, v. done.
Qed.

(** ** The example binaries *)

(** Python 3 evaluates [int((2**56 - 1) / 8)] to [2**53]: beyond [2^53]
    the entry count is the rounded quotient, not its floor. *)
Example int_truediv_large :
  Py.int_truediv (2 ^ 56 - 1) 8 = 2 ^ 53 ∧ (2 ^ 56 - 1) / 8 = 2 ^ 53 - 1.
Proof. by vm_compute. Qed.

Example init_demo :
  ObjcRuntimeDataParser.init Fixture.demo
  = ([ LogParsingRuntimeInfo; LogStep1ParsingSelrefs; LogStep2ParsingClasses;
       LogCrossReferencing; LogParsingSelectorsForClass "DTLabel";
       LogInvalidObjcDataRaw 0x10000B100 0x40;
       LogParsingSelectorsForClass "Empty"; LogResolvingDylibMap ],
     Some Fixture.demo_parser).
Proof. reflexivity. Qed.

Example demo_queries :
  ObjcRuntimeDataParser.selector_for_selref Fixture.demo_parser (Some 0x100009070)
  = Some Fixture.configureLabel
  ∧ ObjcRuntimeDataParser.selector_for_selref Fixture.demo_parser (Some 0x100009080)
    = Some (ObjcSelector.mk "systemFontOfSize:"
              (Some Fixture.systemFontOfSize_selref) None true)
  ∧ ObjcRuntimeDataParser.selector_for_selref Fixture.demo_parser (Some 0x100009088)
    = None
  ∧ ObjcRuntimeDataParser.path_for_external_symbol Fixture.demo_parser "_NSLog"
    = Some Fixture.Foundation.
Proof. by vm_compute. Qed.

(** A symbol with library ordinal 0 is attributed to the last dylib:
    [load_dylib_commands[-1]]. *)
Example ordinal_zero_takes_last_dylib :
  result (ObjcRuntimeDataParser.init Fixture.ordinal_zero)
  = Some Fixture.ordinal_zero_parser
  ∧ undefined_symbol Fixture.ordinal_zero 0 = Some (Nlist.mk 10 0, "_NSLog"%string)
  ∧ library_ordinal (Nlist.mk 10 0) = 0
  ∧ ObjcRuntimeDataParser.path_for_external_symbol Fixture.ordinal_zero_parser
      "_NSLog" = Some Fixture.libobjc
  ∧ (last (MachoBinary.load_dylib_commands Fixture.ordinal_zero)
       ≫= install_name Fixture.ordinal_zero) = Some Fixture.libobjc.
Proof. by vm_compute. Qed.

Lemma C1_selector_for_selref_witness :
  result (ObjcRuntimeDataParser.init Fixture.demo) = Some Fixture.demo_parser
  ∧ (∀ a, (∀ s, s ∈ Fixture.demo_selrefs → ObjcSelref.source_address s ≠ a) →
          ObjcRuntimeDataParser.selector_for_selref Fixture.demo_parser (Some a)
          = None)
  ∧ ObjcRuntimeDataParser.selector_for_selref Fixture.demo_parser None = None.
Proof.
  split; [reflexivity|].
  destruct (C1_selector_for_selref Fixture.demo Fixture.demo_parser eq_refl)
    as (_ & _ & H3 & H4).
  split; [exact H3|exact H4].
Defined.

Lemma C2_selref_resolves_witness :
  result (ObjcRuntimeDataParser.init Fixture.demo) = Some Fixture.demo_parser
  ∧ Fixture.systemFontOfSize_selref ∈ Fixture.demo_selrefs
  ∧ ∃ sel,
      ObjcRuntimeDataParser.selector_for_selref Fixture.demo_parser
        (Some 0x100009080) = Some sel
      ∧ ObjcSelector.name sel = "systemFontOfSize:"%string.
Proof.
  assert (Fixture.systemFontOfSize_selref ∈ Fixture.demo_selrefs) as Hin.
  { right. right. left. }
  split; [reflexivity|]. split; [exact Hin|].
  exact (C2_selref_resolves Fixture.demo Fixture.demo_parser
           Fixture.systemFontOfSize_selref eq_refl Hin).
Defined.

Lemma C3_selrefs_pass_witness :
  result (_parse_selrefs Fixture.demo) = Some Fixture.demo_selrefs
  ∧ length Fixture.demo_selrefs = Z.to_nat (Py.int_truediv 24 8)
  ∧ (0 ≤ 24 < 2 ^ 53 → Z.of_nat (length Fixture.demo_selrefs) = 24 / 8)
  ∧ StronglySorted Z.lt (ObjcSelref.source_address <$> Fixture.demo_selrefs).
Proof.
  split; [reflexivity|].
  destruct (C3_selrefs_pass Fixture.demo Fixture.demo_selrefs eq_refl
            : _ ∧ _ ∧ _ ∧ _) as (H1 & H2 & _ & H4).
  split; [exact H1|]. split; [exact H2|exact H4].
Defined.

Lemma C4_imp_low_bits_cleared_witness :
  result (ObjcRuntimeDataParser.init Fixture.demo) = Some Fixture.demo_parser
  ∧ ∀ sel, sel ∈ [Fixture.configureLabel; Fixture.logLabel; Fixture.unreferenced] →
      ∃ v, ObjcSelector.implementation sel = Some v
           ∧ Z.land v 3 = 0
           ∧ Z.testbit v 0 = false ∧ Z.testbit v 1 = false.
Proof.
  split; [reflexivity|].
  refine (proj2 (C4_imp_low_bits_cleared Fixture.demo Fixture.demo_parser
                   (ObjcClass.mk "DTLabel" _) eq_refl _)).
  left.
Defined.

Lemma C5_selref_attached_witness :
  result (ObjcRuntimeDataParser.init Fixture.demo) = Some Fixture.demo_parser
  ∧ Fixture.DTLabel ∈ Fixture.demo_classes
  ∧ ∃ d ents,
      class_source Fixture.demo Fixture.DTLabel d ents
      ∧ ∀ i ent, ents !! i = Some ent →
          ∃ sel, ObjcClass.selectors Fixture.DTLabel !! i = Some sel
                 ∧ ObjcSelector.implementation sel
                   = Some (Z.land (ObjcMethodStruct.implementation ent)
                                  (Z.lnot 3)).
Proof.
  assert (Fixture.DTLabel ∈ Fixture.demo_classes) as Hin by left.
  split; [reflexivity|]. split; [exact Hin|].
  destruct (C5_selref_attached Fixture.demo Fixture.demo_parser
              Fixture.DTLabel eq_refl Hin) as (d & ents & Hsrc & H).
  exists d, ents. split; [exact Hsrc|]. intros i ent Hi.
  destruct (H i ent Hi) as (sel & Hsel & Himp & _).
  exists sel. split; [exact Hsel|exact Himp].
Defined.

Lemma C6_invalid_data_entry_skipped_witness :
  MachoBinary.read_ObjcClassRawStruct Fixture.demo 0x10000A100 true
  = Some (ObjcClassRawStruct.mk 0x10000B100)
  ∧ MachoBinary.read_ObjcDataRawStruct Fixture.demo
      (Z.land 0x10000B100 (Z.lnot 3)) true = Some (ObjcDataRawStruct.mk 0x40 0)
  ∧ 0x40 < MachoBinary.get_virtual_base Fixture.demo
  ∧ parse_classlist_pointer Fixture.demo Fixture.demo_selrefs 0x10000A100
    = ([LogInvalidObjcDataRaw (Z.land 0x10000B100 (Z.lnot 3)) 0x40], Some [])
  ∧ result (classes_loop Fixture.demo Fixture.demo_selrefs
              ([0x10000A000] ++ 0x10000A100 :: [0x10000A200]) [])
    = result (classes_loop Fixture.demo Fixture.demo_selrefs
                ([0x10000A000] ++ [0x10000A200]) [])
  ∧ result (_get_classlist_pointers Fixture.demo)
    = Some ([0x10000A000] ++ 0x10000A100 :: [0x10000A200])
  ∧ result (ObjcRuntimeDataParser.init Fixture.demo) = Some Fixture.demo_parser
  ∧ (∃ c, c ∈ Fixture.demo_classes
          ∧ result (_parse_objc_data_entry Fixture.demo Fixture.demo_selrefs
                      (ObjcDataRawStruct.mk 0x100007100 0x10000C000)) = Some c)
  ∧ (∃ c, c ∈ Fixture.demo_classes
          ∧ result (_parse_objc_data_entry Fixture.demo Fixture.demo_selrefs
                      (ObjcDataRawStruct.mk 0x100007110 0)) = Some c)
  ∧ result (_parse_objc_data_entry Fixture.demo Fixture.demo_selrefs
              (ObjcDataRawStruct.mk 0x100007100 0x10000C000))
    = Some Fixture.DTLabel.
Proof.
  split; [reflexivity|]. split; [reflexivity|]. split; [reflexivity|].
  destruct (C6_invalid_data_entry_skipped Fixture.demo Fixture.demo_selrefs
              0x10000A100 (ObjcClassRawStruct.mk 0x10000B100)
              (ObjcDataRawStruct.mk 0x40 0) eq_refl eq_refl eq_refl)
    as (H1 & H2 & _ & _ & _ & _ & H7 & _).
  split; [exact H1|]. split; [exact (H2 [0x10000A000] [0x10000A200] [])|].
  split; [reflexivity|]. split; [reflexivity|].
  destruct (H7 [0x10000A000] [0x10000A200] Fixture.demo_parser
               eq_refl eq_refl) as [_ Hother].
  split; [|split; [|reflexivity]].
  - apply (Hother 0x10000A000).
    + left.
    + exists (ObjcClassRawStruct.mk 0x10000B001). split; reflexivity.
    + cbv. discriminate.
  - apply (Hother 0x10000A200).
    + right. left.
    + exists (ObjcClassRawStruct.mk 0x10000B200). split; reflexivity.
    + cbv. discriminate.
Defined.

(** C7 as stated fails: the third method of [DTLabel] has a raw [imp] of 2,
    so its selector has the implementation [0], which is present, and yet
    the selector is flagged external. *)
Lemma C7_counterexample :
  result (ObjcRuntimeDataParser.init Fixture.demo) = Some Fixture.demo_parser
  ∧ Fixture.unreferenced
      ∈ all_selectors (ObjcRuntimeDataParser.classes Fixture.demo_parser)
  ∧ ObjcSelector.implementation Fixture.unreferenced = Some 0
  ∧ ObjcSelector.is_external_definition Fixture.unreferenced = true
  ∧ ¬ (ObjcSelector.is_external_definition Fixture.unreferenced = true
       ↔ ObjcSelector.implementation Fixture.unreferenced = None).
Proof.
  split; [reflexivity|]. split; [right; right; left|].
  split; [reflexivity|]. split; [reflexivity|].
  intros [H _]. specialize (H eq_refl). discriminate H.
Qed.

Lemma C7_external_flag_witness :
  result (ObjcRuntimeDataParser.init Fixture.demo) = Some Fixture.demo_parser
  ∧ ∀ sel, sel ∈ all_selectors (ObjcRuntimeDataParser.classes Fixture.demo_parser) →
      ∃ v, ObjcSelector.implementation sel = Some v
           ∧ (ObjcSelector.is_external_definition sel = true ↔ v = 0).
Proof.
  split; [reflexivity|].
  exact (proj1 (proj2 (C7_external_flag Fixture.demo Fixture.demo_parser eq_refl))).
Defined.

Lemma C8_selectors_in_method_order_witness :
  result (ObjcRuntimeDataParser.init Fixture.demo) = Some Fixture.demo_parser
  ∧ Fixture.DTLabel ∈ Fixture.demo_classes
  ∧ ∃ d ents,
      class_source Fixture.demo Fixture.DTLabel d ents
      ∧ length (ObjcClass.selectors Fixture.DTLabel) = length ents
      ∧ ∀ i ent, ents !! i = Some ent →
          ∃ sel, ObjcClass.selectors Fixture.DTLabel !! i = Some sel
                 ∧ method_selector Fixture.demo Fixture.demo_selrefs ent sel.
Proof.
  assert (Fixture.DTLabel ∈ Fixture.demo_classes) as Hin by left.
  split; [reflexivity|]. split; [exact Hin|].
  destruct (C8_selectors_in_method_order Fixture.demo Fixture.demo_parser
              Fixture.DTLabel eq_refl Hin) as (d & ents & Hsrc & Hlen & H & _).
  exists d, ents. split; [exact Hsrc|]. split; [exact Hlen|exact H].
Defined.

(** C9 as stated fails: in [twice] the first undefined symbol is [_NSLog]
    with library ordinal 1, whose dylib is the first load command, with
    install name [Foundation]; the second undefined symbol has the same name
    and library ordinal 2, and [path_for_external_symbol] answers with the
    install name of the second dylib. *)
Lemma C9_counterexample :
  result (ObjcRuntimeDataParser.init Fixture.twice) = Some Fixture.twice_parser
  ∧ 0 ≤ 0 < MachoBinary.dysymtab_nundefsym Fixture.twice
  ∧ undefined_symbol Fixture.twice 0
    = Some (Nlist.mk 10 0x0100, "_NSLog"%string)
  ∧ library_ordinal (Nlist.mk 10 0x0100) = 1
  ∧ (MachoBinary.load_dylib_commands Fixture.twice !! 0%nat
       ≫= install_name Fixture.twice) = Some Fixture.Foundation
  ∧ ObjcRuntimeDataParser.path_for_external_symbol Fixture.twice_parser "_NSLog"
    = Some Fixture.libobjc
  ∧ ¬ records_source_dylib Fixture.twice Fixture.twice_parser 0.
Proof.
  split; [reflexivity|]. split; [done|]. split; [reflexivity|].
  split; [reflexivity|]. split; [reflexivity|]. split; [reflexivity|].
  intros (sym & name & dylib & src & Hu & _ & Hd & Hn & Hp).
  vm_compute in Hu. injection Hu as <- <-.
  vm_compute in Hd. injection Hd as <-.
  vm_compute in Hn. injection Hn as <-.
  vm_compute in Hp. discriminate Hp.
Qed.

Lemma C9_linked_dylib_symbols_witness :
  result (ObjcRuntimeDataParser.init Fixture.demo) = Some Fixture.demo_parser
  ∧ (∀ sym, library_ordinal sym = _library_ordinal_from_n_desc (Nlist.n_desc sym)
            ∧ library_ordinal sym = (Nlist.n_desc sym / 2 ^ 8) mod 2 ^ 8
            ∧ 0 ≤ library_ordinal sym ≤ 255)
  ∧ ∃ sym symbol_name,
      undefined_symbol Fixture.demo 0 = Some (sym, symbol_name)
      ∧ is_Some (ObjcRuntimeDataParser.path_for_external_symbol
                   Fixture.demo_parser symbol_name).
Proof.
  split; [reflexivity|].
  destruct (C9_linked_dylib_symbols Fixture.demo Fixture.demo_parser eq_refl)
    as [Hord H].
  split; [exact Hord|].
  destruct (H 0) as (sym & name & Hu & Hsome & _); [done|].
  exists sym, name. split; [exact Hu|exact Hsome].
Defined.

Lemma C10_missing_sections_witness :
  MachoBinary.sections Fixture.plain !! "__objc_classlist"%string = None
  ∧ MachoBinary.sections Fixture.plain !! "__objc_selrefs"%string = None
  ∧ result (ObjcRuntimeDataParser.init Fixture.plain) = Some Fixture.plain_parser
  ∧ ∀ addr, ObjcRuntimeDataParser.selector_for_selref Fixture.plain_parser addr
            = None.
Proof.
  split; [reflexivity|]. split; [reflexivity|].
  destruct (C10_missing_sections Fixture.plain) as (_ & Hs & Hboth).
  pose proof (Hboth eq_refl eq_refl : _ = Some Fixture.plain_parser) as Hinit.
  split; [exact Hinit|].
  destruct (Hs eq_refl) as [_ Hq]. exact (proj2 (Hq Fixture.plain_parser Hinit)).
Defined.

(** ** Further properties of the parser *)

(** *** Alignment of [imp] and of the class data pointer *)




(** *** The library ordinal *)

(** X2: the library ordinal depends on bits 8 to 15 of [n_desc] only: it
    is the same for [n_desc] read as a signed or as an unsigned 16-bit
    field, it ignores the low byte, and it returns [o] for every [n_desc]
    made of a low byte and [o] in the high byte. *)
Theorem X2_library_ordinal_bits :
  (∀ n_desc k,
     _library_ordinal_from_n_desc (n_desc + k * 2 ^ 16)
     = _library_ordinal_from_n_desc n_desc)
  ∧ (∀ o low, 0 ≤ o < 256 → 0 ≤ low < 256 →
       _library_ordinal_from_n_desc (o * 256 + low) = o)
  ∧ (∀ n_desc i, 0 ≤ i < 8 →
       Z.testbit (_library_ordinal_from_n_desc n_desc) i
       = Z.testbit n_desc (i + 8)).
Proof.
  split; [|split].
  - intros n k.
    rewrite (proj1 (library_ordinal_arith (n + k * 2 ^ 16))),
            (proj1 (library_ordinal_arith n)).
    replace (n + k * 2 ^ 16) with (n + (k * 2 ^ 8) * 2 ^ 8) by lia.
    rewrite Z.div_add by lia. apply Z_mod_plus_full.
  - intros o low Ho Hlow. rewrite (proj1 (library_ordinal_arith _)).
    change (2 ^ 8) with 256.
    replace (o * 256 + low) with (low + o * 256) by lia.
    rewrite Z.div_add by lia. rewrite (Z.div_small low) by lia.
    apply Z.mod_small. lia.
  - intros n i Hi. unfold _library_ordinal_from_n_desc.
    rewrite Z.land_spec, Z.shiftr_spec by lia.
    change 255 with (Z.ones 8). rewrite Z.ones_spec_low by lia.
    apply andb_true_r.
Qed.

Lemma X2_library_ordinal_bits_witness :
  0 ≤ 2 < 256 ∧ 0 ≤ 0x11 < 256
  ∧ _library_ordinal_from_n_desc (2 * 256 + 0x11) = 2.
Proof.
  split; [lia|]. split; [lia|].
  apply (proj1 (proj2 X2_library_ordinal_bits)); lia.
Defined.

(** X3: [_dylib_from_library_ordinal] at an ordinal from 0 to 255 returns
    the element at position [ordinal - 1] when the ordinal is from 1 to the
    number of dylib load commands, returns the last load command when the
    ordinal is 0 and there is one (Python's index [-1]), and raises in every
    other case. *)
Theorem X3_dylib_from_library_ordinal (binary : MachoBinary.t) (ordinal : Z)
    (dylib : DylibCommandStruct.t) :
  0 ≤ ordinal →
  let dylibs := MachoBinary.load_dylib_commands binary in
  (_dylib_from_library_ordinal binary ordinal = Some dylib
   ↔ (ordinal = 0 ∧ last dylibs = Some dylib)
     ∨ (1 ≤ ordinal ≤ Z.of_nat (length dylibs)
        ∧ dylibs !! Z.to_nat (ordinal - 1) = Some dylib))
  ∧ (Z.of_nat (length dylibs) < ordinal →
     _dylib_from_library_ordinal binary ordinal = None)
  ∧ (dylibs = [] → _dylib_from_library_ordinal binary ordinal = None).
Proof.
  intros Ho dylibs. unfold _dylib_from_library_ordinal, Py.index.
  fold dylibs. split; [|split].
  - destruct (decide (ordinal = 0)) as [->|Hne].
    + change (0 <=? 0 - 1) with false. cbv iota.
      destruct (- Z.of_nat (length dylibs) <=? 0 - 1) eqn:Hle.
      * replace (Z.to_nat (Z.of_nat (length dylibs) + (0 - 1)))
          with (pred (length dylibs)) by lia.
        rewrite <-last_lookup. split; [by left|]. intros [[_ ?]|[? _]]; [done|lia].
      * apply Z.leb_gt in Hle. assert (dylibs = []) as ->.
        { destruct dylibs; [done|]. simpl length in Hle. lia. }
        split; [done|]. intros [[_ ?]|[? _]]; [done|lia].
    + assert ((0 <=? ordinal - 1) = true) as -> by (apply Z.leb_le; lia).
      split.
      * intros H. right. split; [|done]. apply lookup_lt_Some in H. lia.
      * intros [[? _]|[_ ?]]; [lia|done].
  - intros Hgt. assert ((0 <=? ordinal - 1) = true) as -> by (apply Z.leb_le; lia).
    apply lookup_ge_None. lia.
  - intros Hnil. rewrite Hnil.
    destruct (0 <=? ordinal - 1); [done|].
    by destruct (- Z.of_nat (length []) <=? ordinal - 1).
Qed.

Lemma X3_dylib_from_library_ordinal_witness :
  0 ≤ 0
  ∧ (_dylib_from_library_ordinal Fixture.demo 0
     = Some (DylibCommandStruct.mk 0x600 24)
     ↔ (0 = 0 ∧ last (MachoBinary.load_dylib_commands Fixture.demo)
               = Some (DylibCommandStruct.mk 0x600 24))
       ∨ (1 ≤ 0 ≤ Z.of_nat (length (MachoBinary.load_dylib_commands Fixture.demo))
          ∧ MachoBinary.load_dylib_commands Fixture.demo !! Z.to_nat (0 - 1)
            = Some (DylibCommandStruct.mk 0x600 24))).
Proof.
  split; [lia|].
  apply (X3_dylib_from_library_ordinal Fixture.demo 0
           (DylibCommandStruct.mk 0x600 24)). lia.
Defined.

(** *** What the passes log *)

Lemma silent_bind {A B} (m : M A) (f : A → M B) :
  logged m = [] → (∀ a, logged (f a) = []) → logged (m ≫= f) = [].
Proof.
  intros Hm Hf. rewrite logged_bind, Hm. simpl.
  destruct (result m); [apply Hf|done].
Qed.

Lemma silent_for_append {A B} (body : A → M B) xs acc :
  (∀ x, logged (body x) = []) → logged (for_append body xs acc) = [].
Proof.
  intros Hbody. revert acc. induction xs as [|x xs IH]; intros acc; [done|].
  cbn [for_append]. by apply silent_bind.
Qed.

Lemma silent_parse_selref_entry binary sect i :
  logged (parse_selref_entry binary sect i) = [].
Proof.
  unfold parse_selref_entry.
  apply silent_bind; [done|]. intros bytes.
  apply silent_bind; [done|]. intros v.
  by apply silent_bind.
Qed.

Lemma logged_parse_selrefs binary :
  logged (_parse_selrefs binary)
  = large_section_warning (selref_entry_count binary).
Proof.
  unfold _parse_selrefs, selref_entry_count, large_section_warning.
  destruct (MachoBinary.sections binary !! "__objc_selrefs"%string)
    as [sect|]; [|done].
  rewrite logged_bind.
  rewrite (silent_for_append _ _ _ (silent_parse_selref_entry binary sect)).
  unfold log_long_parse.
  by destruct (Py.int_truediv _ _ <? 1000).
Qed.

Lemma silent_classlist_loop word data n off acc :
  logged (classlist_loop word data n off acc) = [].
Proof.
  revert off acc. induction n as [|n IH]; intros off acc; [done|].
  cbn [classlist_loop]. by apply silent_bind.
Qed.

Lemma silent_get_classlist_pointers binary :
  logged (_get_classlist_pointers binary) = [].
Proof.
  unfold _get_classlist_pointers.
  destruct (MachoBinary.sections binary !! "__objc_classlist"%string); [|done].
  apply silent_classlist_loop.
Qed.

Lemma silent_methlist_loop self n off acc :
  logged (ObjcDataEntryParser.methlist_loop self n off acc) = [].
Proof.
  revert off acc. induction n as [|n IH]; intros off acc; [done|].
  cbn [ObjcDataEntryParser.methlist_loop].
  apply silent_bind; [done|]. intros ent. by apply silent_bind.
Qed.

Lemma silent_get_selectors self :
  logged (ObjcDataEntryParser.get_selectors self) = [].
Proof.
  unfold ObjcDataEntryParser.get_selectors. apply silent_bind.
  - unfold ObjcDataEntryParser._get_methlist.
    destruct (_ =? 0); [done|].
    apply silent_bind; [done|]. intros fptr. by apply silent_bind.
  - intros [[methlist fptr]|]; [|done]. apply silent_methlist_loop.
Qed.

Lemma silent_linked_dylib_symbol binary j :
  logged (linked_dylib_symbol binary j) = [].
Proof.
  unfold linked_dylib_symbol.
  apply silent_bind; [done|]. intros sym.
  apply silent_bind; [done|]. intros name.
  apply silent_bind; [done|]. intros dylib.
  by apply silent_bind.
Qed.

Lemma silent_parse_linked_dylib_symbols binary :
  logged (_parse_linked_dylib_symbols binary) = [].
Proof.
  unfold _parse_linked_dylib_symbols.
  generalize (∅ : gmap string string).
  induction (range (MachoBinary.dysymtab_nundefsym binary)) as [|j idxs IH];
    intros m0; [done|].
  cbn [linked_dylib_loop].
  apply silent_bind; [apply silent_linked_dylib_symbol|]. by intros [k v].
Qed.

Lemma lift_Some_bind {A B} (a : A) (f : A → M B) : lift (Some a) ≫= f = f a.
Proof. unfold lift, mbind, M_bind. by destruct (f a). Qed.

Lemma logged_log_bind {B} e (f : unit → M B) :
  logged (log e ≫= f) = e :: logged (f tt).
Proof. by rewrite logged_bind. Qed.

Lemma logged_parse_objc_data_entry binary selrefs d c :
  result (_parse_objc_data_entry binary selrefs d) = Some c →
  logged (_parse_objc_data_entry binary selrefs d)
  = [LogParsingSelectorsForClass (ObjcClass.name c)].
Proof.
  intros H. destruct (parse_objc_data_entry_Some _ _ _ _ H) as [Hname _].
  unfold _parse_objc_data_entry.
  rewrite Hname, lift_Some_bind, logged_log_bind. f_equal.
  apply silent_bind; [apply silent_get_selectors|done].
Qed.

(** One classlist entry: what it logs and what it adds. *)
Lemma parse_classlist_pointer_run binary selrefs ptr added :
  result (parse_classlist_pointer binary selrefs ptr) = Some added →
  ∃ e, classlist_event binary ptr = Some e
       ∧ logged (parse_classlist_pointer binary selrefs ptr) = [e]
       ∧ ObjcClass.name <$> added = option_list (announced_class e).
Proof.
  intros H.
  destruct (parse_classlist_pointer_Some _ _ _ _ H) as (d & (ce & Hce & Hd) & Hcase).
  unfold parse_classlist_pointer, _get_objc_class_from_classlist_pointer,
    _get_objc_data_from_objc_class, classlist_event.
  cbv zeta. rewrite Hce, lift_Some_bind, bind_ret_l.
  cbn [ObjcClassRawStruct.data mbind option_bind].
  rewrite !Hd, lift_Some_bind. cbn [mbind option_bind].
  destruct (ObjcDataRawStruct.name d <? MachoBinary.get_virtual_base binary).
  - subst added. eexists. split; [done|]. split; [|done].
    by rewrite bind_assoc, logged_log_bind, !bind_ret_l.
  - destruct Hcase as (c & Hc & ->).
    destruct (parse_objc_data_entry_Some _ _ _ _ Hc) as [Hname _].
    rewrite Hname. cbn [mbind option_bind].
    eexists. split; [done|]. split; [|done].
    rewrite bind_ret_l, logged_bind, Hc.
    rewrite (logged_parse_objc_data_entry _ _ _ _ Hc). done.
Qed.

(** The classlist loop: one event per entry, and the announced names are
    the names of the classes added. *)
Lemma classes_loop_run binary selrefs ptrs acc classes :
  result (classes_loop binary selrefs ptrs acc) = Some classes →
  ∃ events,
    Forall2 (λ ptr e, classlist_event binary ptr = Some e) ptrs events
    ∧ logged (classes_loop binary selrefs ptrs acc) = events
    ∧ ObjcClass.name <$> classes
      = (ObjcClass.name <$> acc) ++ omap announced_class events.
Proof.
  revert acc. induction ptrs as [|ptr ptrs IH]; intros acc H;
    cbn [classes_loop] in *.
  - rewrite result_ret in H. injection H as <-. exists [].
    split; [constructor|]. split; [done|]. by rewrite app_nil_r.
  - apply result_bind_Some in H as (added & Hadded & H).
    destruct (parse_classlist_pointer_run _ _ _ _ Hadded) as (e & He & Hlog & Hnames).
    destruct (IH _ H) as (events & Hall & Hlogs & Hn).
    exists (e :: events). split; [by constructor|]. split.
    + by rewrite logged_bind, Hadded, Hlog, Hlogs.
    + rewrite Hn, fmap_app, Hnames, <-app_assoc. f_equal.
      cbn [omap list_omap]. by destruct (announced_class e).
Qed.

(** The log of a construction that returns. *)
Lemma logged_init_Some binary p :
  result (ObjcRuntimeDataParser.init binary) = Some p →
  ∃ ptrs events,
    result (_get_classlist_pointers binary) = Some ptrs
    ∧ Forall2 (λ ptr e, classlist_event binary ptr = Some e) ptrs events
    ∧ logged (ObjcRuntimeDataParser.init binary)
      = [LogParsingRuntimeInfo; LogStep1ParsingSelrefs]
        ++ large_section_warning (selref_entry_count binary)
        ++ [LogStep2ParsingClasses; LogCrossReferencing]
        ++ events ++ [LogResolvingDylibMap]
    ∧ omap announced_class events
      = ObjcClass.name <$> ObjcRuntimeDataParser.classes p.
Proof.
  intros H. apply init_Some in H as (selrefs & classes & syms & Hs & Hc & Hy & ->).
  pose proof Hc as Hc'.
  apply parse_static_objc_runtime_info_Some in Hc' as (ptrs & Hptrs & Hloop).
  destruct (classes_loop_run _ _ _ _ _ Hloop) as (events & Hall & Hlogs & Hn).
  exists ptrs, events. split; [done|]. split; [done|]. split; [|done].
  unfold ObjcRuntimeDataParser.init.
  rewrite !logged_log_bind, logged_bind, Hs, logged_parse_selrefs.
  rewrite logged_log_bind, logged_bind, Hc.
  unfold _parse_static_objc_runtime_info at 1.
  rewrite logged_log_bind, logged_bind, Hptrs, silent_get_classlist_pointers.
  rewrite Hlogs, logged_log_bind, logged_bind, Hy.
  rewrite silent_parse_linked_dylib_symbols. cbn [logged mret M_ret fst app].
  done.
Qed.

Lemma classlist_event_not_warning binary ptr e n :
  classlist_event binary ptr = Some e → e ≠ WarnLargeObjcSection n.
Proof.
  unfold classlist_event. intros H ->.
  destruct (MachoBinary.read_ObjcClassRawStruct binary ptr true) as [ce|];
    [|done].
  cbn [mbind option_bind] in H.
  destruct (MachoBinary.read_ObjcDataRawStruct binary _ true) as [d|]; [|done].
  cbn [mbind option_bind] in H.
  destruct (_ <? _); [done|].
  by destruct (MachoBinary.get_full_string_from_start_address binary _ true).
Qed.

(** X4: the log of a construction that returns is exactly: the two opening
    events, the large-section warning when the selrefs section has at least
    1000 entries, the two events opening the class pass, one event per
    [__objc_classlist] entry in classlist order (the class name about to be
    parsed, or the invalid data structure), and the closing event of the
    symbol pass. The class names announced are the names of the parsed
    classes, in order. *)
Theorem X4_construction_log (binary : MachoBinary.t)
    (p : ObjcRuntimeDataParser.t) :
  result (ObjcRuntimeDataParser.init binary) = Some p →
  ∃ ptrs events,
    result (_get_classlist_pointers binary) = Some ptrs
    ∧ Forall2 (λ ptr e, classlist_event binary ptr = Some e) ptrs events
    ∧ logged (ObjcRuntimeDataParser.init binary)
      = [LogParsingRuntimeInfo; LogStep1ParsingSelrefs]
        ++ large_section_warning (selref_entry_count binary)
        ++ [LogStep2ParsingClasses; LogCrossReferencing]
        ++ events ++ [LogResolvingDylibMap]
    ∧ omap announced_class events
      = ObjcClass.name <$> ObjcRuntimeDataParser.classes p
    ∧ length events = length ptrs.
Proof.
  intros H.
  destruct (logged_init_Some binary p H) as (ptrs & events & Hp & Hall & Hlog & Hn).
  exists ptrs, events. repeat (split; [done|]).
  symmetry. by apply Forall2_length in Hall.
Qed.

Lemma X4_construction_log_witness :
  result (ObjcRuntimeDataParser.init Fixture.demo) = Some Fixture.demo_parser
  ∧ ∃ ptrs events,
      result (_get_classlist_pointers Fixture.demo) = Some ptrs
      ∧ Forall2 (λ ptr e, classlist_event Fixture.demo ptr = Some e) ptrs events
      ∧ logged (ObjcRuntimeDataParser.init Fixture.demo)
        = [LogParsingRuntimeInfo; LogStep1ParsingSelrefs]
          ++ large_section_warning (selref_entry_count Fixture.demo)
          ++ [LogStep2ParsingClasses; LogCrossReferencing]
          ++ events ++ [LogResolvingDylibMap]
      ∧ omap announced_class events
        = ObjcClass.name <$> Fixture.demo_classes
      ∧ length events = length ptrs.
Proof.
  split; [reflexivity|].
  exact (X4_construction_log Fixture.demo Fixture.demo_parser eq_refl).
Defined.

(** X5: the selrefs pass logs the large-section warning exactly when the
    section has at least 1000 entries, before it reads any entry and so
    whether or not it then raises; it logs nothing else. In the log of a
    construction that returns, a large-section warning occurs exactly in
    that case, with the entry count. *)
Theorem X5_large_section_warning (binary : MachoBinary.t) :
  logged (_parse_selrefs binary)
  = (if selref_entry_count binary <? 1000 then []
     else [WarnLargeObjcSection (selref_entry_count binary)])
  ∧ ∀ p n,
      result (ObjcRuntimeDataParser.init binary) = Some p →
      (WarnLargeObjcSection n ∈ logged (ObjcRuntimeDataParser.init binary)
       ↔ n = selref_entry_count binary ∧ 1000 ≤ n).
Proof.
  split; [apply logged_parse_selrefs|].
  intros p n H.
  destruct (logged_init_Some binary p H) as (ptrs & events & _ & Hall & -> & _).
  assert (WarnLargeObjcSection n ∉ events) as Hev.
  { intros Hin. apply list_elem_of_lookup in Hin as [i Hi].
    destruct (Forall2_lookup_r _ _ _ _ _ Hall Hi) as (ptr & _ & He).
    by destruct (classlist_event_not_warning _ _ _ n He). }
  assert (WarnLargeObjcSection n
            ∈ large_section_warning (selref_entry_count binary)
          ↔ n = selref_entry_count binary ∧ 1000 ≤ n) as Hw.
  { unfold large_section_warning.
    destruct (selref_entry_count binary <? 1000) eqn:Hlt.
    - apply Z.ltb_lt in Hlt. rewrite elem_of_nil. split; [done|lia].
    - apply Z.ltb_ge in Hlt. rewrite list_elem_of_singleton. split.
      + intros Heq. injection Heq as ->. done.
      + by intros [-> _]. }
  rewrite !elem_of_app, Hw. split.
  - intros [Hin|[Hin|[Hin|[Hin|Hin]]]]; [|done| |by destruct Hev|];
      repeat (apply elem_of_cons in Hin as [Hin|Hin]; [discriminate Hin|]);
      by apply elem_of_nil in Hin.
  - intros Hn. right. by left.
Qed.

Lemma X5_large_section_warning_witness :
  result (ObjcRuntimeDataParser.init Fixture.demo) = Some Fixture.demo_parser
  ∧ (WarnLargeObjcSection 3 ∈ logged (ObjcRuntimeDataParser.init Fixture.demo)
     ↔ 3 = selref_entry_count Fixture.demo ∧ 1000 ≤ 3).
Proof.
  split; [reflexivity|].
  exact (proj2 (X5_large_section_warning Fixture.demo) Fixture.demo_parser 3
           eq_refl).
Defined.

(** *** The classlist pass, entry by entry *)

(** X6: the parsed classes follow [__objc_classlist]: every entry leads to
    a data structure, and the classes are, in classlist order, what
    [_parse_objc_data_entry] returns on exactly the data structures whose
    name pointer is not below the virtual base. No other entry is dropped
    and none is parsed twice, so there are at most as many classes as
    entries. *)
Theorem X6_classes_follow_classlist (binary : MachoBinary.t)
    (p : ObjcRuntimeDataParser.t) :
  result (ObjcRuntimeDataParser.init binary) = Some p →
  ∃ ptrs ds,
    result (_get_classlist_pointers binary) = Some ptrs
    ∧ Forall2 (pointer_data binary) ptrs ds
    ∧ Forall2 (λ d c,
                 result (_parse_objc_data_entry binary
                           (ObjcRuntimeDataParser._selrefs p) d) = Some c)
              (filter (λ d, MachoBinary.get_virtual_base binary
                            ≤ ObjcDataRawStruct.name d) ds)
              (ObjcRuntimeDataParser.classes p)
    ∧ (length (ObjcRuntimeDataParser.classes p) ≤ length ptrs)%nat.
Proof.
  intros H.
  destruct (init_classlist_steps binary p H) as (ptrs & ls & Hptrs & Hall & ->).
  exists ptrs.
  assert (∃ ds,
            Forall2 (pointer_data binary) ptrs ds
            ∧ Forall2 (λ d c,
                 result (_parse_objc_data_entry binary
                           (ObjcRuntimeDataParser._selrefs p) d) = Some c)
                (filter (λ d, MachoBinary.get_virtual_base binary
                              ≤ ObjcDataRawStruct.name d) ds)
                (mjoin ls)) as (ds & Hds & Hcs).
  { clear Hptrs. induction Hall as [|ptr added ptrs ls Hstep _ IH].
    - exists []. split; constructor.
    - destruct IH as (ds & Hds & Hcs).
      apply parse_classlist_pointer_Some in Hstep as (d & Hd & Hcase).
      exists (d :: ds). split; [by constructor|].
      rewrite filter_cons. cbn [mjoin list_join].
      destruct (ObjcDataRawStruct.name d <? MachoBinary.get_virtual_base binary)
        eqn:Hlt.
      + apply Z.ltb_lt in Hlt. subst added.
        destruct (decide _) as [?|_]; [lia|done].
      + apply Z.ltb_ge in Hlt. destruct Hcase as (c & Hc & ->).
        destruct (decide _) as [_|?]; [|lia]. by constructor. }
  exists ds. split; [done|]. split; [done|]. split; [done|].
  apply Forall2_length in Hds, Hcs. rewrite <-Hcs, Hds. apply length_filter.
Qed.

Lemma X6_classes_follow_classlist_witness :
  result (ObjcRuntimeDataParser.init Fixture.demo) = Some Fixture.demo_parser
  ∧ ∃ ptrs ds,
      result (_get_classlist_pointers Fixture.demo) = Some ptrs
      ∧ Forall2 (pointer_data Fixture.demo) ptrs ds
      ∧ Forall2 (λ d c,
                   result (_parse_objc_data_entry Fixture.demo
                             Fixture.demo_selrefs d) = Some c)
                (filter (λ d, MachoBinary.get_virtual_base Fixture.demo
                              ≤ ObjcDataRawStruct.name d) ds)
                Fixture.demo_classes
      ∧ (length Fixture.demo_classes ≤ length ptrs)%nat.
Proof.
  split; [reflexivity|].
  exact (X6_classes_follow_classlist Fixture.demo Fixture.demo_parser eq_refl).
Defined.

(** X7: an unreadable classlist entry is not skipped: construction raises
    when, for some entry of [__objc_classlist], the class structure cannot
    be read, or its data structure cannot be read, or the data structure is
    valid but its class name cannot be read or its nonzero [base_methods]
    cannot be translated to a file offset. *)
Theorem X7_unreadable_class_raises (binary : MachoBinary.t)
    (ptrs : list Z) (ptr : Z) :
  result (_get_classlist_pointers binary) = Some ptrs →
  ptr ∈ ptrs →
  MachoBinary.read_ObjcClassRawStruct binary ptr true = None
  ∨ (∃ class_entry,
       MachoBinary.read_ObjcClassRawStruct binary ptr true = Some class_entry
       ∧ MachoBinary.read_ObjcDataRawStruct binary
           (Z.land (ObjcClassRawStruct.data class_entry) (Z.lnot 3)) true
         = None)
  ∨ (∃ d, pointer_data binary ptr d
          ∧ MachoBinary.get_virtual_base binary ≤ ObjcDataRawStruct.name d
          ∧ (MachoBinary.get_full_string_from_start_address binary
               (ObjcDataRawStruct.name d) true = None
             ∨ (ObjcDataRawStruct.base_methods d ≠ 0
                ∧ MachoBinary.file_offset_for_virtual_address binary
                    (ObjcDataRawStruct.base_methods d) = None))) →
  result (ObjcRuntimeDataParser.init binary) = None.
Proof.
  intros Hptrs Hin Hbad.
  destruct (result (ObjcRuntimeDataParser.init binary)) as [p|] eqn:Hinit;
    [|done]. exfalso.
  destruct (init_classlist_steps binary p Hinit) as (ptrs' & ls & Hptrs' & Hall & _).
  rewrite Hptrs in Hptrs'. injection Hptrs' as <-.
  apply list_elem_of_lookup in Hin as [i Hi].
  destruct (Forall2_lookup_l _ _ _ _ _ Hall Hi) as (added & _ & Hstep).
  apply parse_classlist_pointer_Some in Hstep as (d & Hd & Hcase).
  destruct Hbad as [Hce|[(ce & Hce & Hdnone)|(d' & Hd' & Hvalid & Hbad)]].
  - destruct Hd as (ce & Hce' & _). congruence.
  - destruct Hd as (ce' & Hce' & Hd). congruence.
  - rewrite (pointer_data_functional _ _ _ _ Hd' Hd) in *.
    apply Z.ltb_ge in Hvalid. rewrite Hvalid in Hcase.
    destruct Hcase as (c & Hc & _).
    apply parse_objc_data_entry_Some in Hc as (Hname & ents & Hents & _).
    destruct Hbad as [Hnone|[Hnz Hoff]]; [congruence|].
    unfold method_list_entries in Hents. apply Z.eqb_neq in Hnz.
    by rewrite Hnz, Hoff in Hents.
Qed.

Lemma X7_unreadable_class_raises_witness :
  result (_get_classlist_pointers FixtureMore.unreadable_class)
  = Some [0x10000A300]
  ∧ 0x10000A300 ∈ [0x10000A300]
  ∧ MachoBinary.read_ObjcClassRawStruct FixtureMore.unreadable_class
      0x10000A300 true = None
  ∧ result (ObjcRuntimeDataParser.init FixtureMore.unreadable_class) = None.
Proof.
  assert (0x10000A300 ∈ [0x10000A300]) as Hin by left.
  split; [reflexivity|]. split; [exact Hin|]. split; [reflexivity|].
  apply (X7_unreadable_class_raises FixtureMore.unreadable_class
           [0x10000A300] 0x10000A300 eq_refl Hin).
  left. reflexivity.
Defined.

(** *** Words read from the binary *)

Lemma le_value_range bs : 0 ≤ Py.le_value bs < 256 ^ Z.of_nat (length bs).
Proof.
  induction bs as [|x bs IH]; [done|].
  cbn [Py.le_value length]. rewrite Nat2Z.inj_succ, Z.pow_succ_r by lia.
  pose proof (Byte.to_N_bounded x) as Hx. apply N2Z.inj_le in Hx.
  change (Z.of_N 255) with 255 in Hx.
  pose proof (N2Z.is_nonneg (Byte.to_N x)). lia.
Qed.

(** A word read with [from_buffer] is an unsigned integer of the word's
    width. *)
Lemma from_buffer_range w buf v :
  Py.from_buffer w buf = Some v → 0 ≤ v < 2 ^ (8 * Py.sizeof w).
Proof.
  unfold Py.from_buffer.
  destruct (Z.of_nat (length buf) <? Py.sizeof w) eqn:Hlt; [done|].
  apply Z.ltb_ge in Hlt. intros H. injection H as <-.
  pose proof (le_value_range (take (Z.to_nat (Py.sizeof w)) buf)) as Hr.
  rewrite length_take_le in Hr by lia.
  pose proof (sizeof_pos w). rewrite Z2Nat.id in Hr by lia.
  replace (2 ^ (8 * Py.sizeof w)) with (256 ^ Py.sizeof w); [done|].
  change 256 with (2 ^ 8). rewrite <-Z.pow_mul_r by lia. done.
Qed.

Lemma result_lift_bind {A B} (o : option A) (f : A → M B) :
  result (lift o ≫= f) = o ≫= (λ a, result (f a)).
Proof. by rewrite result_bind. Qed.

(** X8: the selrefs pass raises exactly when some entry of the section
    cannot be parsed, and an entry cannot be parsed exactly when its bytes
    cannot be read, or fewer bytes than a word come back, or no string can
    be read at the pointer they hold. *)
Theorem X8_selrefs_pass_raises (binary : MachoBinary.t) (sect : MachoSection.t) :
  MachoBinary.sections binary !! "__objc_selrefs"%string = Some sect →
  let word := MachoBinary.platform_word_type binary in
  (result (_parse_selrefs binary) = None
   ↔ ∃ i, 0 ≤ i < Py.int_truediv (MachoSection.size sect) (Py.sizeof word)
          ∧ result (parse_selref_entry binary sect i) = None)
  ∧ ∀ i,
      result (parse_selref_entry binary sect i) = None
      ↔ match MachoBinary.get_content_from_virtual_address binary
                (MachoSection.address sect + i * Py.sizeof word)
                (Py.sizeof word) with
        | None => True
        | Some bytes =>
            Z.of_nat (length bytes) < Py.sizeof word
            ∨ MachoBinary.get_full_string_from_start_address binary
                (Py.le_value (take (Z.to_nat (Py.sizeof word)) bytes)) true
              = None
        end.
Proof.
  intros Hsect word. split.
  - rewrite (result_parse_selrefs_present binary sect Hsect).
    rewrite mapM_None, Exists_exists. fold word. split.
    + intros (i & Hi & Hnone). exists i. split; [|done].
      apply elem_of_seqZ in Hi. lia.
    + intros (i & Hi & Hnone). exists i. split; [|done].
      apply elem_of_seqZ. lia.
  - intros i. unfold parse_selref_entry. fold word.
    rewrite result_lift_bind.
    destruct (MachoBinary.get_content_from_virtual_address binary _ _)
      as [bytes|]; [|done].
    cbn [mbind option_bind]. rewrite result_lift_bind.
    unfold Py.from_buffer.
    destruct (Z.of_nat (length bytes) <? Py.sizeof word) eqn:Hlt.
    + apply Z.ltb_lt in Hlt. split; [by left|done].
    + apply Z.ltb_ge in Hlt. cbn [mbind option_bind].
      rewrite result_lift_bind.
      destruct (MachoBinary.get_full_string_from_start_address binary _ true);
        cbn [mbind option_bind].
      * split; [done|]. intros [?|?]; [lia|done].
      * split; [by right|done].
Qed.

Lemma X8_selrefs_pass_raises_witness :
  MachoBinary.sections Fixture.demo !! "__objc_selrefs"%string
  = Some (MachoSection.mk 0x100009070 24 [])
  ∧ (result (_parse_selrefs Fixture.demo) = None
     ↔ ∃ i, 0 ≤ i < Py.int_truediv 24 8
            ∧ result (parse_selref_entry Fixture.demo
                        (MachoSection.mk 0x100009070 24 []) i) = None).
Proof.
  split; [reflexivity|].
  exact (proj1 (X8_selrefs_pass_raises Fixture.demo
                  (MachoSection.mk 0x100009070 24 []) eq_refl)).
Defined.

Lemma classlist_loop_run word data n off acc :
  0 ≤ off →
  off + Z.of_nat n * Py.sizeof word ≤ Z.of_nat (length data) →
  ∃ ptrs,
    classlist_loop word data n off acc = ([], Some (acc ++ ptrs))
    ∧ length ptrs = n
    ∧ ∀ k ptr, ptrs !! k = Some ptr →
        ptr = Py.le_value (Py.slice data (off + Z.of_nat k * Py.sizeof word)
                             (off + Z.of_nat k * Py.sizeof word + Py.sizeof word))
        ∧ 0 ≤ ptr < 2 ^ (8 * Py.sizeof word).
Proof.
  pose proof (sizeof_pos word) as Hw.
  revert off acc. induction n as [|n IH]; intros off acc Hoff Hlen.
  - exists []. cbn [classlist_loop]. rewrite app_nil_r.
    split; [done|]. split; [done|]. intros k ptr Hk. by destruct k.
  - cbn [classlist_loop].
    assert (length (Py.slice data off (off + Py.sizeof word))
            = Z.to_nat (Py.sizeof word)) as Hslice.
    { unfold Py.slice. rewrite length_take_le; [lia|].
      rewrite length_drop. lia. }
    assert (Py.from_buffer word (Py.slice data off (off + Py.sizeof word))
            = Some (Py.le_value (Py.slice data off (off + Py.sizeof word))))
      as Hval.
    { unfold Py.from_buffer.
      assert ((Z.of_nat (length (Py.slice data off (off + Py.sizeof word)))
               <? Py.sizeof word) = false) as -> by (apply Z.ltb_ge; lia).
      by rewrite take_ge by lia. }
    rewrite Hval, lift_Some_bind.
    destruct (IH (off + Py.sizeof word)
                 (acc ++ [Py.le_value (Py.slice data off (off + Py.sizeof word))]))
      as (ptrs & Hloop & Hn & Hptrs); [lia|lia|].
    exists (Py.le_value (Py.slice data off (off + Py.sizeof word)) :: ptrs).
    split; [by rewrite Hloop, <-app_assoc|]. split; [simpl; by rewrite Hn|].
    intros [|k] ptr Hk.
    + injection Hk as <-. split.
      * by rewrite Z.mul_0_l, Z.add_0_r.
      * by apply (from_buffer_range word _ _ Hval).
    + destruct (Hptrs k ptr Hk) as [-> Hr]. split; [|done].
      do 2 f_equal; lia.
Qed.

(** X9: when the binary has an [__objc_classlist] section, reading its
    pointers never raises and logs nothing: there are as many pointers as
    whole words in the section content, trailing bytes being ignored, and
    the [k]-th pointer is the little-endian value of the [k]-th word, an
    unsigned integer of the word's width. (The content is shorter than
    [2^53] bytes, as every byte string is.) *)
Theorem X9_classlist_pointers (binary : MachoBinary.t) (sect : MachoSection.t) :
  MachoBinary.sections binary !! "__objc_classlist"%string = Some sect →
  Z.of_nat (length (MachoSection.content sect)) < 2 ^ 53 →
  let word := MachoBinary.platform_word_type binary in
  ∃ ptrs,
    _get_classlist_pointers binary = ([], Some ptrs)
    ∧ Z.of_nat (length ptrs)
      = Z.of_nat (length (MachoSection.content sect)) / Py.sizeof word
    ∧ ∀ k ptr, ptrs !! k = Some ptr →
        ptr = Py.le_value
                (Py.slice (MachoSection.content sect)
                   (Z.of_nat k * Py.sizeof word)
                   (Z.of_nat k * Py.sizeof word + Py.sizeof word))
        ∧ 0 ≤ ptr < 2 ^ (8 * Py.sizeof word).
Proof.
  intros Hsect Hlen word. unfold _get_classlist_pointers.
  rewrite Hsect. fold word.
  pose proof (sizeof_pos word) as Hw.
  rewrite int_truediv_small by lia.
  pose proof (Z.mul_div_le (Z.of_nat (length (MachoSection.content sect)))
                (Py.sizeof word) Hw) as Hle.
  assert (0 ≤ Z.of_nat (length (MachoSection.content sect)) / Py.sizeof word)
    as Hnn by (apply Z.div_pos; lia).
  destruct (classlist_loop_run word (MachoSection.content sect)
              (Z.to_nat (Z.of_nat (length (MachoSection.content sect))
                         / Py.sizeof word)) 0 [])
    as (ptrs & Hloop & Hn & Hptrs); [lia|lia|].
  exists ptrs. split; [done|]. split; [lia|].
  intros k ptr Hk. destruct (Hptrs k ptr Hk) as [-> Hr]. done.
Qed.

Lemma X9_classlist_pointers_witness :
  MachoBinary.sections Fixture.demo !! "__objc_classlist"%string
  = Some (MachoSection.mk 0x100008000 24
            (Fixture.le_bytes 8 0x10000A000 ++ Fixture.le_bytes 8 0x10000A100
             ++ Fixture.le_bytes 8 0x10000A200))
  ∧ 24 < 2 ^ 53
  ∧ ∃ ptrs,
      _get_classlist_pointers Fixture.demo = ([], Some ptrs)
      ∧ Z.of_nat (length ptrs) = 24 / 8.
Proof.
  split; [reflexivity|]. split; [lia|].
  destruct (X9_classlist_pointers Fixture.demo _ eq_refl)
    as (ptrs & Hrun & Hlen & _).
  { simpl. lia. }
  exists ptrs. split; [exact Hrun|exact Hlen].
Defined.

(** X10: every destination address of a parsed selref is an unsigned
    integer of the width of the platform word. *)
Theorem X10_selref_destination_range (binary : MachoBinary.t)
    (selrefs : list ObjcSelref.t) (s : ObjcSelref.t) :
  result (_parse_selrefs binary) = Some selrefs →
  s ∈ selrefs →
  0 ≤ ObjcSelref.destination_address s
    < 2 ^ (8 * Py.sizeof (MachoBinary.platform_word_type binary)).
Proof.
  intros Hres Hs.
  destruct (MachoBinary.sections binary !! "__objc_selrefs"%string)
    as [sect|] eqn:Hsect.
  - destruct (parse_selrefs_lookup binary sect selrefs Hsect Hres) as [_ Hl].
    apply list_elem_of_lookup in Hs as [i Hi].
    destruct (Hl i s Hi) as [_ (bytes & _ & Hv & _)].
    by apply from_buffer_range in Hv.
  - rewrite (result_parse_selrefs_missing binary Hsect) in Hres.
    injection Hres as <-. by apply elem_of_nil in Hs.
Qed.

Lemma X10_selref_destination_range_witness :
  result (_parse_selrefs Fixture.demo) = Some Fixture.demo_selrefs
  ∧ Fixture.logLabel_selref ∈ Fixture.demo_selrefs
  ∧ 0 ≤ 0x100007010 < 2 ^ (8 * 8).
Proof.
  assert (Fixture.logLabel_selref ∈ Fixture.demo_selrefs) as Hin
    by (right; left).
  split; [reflexivity|]. split; [exact Hin|].
  exact (X10_selref_destination_range Fixture.demo Fixture.demo_selrefs
           Fixture.logLabel_selref eq_refl Hin).
Defined.

(** *** Queries *)

Lemma get_method_imp_addresses_filter p selector :
  ObjcRuntimeDataParser.get_method_imp_addresses p selector
  = ObjcSelector.implementation
      <$> filter (λ sel, ObjcSelector.name sel = selector)
                 (all_selectors (ObjcRuntimeDataParser.classes p)).
Proof.
  unfold ObjcRuntimeDataParser.get_method_imp_addresses, all_selectors.
  induction (ObjcRuntimeDataParser.classes p) as [|c classes IH]; [done|].
  cbn [flat_map]. rewrite bind_cons, filter_app, fmap_app, IH. f_equal.
  induction (ObjcClass.selectors c) as [|sel sels IHs]; [done|].
  cbn [flat_map]. rewrite filter_cons, IHs.
  destruct (String.eqb_spec (ObjcSelector.name sel) selector) as [Heq|Hne];
    destruct (decide _); done.
Qed.

(** X11: on a constructed parser [get_method_imp_addresses] returns, in
    class order and method order, the implementation of every selector of a
    parsed class with that name, one per selector. Each element is a present
    address with its two low bits clear, never [None]; and the list is empty
    exactly when no selector of a parsed class has the name. *)
Theorem X11_get_method_imp_addresses (binary : MachoBinary.t)
    (p : ObjcRuntimeDataParser.t) (selector : string) :
  result (ObjcRuntimeDataParser.init binary) = Some p →
  let selectors := all_selectors (ObjcRuntimeDataParser.classes p) in
  let imps := ObjcRuntimeDataParser.get_method_imp_addresses p selector in
  imps = ObjcSelector.implementation
           <$> filter (λ sel, ObjcSelector.name sel = selector) selectors
  ∧ (∀ imp, imp ∈ imps → ∃ v, imp = Some v ∧ Z.land v 3 = 0)
  ∧ (imps = [] ↔ ∀ sel, sel ∈ selectors → ObjcSelector.name sel ≠ selector).
Proof.
  intros Hinit selectors imps. unfold imps.
  rewrite get_method_imp_addresses_filter. fold selectors.
  split; [done|]. split.
  - intros imp Himp. apply list_elem_of_fmap in Himp as (sel & -> & Hsel).
    apply list_elem_of_filter in Hsel as [_ Hsel].
    destruct (parsed_selector binary p sel Hinit Hsel) as (ent & _ & _ & Himp & _).
    eexists. split; [exact Himp|]. apply land_lnot_3_aligned.
  - split.
    + intros Hnil sel Hsel Hname. apply fmap_nil_inv in Hnil.
      assert (sel ∈ filter (λ sel, ObjcSelector.name sel = selector) selectors)
        as Hin by (by apply list_elem_of_filter).
      rewrite Hnil in Hin. by apply elem_of_nil in Hin.
    + intros Hnone. rewrite filter_none; [done|].
      intros sel Hsel. by apply Hnone.
Qed.

Lemma X11_get_method_imp_addresses_witness :
  result (ObjcRuntimeDataParser.init Fixture.demo) = Some Fixture.demo_parser
  ∧ ∀ imp,
      imp ∈ ObjcRuntimeDataParser.get_method_imp_addresses Fixture.demo_parser
              "logLabel" →
      ∃ v, imp = Some v ∧ Z.land v 3 = 0.
Proof.
  split; [reflexivity|].
  exact (proj1 (proj2 (X11_get_method_imp_addresses Fixture.demo
                         Fixture.demo_parser "logLabel" eq_refl))).
Defined.

(** What [selector_for_selref] returns at an address carries a parsed
    selref with that source address and is named by its literal. *)
Lemma selector_for_selref_shape binary p a sel :
  result (ObjcRuntimeDataParser.init binary) = Some p →
  ObjcRuntimeDataParser.selector_for_selref p (Some a) = Some sel →
  (∃ s, ObjcSelector.selref sel = Some s
        ∧ ObjcSelref.source_address s = a
        ∧ s ∈ ObjcRuntimeDataParser._selrefs p
        ∧ ObjcSelector.name sel = ObjcSelref.selector_literal s)
  ∧ ((sel ∈ all_selectors (ObjcRuntimeDataParser.classes p)
      ∧ is_Some (ObjcSelector.implementation sel))
     ∨ ((∀ x, x ∈ all_selectors (ObjcRuntimeDataParser.classes p) →
              ¬ refers_to a x)
        ∧ ObjcSelector.implementation sel = None)).
Proof.
  intros Hinit Hcall.
  destruct (selector_for_selref_cases binary p a Hinit)
    as [(sel' & l1 & l2 & Hcall' & Heq & (s & Hs & Hsrc) & _)
       |(Hnone & Hext & Habs)].
  - rewrite Hcall in Hcall'. injection Hcall' as <-.
    assert (sel ∈ all_selectors (ObjcRuntimeDataParser.classes p)) as Hin.
    { rewrite Heq. apply elem_of_app. right. by left. }
    destruct (parsed_selector_selref binary p sel s Hinit Hin Hs) as [Hsin Hname].
    split; [by exists s|]. left. split; [done|].
    destruct (parsed_selector binary p sel Hinit Hin) as (ent & _ & _ & Himp & _).
    by rewrite Himp.
  - destruct (List.filter
                (λ x, ObjcRuntimeDataParser.int_eq (ObjcSelref.source_address x)
                        (Some a)) (ObjcRuntimeDataParser._selrefs p))
      as [|s rest] eqn:Hf.
    + rewrite Habs in Hcall; [done|]. by apply filter_source_nil.
    + apply filter_source_head in Hf as [Hsin Hsrc].
      rewrite (Hext s Hsin Hsrc) in Hcall. injection Hcall as <-.
      split; [by exists s|]. by right.
Qed.

(** X12: whatever [selector_for_selref] returns on a constructed parser
    carries a selref, never a null one: a parsed selref whose source address
    is the address asked for and whose literal is the selector's name. The
    selector has no implementation exactly when no selector of a parsed
    class carries a selref with that source address. At [None] nothing is
    returned. *)
Theorem X12_selector_for_selref_result (binary : MachoBinary.t)
    (p : ObjcRuntimeDataParser.t) (addr : option Z) (sel : ObjcSelector.t) :
  result (ObjcRuntimeDataParser.init binary) = Some p →
  ObjcRuntimeDataParser.selector_for_selref p addr = Some sel →
  ∃ a s,
    addr = Some a
    ∧ ObjcSelector.selref sel = Some s
    ∧ ObjcSelref.source_address s = a
    ∧ s ∈ ObjcRuntimeDataParser._selrefs p
    ∧ ObjcSelector.name sel = ObjcSelref.selector_literal s
    ∧ (ObjcSelector.implementation sel = None
       ↔ ∀ x, x ∈ all_selectors (ObjcRuntimeDataParser.classes p) →
              ¬ refers_to a x).
Proof.
  intros Hinit Hcall. destruct addr as [a|].
  - destruct (selector_for_selref_shape binary p a sel Hinit Hcall)
      as [(s & Hs & Hsrc & Hsin & Hname) Hcase].
    exists a, s. repeat (split; [done|]).
    destruct Hcase as [[Hin [v Hv]]|[Hnone Himp]].
    + rewrite Hv. split; [done|]. intros Hnone.
      destruct (Hnone sel Hin). by exists s.
    + by rewrite Himp.
  - unfold ObjcRuntimeDataParser.selector_for_selref in Hcall.
    rewrite find_in_classes_flat, find_in_selectors_None_addr in Hcall.
    assert (∀ l : list ObjcSelref.t,
              List.filter (λ x, ObjcRuntimeDataParser.int_eq
                                  (ObjcSelref.source_address x) None) l = [])
      as Hnil by (induction l; done).
    by rewrite Hnil in Hcall.
Qed.

Lemma X12_selector_for_selref_result_witness :
  result (ObjcRuntimeDataParser.init Fixture.demo) = Some Fixture.demo_parser
  ∧ ObjcRuntimeDataParser.selector_for_selref Fixture.demo_parser
      (Some 0x100009070) = Some Fixture.configureLabel
  ∧ ∃ a s,
      Some 0x100009070 = Some a
      ∧ ObjcSelector.selref Fixture.configureLabel = Some s
      ∧ ObjcSelref.source_address s = a
      ∧ s ∈ Fixture.demo_selrefs
      ∧ ObjcSelector.name Fixture.configureLabel = ObjcSelref.selector_literal s
      ∧ (ObjcSelector.implementation Fixture.configureLabel = None
         ↔ ∀ x, x ∈ all_selectors Fixture.demo_classes → ¬ refers_to a x).
Proof.
  split; [reflexivity|]. split; [reflexivity|].
  exact (X12_selector_for_selref_result Fixture.demo Fixture.demo_parser
           (Some 0x100009070) Fixture.configureLabel eq_refl eq_refl).
Defined.

(** X13: the two queries agree: when [selector_for_selref] returns a
    selector with an implementation, that implementation is among the
    addresses [get_method_imp_addresses] returns for the selector's name,
    which is the literal of the selref at the address asked for. *)
Theorem X13_queries_agree (binary : MachoBinary.t)
    (p : ObjcRuntimeDataParser.t) (a v : Z) (sel : ObjcSelector.t) :
  result (ObjcRuntimeDataParser.init binary) = Some p →
  ObjcRuntimeDataParser.selector_for_selref p (Some a) = Some sel →
  ObjcSelector.implementation sel = Some v →
  Some v ∈ ObjcRuntimeDataParser.get_method_imp_addresses p
             (ObjcSelector.name sel)
  ∧ ∃ s, s ∈ ObjcRuntimeDataParser._selrefs p
         ∧ ObjcSelref.source_address s = a
         ∧ Some v ∈ ObjcRuntimeDataParser.get_method_imp_addresses p
                      (ObjcSelref.selector_literal s).
Proof.
  intros Hinit Hcall Himp.
  destruct (selector_for_selref_shape binary p a sel Hinit Hcall)
    as [(s & Hs & Hsrc & Hsin & Hname) Hcase].
  assert (Some v ∈ ObjcRuntimeDataParser.get_method_imp_addresses p
                     (ObjcSelector.name sel)) as Hin.
  { destruct Hcase as [[Hin _]|[_ Hnone]]; [|congruence].
    rewrite get_method_imp_addresses_filter. apply list_elem_of_fmap.
    exists sel. split; [done|]. by apply list_elem_of_filter. }
  split; [done|]. exists s. by rewrite <-Hname.
Qed.

Lemma X13_queries_agree_witness :
  result (ObjcRuntimeDataParser.init Fixture.demo) = Some Fixture.demo_parser
  ∧ ObjcRuntimeDataParser.selector_for_selref Fixture.demo_parser
      (Some 0x100009078) = Some Fixture.logLabel
  ∧ ObjcSelector.implementation Fixture.logLabel = Some 0x100006308
  ∧ Some 0x100006308
      ∈ ObjcRuntimeDataParser.get_method_imp_addresses Fixture.demo_parser
          "logLabel".
Proof.
  split; [reflexivity|]. split; [reflexivity|]. split; [reflexivity|].
  exact (proj1 (X13_queries_agree Fixture.demo Fixture.demo_parser
                  0x100009078 0x100006308 Fixture.logLabel
                  eq_refl eq_refl eq_refl)).
Defined.

(** *** The symbol map *)

(** The pairs the symbol pass records, with the undefined symbol each comes
    from. *)
Lemma init_symbol_pairs binary p :
  result (ObjcRuntimeDataParser.init binary) = Some p →
  ∃ pairs,
    ObjcRuntimeDataParser._sym_to_dylib_path p
    = foldl (λ (m : gmap string string) kv, <[kv.1 := kv.2]> m) ∅ pairs
    ∧ length pairs = Z.to_nat (MachoBinary.dysymtab_nundefsym binary)
    ∧ ∀ i kv, pairs !! i = Some kv →
        ∃ sym source_dylib,
          undefined_symbol binary (Z.of_nat i) = Some (sym, kv.1)
          ∧ _dylib_from_library_ordinal binary (library_ordinal sym)
            = Some source_dylib
          ∧ install_name binary source_dylib = Some kv.2.
Proof.
  intros H. apply init_Some in H as (selrefs & classes & syms & _ & _ & Hy & ->).
  apply parse_linked_dylib_symbols_Some in Hy as (pairs & -> & Hlen & Hpairs).
  exists pairs. split; [done|]. split; [done|]. intros i [k v] Hi.
  by apply linked_dylib_symbol_Some, Hpairs.
Qed.

Lemma index_elem_of {A} (l : list A) i x : Py.index l i = Some x → x ∈ l.
Proof.
  unfold Py.index. destruct (0 <=? i).
  - apply list_elem_of_lookup_2.
  - destruct (_ <=? i); [apply list_elem_of_lookup_2|done].
Qed.

(** X14: on a constructed parser [path_for_external_symbol] knows exactly
    the names of the undefined slice: it returns [None] for a name no symbol
    of the slice has, and otherwise the install name of one of the dylib
    load commands, the one the library ordinal of a symbol of that name
    selects. *)
Theorem X14_path_for_external_symbol (binary : MachoBinary.t)
    (p : ObjcRuntimeDataParser.t) (symbol : string) :
  result (ObjcRuntimeDataParser.init binary) = Some p →
  (ObjcRuntimeDataParser.path_for_external_symbol p symbol = None
   ↔ ∀ j sym, 0 ≤ j < MachoBinary.dysymtab_nundefsym binary →
              undefined_symbol binary j ≠ Some (sym, symbol))
  ∧ ∀ path,
      ObjcRuntimeDataParser.path_for_external_symbol p symbol = Some path →
      ∃ j sym source_dylib,
        0 ≤ j < MachoBinary.dysymtab_nundefsym binary
        ∧ undefined_symbol binary j = Some (sym, symbol)
        ∧ _dylib_from_library_ordinal binary (library_ordinal sym)
          = Some source_dylib
        ∧ source_dylib ∈ MachoBinary.load_dylib_commands binary
        ∧ install_name binary source_dylib = Some path.
Proof.
  intros Hinit.
  destruct (init_symbol_pairs binary p Hinit) as (pairs & Hmap & Hlen & Hpairs).
  unfold ObjcRuntimeDataParser.path_for_external_symbol.
  rewrite Hmap, foldl_insert_lookup.
  destruct (last (filter (λ kv : string * string, kv.1 = symbol) pairs))
    as [[k v]|] eqn:Hlast.
  - assert ((k, v) ∈ filter (λ kv : string * string, kv.1 = symbol) pairs)
      as Hin.
    { apply last_Some in Hlast as [l' ->]. apply elem_of_app. right. by left. }
    apply list_elem_of_filter in Hin as [Hk Hin]. simpl in Hk. subst k.
    apply list_elem_of_lookup in Hin as [i Hi].
    destruct (Hpairs i _ Hi) as (sym & dylib & Hu & Hd & Hn).
    apply lookup_lt_Some in Hi as Hlt. split.
    + split; [done|]. intros Hnone.
      destruct (Hnone (Z.of_nat i) sym); [lia|done].
    + intros path Hpath. injection Hpath as <-.
      exists (Z.of_nat i), sym, dylib. split; [lia|]. split; [done|].
      split; [done|]. split; [|done].
      unfold _dylib_from_library_ordinal in Hd. by apply index_elem_of in Hd.
  - split; [|done]. rewrite lookup_empty. split; [|done].
    intros _ j sym Hj Hu. apply last_None in Hlast.
    destruct (lookup_lt_is_Some_2 pairs (Z.to_nat j)) as [[k v] Hkv]; [lia|].
    destruct (Hpairs _ _ Hkv) as (sym' & _ & Hu' & _).
    rewrite Z2Nat.id in Hu' by lia. rewrite Hu in Hu'. injection Hu' as _ Hk.
    simpl in Hk. subst k.
    assert ((symbol, v) ∈ filter (λ kv : string * string, kv.1 = symbol) pairs)
      as Hin.
    { apply list_elem_of_filter. split; [done|].
      by apply list_elem_of_lookup_2 in Hkv. }
    rewrite Hlast in Hin. by apply elem_of_nil in Hin.
Qed.

Lemma X14_path_for_external_symbol_witness :
  result (ObjcRuntimeDataParser.init Fixture.demo) = Some Fixture.demo_parser
  ∧ (ObjcRuntimeDataParser.path_for_external_symbol Fixture.demo_parser
       "_printf" = None
     ↔ ∀ j sym, 0 ≤ j < MachoBinary.dysymtab_nundefsym Fixture.demo →
                undefined_symbol Fixture.demo j ≠ Some (sym, "_printf"%string)).
Proof.
  split; [reflexivity|].
  exact (proj1 (X14_path_for_external_symbol Fixture.demo Fixture.demo_parser
                  "_printf" eq_refl)).
Defined.

Lemma dylib_from_library_ordinal_None binary ordinal :
  0 ≤ ordinal →
  Z.of_nat (length (MachoBinary.load_dylib_commands binary)) < ordinal
  ∨ MachoBinary.load_dylib_commands binary = [] →
  _dylib_from_library_ordinal binary ordinal = None.
Proof.
  intros Ho Hbad. unfold _dylib_from_library_ordinal, Py.index.
  destruct Hbad as [Hgt|Hnil].
  - assert ((0 <=? ordinal - 1) = true) as -> by (apply Z.leb_le; lia).
    apply lookup_ge_None. lia.
  - rewrite Hnil. destruct (0 <=? ordinal - 1); [done|].
    by destruct (- Z.of_nat (length []) <=? ordinal - 1).
Qed.

(** X15: construction raises when some symbol of the undefined slice has a
    library ordinal above the number of dylib load commands (as the special
    ordinals 0xfe and 0xff are in a binary with fewer dylibs), or when there
    is an undefined symbol and no dylib load command at all. *)
Theorem X15_ordinal_out_of_range_raises (binary : MachoBinary.t)
    (j : Z) (sym : Nlist.t) (symbol_name : string) :
  0 ≤ j < MachoBinary.dysymtab_nundefsym binary →
  undefined_symbol binary j = Some (sym, symbol_name) →
  Z.of_nat (length (MachoBinary.load_dylib_commands binary))
    < library_ordinal sym
  ∨ MachoBinary.load_dylib_commands binary = [] →
  result (ObjcRuntimeDataParser.init binary) = None.
Proof.
  intros Hj Hu Hbad.
  destruct (result (ObjcRuntimeDataParser.init binary)) as [p|] eqn:Hinit;
    [|done]. exfalso.
  destruct (init_symbol_pairs binary p Hinit) as (pairs & _ & Hlen & Hpairs).
  destruct (lookup_lt_is_Some_2 pairs (Z.to_nat j)) as [kv Hkv]; [lia|].
  destruct (Hpairs _ _ Hkv) as (sym' & dylib & Hu' & Hd & _).
  rewrite Z2Nat.id in Hu' by lia. rewrite Hu in Hu'. injection Hu' as <- _.
  rewrite dylib_from_library_ordinal_None in Hd; [done| |done].
  unfold library_ordinal.
  pose proof (proj2 (library_ordinal_arith (Nlist.n_desc sym))) as Hr.
  unfold _library_ordinal_from_n_desc in Hr. lia.
Qed.

Lemma X15_ordinal_out_of_range_raises_witness :
  0 ≤ 0 < MachoBinary.dysymtab_nundefsym FixtureMore.ordinal_high
  ∧ undefined_symbol FixtureMore.ordinal_high 0
    = Some (Nlist.mk 10 0x0500, "_NSLog"%string)
  ∧ Z.of_nat (length (MachoBinary.load_dylib_commands FixtureMore.ordinal_high))
    < library_ordinal (Nlist.mk 10 0x0500)
  ∧ result (ObjcRuntimeDataParser.init FixtureMore.ordinal_high) = None.
Proof.
  assert (0 ≤ 0 < MachoBinary.dysymtab_nundefsym FixtureMore.ordinal_high)
    as Hj by (simpl; lia).
  assert (Z.of_nat (length (MachoBinary.load_dylib_commands
                              FixtureMore.ordinal_high))
          < library_ordinal (Nlist.mk 10 0x0500)) as Hgt
    by (vm_compute; reflexivity).
  split; [exact Hj|]. split; [reflexivity|]. split; [exact Hgt|].
  apply (X15_ordinal_out_of_range_raises FixtureMore.ordinal_high 0
           (Nlist.mk 10 0x0500) "_NSLog" Hj eq_refl).
  left. exact Hgt.
Defined.

(** *** The layout of a method list *)

Lemma read_method_entries_offsets binary sz n off ents :
  read_method_entries binary n off = Some ents →
  (∀ ent, ent ∈ ents → ObjcMethodStruct.sizeof ent = sz) →
  ∀ i ent, ents !! i = Some ent →
    MachoBinary.read_ObjcMethodStruct binary (off + Z.of_nat i * sz) = Some ent.
Proof.
  revert off ents. induction n as [|n IH]; intros off ents H Hsz i ent Hi;
    simpl in H.
  - injection H as <-. by destruct i.
  - destruct (MachoBinary.read_ObjcMethodStruct binary off) as [e|] eqn:He;
      simpl in H; [|done].
    destruct (read_method_entries binary n _) as [rest|] eqn:Hrest;
      simpl in H; [|done].
    injection H as <-. destruct i as [|i]; simpl in Hi.
    + injection Hi as <-. by rewrite Z.mul_0_l, Z.add_0_r.
    + rewrite (Hsz e) in Hrest by (by left).
      replace (off + Z.of_nat (S i) * sz) with (off + sz + Z.of_nat i * sz)
        by lia.
      apply (IH _ _ Hrest); [|done]. intros x Hx. apply Hsz. by right.
Qed.

(** X16: the method entries of a parsed class lie one after the other
    behind the method list header. When every entry of the class reports the
    same size, the entry of the [i]-th selector is the structure at the file
    offset of the method list plus the header size plus [i] entry sizes. *)
Theorem X16_method_entry_offsets (binary : MachoBinary.t)
    (p : ObjcRuntimeDataParser.t) (c : ObjcClass.t) (entry_size : Z) :
  result (ObjcRuntimeDataParser.init binary) = Some p →
  c ∈ ObjcRuntimeDataParser.classes p →
  ∃ d ents,
    class_source binary c d ents
    ∧ Forall2 (method_selector binary (ObjcRuntimeDataParser._selrefs p))
              ents (ObjcClass.selectors c)
    ∧ ∀ methlist_file_ptr methlist,
        ObjcDataRawStruct.base_methods d ≠ 0 →
        MachoBinary.file_offset_for_virtual_address binary
          (ObjcDataRawStruct.base_methods d) = Some methlist_file_ptr →
        MachoBinary.read_ObjcMethodListStruct binary methlist_file_ptr
          = Some methlist →
        (∀ ent, ent ∈ ents → ObjcMethodStruct.sizeof ent = entry_size) →
        ∀ i ent, ents !! i = Some ent →
          MachoBinary.read_ObjcMethodStruct binary
            (methlist_file_ptr + ObjcMethodListStruct.sizeof methlist
             + Z.of_nat i * entry_size) = Some ent.
Proof.
  intros Hinit Hc.
  destruct (parsed_class_source binary p c Hinit Hc) as (d & ents & Hsrc & Hall).
  exists d, ents. split; [done|]. split; [done|].
  intros fptr methlist Hnz Hfptr Hml Hsz i ent Hi.
  destruct Hsrc as (_ & _ & _ & Hents). unfold method_list_entries in Hents.
  apply Z.eqb_neq in Hnz. rewrite Hnz, Hfptr in Hents. simpl in Hents.
  rewrite Hml in Hents. simpl in Hents.
  by apply (read_method_entries_offsets binary entry_size _ _ _ Hents Hsz).
Qed.

Lemma X16_method_entry_offsets_witness :
  result (ObjcRuntimeDataParser.init Fixture.demo) = Some Fixture.demo_parser
  ∧ Fixture.DTLabel ∈ Fixture.demo_classes
  ∧ ∃ d ents,
      class_source Fixture.demo Fixture.DTLabel d ents
      ∧ Forall2 (method_selector Fixture.demo Fixture.demo_selrefs)
                ents (ObjcClass.selectors Fixture.DTLabel).
Proof.
  assert (Fixture.DTLabel ∈ Fixture.demo_classes) as Hin by left.
  split; [reflexivity|]. split; [exact Hin|].
  destruct (X16_method_entry_offsets Fixture.demo Fixture.demo_parser
              Fixture.DTLabel 24 eq_refl Hin) as (d & ents & Hsrc & Hall & _).
  exists d, ents. split; [exact Hsrc|exact Hall].
Defined.

(** *** The printed form of a selector *)

Lemma append_char_cancel_r (s1 s2 : string) (c : Ascii.ascii) :
  s1 +:+ String c "" = s2 +:+ String c "" → s1 = s2.
Proof.
  revert s2. induction s1 as [|x s1 IH]; intros [|y s2] H; simpl in H.
  - done.
  - injection H as _ H. by destruct s2.
  - injection H as _ H. by destruct s1.
  - injection H as -> H. f_equal. by apply IH.
Qed.

Lemma hex_not_NaN v : HexString.of_Z v ≠ "NaN"%string.
Proof. by destruct v. Qed.

Lemma selector_str_inv name imp_addr1 imp_addr2 :
  "<@selector(" +:+ name +:+ ") at " +:+ imp_addr1 +:+ ">"
  = "<@selector(" +:+ name +:+ ") at " +:+ imp_addr2 +:+ ">" →
  imp_addr1 = imp_addr2.
Proof.
  intros H. apply (inj (String.app _)) in H. apply (inj (String.app _)) in H.
  apply (inj (String.app _)) in H. by apply append_char_cancel_r in H.
Qed.

(** X17: a selector built by [ObjcSelector.__init__] prints as
    [<@selector(name) at NaN>] exactly when it is flagged external, and
    otherwise with its implementation in hexadecimal, which reads back to
    the implementation. Two selectors of the same name that print alike are
    both external or have the same implementation. *)
Theorem X17_selector_str (name : string) (selref : option ObjcSelref.t)
    (implementation : option Z) :
  let sel := ObjcSelector.init name selref implementation in
  (ObjcSelector.is_external_definition sel = true
   ↔ ObjcSelector__str__ sel = "<@selector(" +:+ name +:+ ") at NaN>")
  ∧ (∀ v, implementation = Some v → v ≠ 0 →
          ObjcSelector__str__ sel
          = "<@selector(" +:+ name +:+ ") at " +:+ HexString.of_Z v +:+ ">"
          ∧ HexString.to_Z (HexString.of_Z v) = v)
  ∧ (∀ selref' implementation',
       ObjcSelector__str__ sel
       = ObjcSelector__str__ (ObjcSelector.init name selref' implementation') →
       ObjcSelector.is_external_definition sel
       = ObjcSelector.is_external_definition
           (ObjcSelector.init name selref' implementation')
       ∧ (ObjcSelector.is_external_definition sel = false →
          implementation' = implementation)).
Proof.
  intros sel. unfold sel, ObjcSelector__str__.
  cbn [ObjcSelector.init ObjcSelector.name ObjcSelector.implementation
       ObjcSelector.is_external_definition].
  split; [|split].
  - destruct implementation as [v|]; cbn [ObjcSelector.not_implementation];
      [|done].
    destruct (v =? 0); [done|]. split; [done|]. intros H.
    apply (selector_str_inv name (HexString.of_Z v) "NaN") in H.
    by destruct (hex_not_NaN v).
  - intros v -> Hv. cbn [ObjcSelector.not_implementation].
    apply Z.eqb_neq in Hv. rewrite Hv. split; [done|].
    apply HexString.to_Z_of_Z.
  - intros selref' implementation' H. apply selector_str_inv in H.
    destruct implementation as [v|], implementation' as [v'|];
      cbn [ObjcSelector.not_implementation] in *; try done.
    + destruct (v =? 0) eqn:Hv, (v' =? 0) eqn:Hv'; try done.
      * by destruct (hex_not_NaN v').
      * by destruct (hex_not_NaN v).
      * split; [done|]. intros _. f_equal.
        by rewrite <-(HexString.to_Z_of_Z v'), <-H, HexString.to_Z_of_Z.
    + destruct (v =? 0); [done|]. by destruct (hex_not_NaN v).
    + destruct (v' =? 0); [done|]. by destruct (hex_not_NaN v').
Qed.

Lemma X17_selector_str_witness :
  Some 0x100006284 = Some 0x100006284 ∧ 0x100006284 ≠ 0
  ∧ ObjcSelector__str__ Fixture.configureLabel
    = "<@selector(configureLabel) at 0x100006284>"%string.
Proof.
  split; [reflexivity|]. split; [done|].
  exact (proj1 (proj1 (proj2 (X17_selector_str "configureLabel"
                                (Some Fixture.configureLabel_selref)
                                (Some 0x100006284)))
                  0x100006284 eq_refl ltac:(done))).
Defined.

(** *** Selrefs inside their section *)

(** X18: every parsed selref lies wholly inside the [__objc_selrefs]
    section: its source address is at or after the section address and the
    word there ends at or before the end of the section; and each selref is
    exactly one word after the one before it. (The section size is below
    [2^53], where the entry count is the floor of the quotient.) *)
Theorem X18_selrefs_within_section (binary : MachoBinary.t)
    (sect : MachoSection.t) (selrefs : list ObjcSelref.t) :
  MachoBinary.sections binary !! "__objc_selrefs"%string = Some sect →
  0 ≤ MachoSection.size sect < 2 ^ 53 →
  result (_parse_selrefs binary) = Some selrefs →
  let word_size := Py.sizeof (MachoBinary.platform_word_type binary) in
  ∀ i s, selrefs !! i = Some s →
    MachoSection.address sect ≤ ObjcSelref.source_address s
    ∧ ObjcSelref.source_address s + word_size
      ≤ MachoSection.address sect + MachoSection.size sect
    ∧ ∀ t, selrefs !! S i = Some t →
           ObjcSelref.source_address t
           = ObjcSelref.source_address s + word_size.
Proof.
  intros Hsect Hsize Hres word_size i s Hi.
  destruct (parse_selrefs_lookup binary sect selrefs Hsect Hres) as [Hlen Hl].
  pose proof (sizeof_pos (MachoBinary.platform_word_type binary)) as Hw.
  fold word_size in Hw, Hlen.
  rewrite int_truediv_small in Hlen by done.
  destruct (Hl i s Hi) as [Hsrc _]. fold word_size in Hsrc.
  apply lookup_lt_Some in Hi as Hlt.
  pose proof (Z.mul_div_le (MachoSection.size sect) word_size Hw) as Hle.
  assert (0 ≤ MachoSection.size sect / word_size) by (apply Z.div_pos; lia).
  split; [nia|]. split; [nia|].
  intros t Ht. destruct (Hl (S i) t Ht) as [Hsrc' _]. fold word_size in Hsrc'.
  lia.
Qed.

Lemma X18_selrefs_within_section_witness :
  MachoBinary.sections Fixture.demo !! "__objc_selrefs"%string
  = Some (MachoSection.mk 0x100009070 24 [])
  ∧ 0 ≤ 24 < 2 ^ 53
  ∧ result (_parse_selrefs Fixture.demo) = Some Fixture.demo_selrefs
  ∧ Fixture.demo_selrefs !! 2%nat = Some Fixture.systemFontOfSize_selref
  ∧ 0x100009070 ≤ 0x100009080
  ∧ 0x100009080 + 8 ≤ 0x100009070 + 24.
Proof.
  assert (0 ≤ 24 < 2 ^ 53) as Hsize by lia.
  split; [reflexivity|]. split; [exact Hsize|]. split; [reflexivity|].
  split; [reflexivity|].
  destruct (X18_selrefs_within_section Fixture.demo
              (MachoSection.mk 0x100009070 24 []) Fixture.demo_selrefs
              eq_refl Hsize eq_refl 2%nat Fixture.systemFontOfSize_selref eq_refl)
    as (H1 & H2 & _).
  split; [exact H1|exact H2].
Defined.
